(** * Artifact packaging and registry transfer tools: a verification development

    A shallow embedding of the four tools of the repository
    (gcp_artifact_push.py, gcp_npm_pull.py, gcp_npm_push.py and
    gcp_npm_publish.py) together with the properties their specification
    states about them.

    The tools are orchestration code: every step is a file operation, a
    clock reading or a call of an external command line program.  The
    embedding therefore threads an explicit world (file tree, state of the
    host, log of the external commands run so far) through a small monad
    with three outcomes: a returned value, a raised Python exception, or a
    call that never comes back. *)

From Stdlib Require Import String Ascii List ZArith Lia Bool DecimalString.
Import ListNotations.
Open Scope list_scope.
Open Scope string_scope.

(** ** Python strings *)

Module PyStr.

Definition slash : ascii := "/"%char.

(** [s.split(sep)] for a separator of one character: the result is never
    empty, and the empty string gives one empty field. *)
Fixpoint split_on (sep : ascii) (s : string) : list string :=
  match s with
  | EmptyString => [EmptyString]
  | String c s' =>
      if Ascii.eqb c sep then EmptyString :: split_on sep s'
      else match split_on sep s' with
           | [] => [String c EmptyString]
           | h :: t => String c h :: t
           end
  end.

Fixpoint startswith (p s : string) : bool :=
  match p, s with
  | EmptyString, _ => true
  | String _ _, EmptyString => false
  | String a p', String b s' => Ascii.eqb a b && startswith p' s'
  end.

Fixpoint rev_string (s : string) : string :=
  match s with
  | EmptyString => EmptyString
  | String c s' => rev_string s' ++ String c EmptyString
  end.

Definition endswith (suffix s : string) : bool :=
  startswith (rev_string suffix) (rev_string s).

Fixpoint contains_char (c : ascii) (s : string) : bool :=
  match s with
  | EmptyString => false
  | String d s' => Ascii.eqb d c || contains_char c s'
  end.

(** The characters [str.strip()] removes when they are ASCII. *)
Definition is_space (c : ascii) : bool :=
  let n := nat_of_ascii c in
  (((9 <=? n) && (n <=? 13)) || ((28 <=? n) && (n <=? 32)))%nat%bool.

Fixpoint lstrip (s : string) : string :=
  match s with
  | EmptyString => EmptyString
  | String c s' => if is_space c then lstrip s' else s
  end.

Definition rstrip (s : string) : string := rev_string (lstrip (rev_string s)).

Definition strip (s : string) : string := rstrip (lstrip s).

(** [s.replace(old, new)] for a non-empty [old]: occurrences are replaced
    from the left and do not overlap.  [skip] counts the characters of an
    occurrence that was just replaced and are still to be dropped. *)
Fixpoint replace_from (old new : string) (skip : nat) (s : string) : string :=
  match s with
  | EmptyString => EmptyString
  | String c s' =>
      match skip with
      | S k => replace_from old new k s'
      | O =>
          if startswith old s
          then new ++ replace_from old new (String.length old - 1) s'
          else String c (replace_from old new 0 s')
      end
  end.

Definition replace (old new s : string) : string := replace_from old new 0 s.

(** [str(n)] for an integer. *)
Definition str_of_Z (z : Z) : string := NilZero.string_of_int (Z.to_int z).

Fixpoint zeros (n : nat) : string :=
  match n with
  | O => EmptyString
  | S k => String "0"%char (zeros k)
  end.

(** A number printed with leading zeros up to [width] characters, as the
    strftime fields %Y (4), %m, %d, %H, %M and %S (2) are. *)
Definition zero_pad (width : nat) (z : Z) : string :=
  let s := str_of_Z z in zeros (width - String.length s) ++ s.

End PyStr.

(** ** os.path *)

Module OsPath.
Import PyStr.

(** posixpath.join for two components. *)
Definition join (a b : string) : string :=
  if startswith "/" b then b
  else if (String.eqb a "" || endswith "/" a)%bool then a ++ b
  else a ++ "/" ++ b.

(** posixpath.basename: what follows the last slash. *)
Definition basename (p : string) : string := List.last (split_on slash p) "".

(** The components the operating system walks through when it resolves a
    path: empty components and "." are skipped.  Paths are resolved from the
    root of the modelled file tree, which stands for both "/" and the
    working directory of the process; symbolic links and ".." are not
    modelled. *)
Definition segments (p : string) : list string :=
  filter (fun s => negb (String.eqb s "" || String.eqb s "."))
         (split_on slash p).

End OsPath.

(** ** Python exceptions *)

Inductive exn : Type :=
| FileNotFoundError (path : string)
| FileExistsError (path : string)
| NotADirectoryError (path : string)
| IsADirectoryError (path : string)
| DirectoryNotEmpty (path : string)
| ShutilError (msg : string)
| TimeoutExpired (cmd : list string) (timeout : Z)
| JSONDecodeError
| AttributeError (msg : string)
| ReadError (msg : string)
| OSError (msg : string).

Inductive result (A : Type) : Type :=
| Ok (a : A)
| Err (e : exn).
Arguments Ok {A} a.
Arguments Err {A} e.

Definition quoted (s : string) : string := "'" ++ s ++ "'".

(** [str(e)], as the tools paste it into their error texts. *)
Definition str_exn (e : exn) : string :=
  match e with
  | FileNotFoundError p => "[Errno 2] No such file or directory: " ++ quoted p
  | FileExistsError p => "[Errno 17] File exists: " ++ quoted p
  | NotADirectoryError p => "[Errno 20] Not a directory: " ++ quoted p
  | IsADirectoryError p => "[Errno 21] Is a directory: " ++ quoted p
  | DirectoryNotEmpty p => "[Errno 39] Directory not empty: " ++ quoted p
  | ShutilError m => m
  | TimeoutExpired cmd t =>
      "Command " ++ quoted (String.concat " " cmd) ++ " timed out after "
      ++ PyStr.str_of_Z t ++ " seconds"
  | JSONDecodeError => "Expecting value: line 1 column 1 (char 0)"
  | AttributeError m => m
  | ReadError m => m
  | OSError m => m
  end.

(** ** Dictionaries that keep insertion order

    Python dicts, JSON objects and directory listings: a key is updated in
    place when present and appended otherwise. *)

Module Dict.
Section Dict.
Context {A : Type}.

Fixpoint get (k : string) (d : list (string * A)) : option A :=
  match d with
  | [] => None
  | (k', v) :: d' => if String.eqb k k' then Some v else get k d'
  end.

Fixpoint set (k : string) (v : A) (d : list (string * A)) : list (string * A) :=
  match d with
  | [] => [(k, v)]
  | (k', v') :: d' =>
      if String.eqb k k' then (k, v) :: d' else (k', v') :: set k v d'
  end.

Fixpoint del (k : string) (d : list (string * A)) : list (string * A) :=
  match d with
  | [] => []
  | (k', v') :: d' => if String.eqb k k' then del k d' else (k', v') :: del k d'
  end.

Definition keys (d : list (string * A)) : list string := map fst d.
End Dict.
End Dict.

(** ** The file system

    A tree of directories and text files.  Directory entries keep the order
    in which [os.listdir] reports them. *)

Module FS.
Import PyStr.

#[warnings="-register-all"]
Inductive node : Type :=
| File (content : string)
| Dir (entries : list (string * node)).

Definition is_dir (n : node) : bool :=
  match n with Dir _ => true | File _ => false end.

(** *** Operations on resolved paths *)

Fixpoint lookup (p : list string) (n : node) : option node :=
  match p with
  | [] => Some n
  | s :: p' =>
      match n with
      | Dir es =>
          match Dict.get s es with
          | Some c => lookup p' c
          | None => None
          end
      | File _ => None
      end
  end.

(** Bind the path to [v]: the parent directory has to exist. *)
Fixpoint put (p : list string) (v : node) (n : node) : option node :=
  match p with
  | [] => Some v
  | s :: p' =>
      match n with
      | Dir es =>
          match
            match Dict.get s es with
            | Some c => put p' v c
            | None => match p' with [] => Some v | _ :: _ => None end
            end
          with
          | Some c' => Some (Dir (Dict.set s c' es))
          | None => None
          end
      | File _ => None
      end
  end.

(** Unbind the path, which has to be bound and is not the root. *)
Fixpoint remove (p : list string) (n : node) : option node :=
  match p with
  | [] => None
  | s :: p' =>
      match n with
      | Dir es =>
          match Dict.get s es with
          | Some c =>
              match p' with
              | [] => Some (Dir (Dict.del s es))
              | _ =>
                  match remove p' c with
                  | Some c' => Some (Dir (Dict.set s c' es))
                  | None => None
                  end
              end
          | None => None
          end
      | File _ => None
      end
  end.

(** Create the directory and every missing ancestor; fails when a file is
    in the way. *)
Fixpoint mkdirs (p : list string) (n : node) : option node :=
  match n with
  | File _ => None
  | Dir es =>
      match p with
      | [] => Some n
      | s :: p' =>
          match mkdirs p' (match Dict.get s es with
                           | Some c => c
                           | None => Dir []
                           end) with
          | Some c' => Some (Dir (Dict.set s c' es))
          | None => None
          end
      end
  end.

(** Unpack one archive member over what is there: files overwrite files,
    directories merge into directories, and a file and a directory of the
    same name clash. *)
Fixpoint extract_member (new : node) (old : option node) {struct new} : option node :=
  match new with
  | File c =>
      match old with
      | Some (Dir _) => None
      | _ => Some (File c)
      end
  | Dir es =>
      match
        match old with
        | Some (Dir olds) => Some olds
        | Some (File _) => None
        | None => Some []
        end
      with
      | None => None
      | Some olds =>
          option_map Dir
            ((fix go (es : list (string * node)) (acc : list (string * node))
                 {struct es} : option (list (string * node)) :=
                match es with
                | [] => Some acc
                | (k, c) :: es' =>
                    match extract_member c (Dict.get k acc) with
                    | Some c' => go es' (Dict.set k c' acc)
                    | None => None
                    end
                end) es olds)
      end
  end.

End FS.

(** ** os, os.path and shutil on the file tree *)

Module Os.
Import PyStr FS.

(** The empty path names nothing (ENOENT). *)
Definition resolve (p : string) : option (list string) :=
  if String.eqb p "" then None else Some (OsPath.segments p).

Definition stat (p : string) (fs : node) : option node :=
  match resolve p with
  | Some segs => lookup segs fs
  | None => None
  end.

(** os.path.exists *)
Definition path_exists (p : string) (fs : node) : bool :=
  match stat p fs with Some _ => true | None => false end.

(** os.path.isdir *)
Definition isdir (p : string) (fs : node) : bool :=
  match stat p fs with Some (Dir _) => true | _ => false end.

(** open(p, 'r').read() *)
Definition read_text (p : string) (fs : node) : result string :=
  match stat p fs with
  | Some (File c) => Ok c
  | Some (Dir _) => Err (IsADirectoryError p)
  | None => Err (FileNotFoundError p)
  end.

(** open(p, 'w') followed by the writes and the close. *)
Definition write_text (p : string) (c : string) (fs : node) : result node :=
  match resolve p with
  | None => Err (FileNotFoundError p)
  | Some segs =>
      match lookup segs fs with
      | Some (Dir _) => Err (IsADirectoryError p)
      | _ =>
          match put segs (File c) fs with
          | Some fs' => Ok fs'
          | None => Err (FileNotFoundError p)
          end
      end
  end.

(** os.makedirs(p, exist_ok=True) *)
Definition makedirs (p : string) (fs : node) : result node :=
  match resolve p with
  | None => Err (FileNotFoundError p)
  | Some segs =>
      match mkdirs segs fs with
      | Some fs' => Ok fs'
      | None =>
          match lookup segs fs with
          | Some (File _) => Err (FileExistsError p)
          | _ => Err (NotADirectoryError p)
          end
      end
  end.

(** os.listdir *)
Definition listdir (p : string) (fs : node) : result (list string) :=
  match stat p fs with
  | Some (Dir es) => Ok (Dict.keys es)
  | Some (File _) => Err (NotADirectoryError p)
  | None => Err (FileNotFoundError p)
  end.

(** os.rmdir *)
Definition rmdir (p : string) (fs : node) : result node :=
  match stat p fs with
  | Some (Dir []) =>
      match remove (OsPath.segments p) fs with
      | Some fs' => Ok fs'
      | None => Err (OSError ("[Errno 16] Device or resource busy: " ++ quoted p))
      end
  | Some (Dir (_ :: _)) => Err (DirectoryNotEmpty p)
  | Some (File _) => Err (NotADirectoryError p)
  | None => Err (FileNotFoundError p)
  end.

(** shutil.rmtree(p, ignore_errors=True): a directory goes with all it
    holds; anything else is an ignored error. *)
Definition rmtree_ignore_errors (p : string) (fs : node) : node :=
  match stat p fs with
  | Some (Dir _) =>
      match remove (OsPath.segments p) fs with
      | Some fs' => fs'
      | None => fs
      end
  | _ => fs
  end.

(** os.chmod: permission bits are not part of the tree. *)
Definition chmod (p : string) (fs : node) : result node :=
  match stat p fs with
  | Some _ => Ok fs
  | None => Err (FileNotFoundError p)
  end.

Fixpoint rstrip_slash_rev (r : string) : string :=
  match r with
  | String c r' => if Ascii.eqb c slash then rstrip_slash_rev r' else r
  | EmptyString => EmptyString
  end.

(** shutil._basename: the base name once trailing slashes are dropped. *)
Definition shutil_basename (p : string) : string :=
  OsPath.basename (rev_string (rstrip_slash_rev (rev_string p))).

(** os.rename as shutil.move calls it (the target is never a directory
    there), together with what the copying fallback of shutil.move raises
    when a directory is to replace a file. *)
Definition rename (src real_dst : string) (sn : node) (fs : node) : result node :=
  match stat real_dst fs, sn with
  | Some (File _), Dir _ => Err (FileExistsError real_dst)
  | _, _ =>
      match remove (OsPath.segments src) fs with
      | None => Err (OSError ("[Errno 16] Device or resource busy: " ++ quoted src))
      | Some fs1 =>
          match resolve real_dst with
          | None => Err (FileNotFoundError real_dst)
          | Some segs =>
              match put segs sn fs1 with
              | Some fs2 => Ok fs2
              | None => Err (FileNotFoundError real_dst)
              end
          end
      end
  end.

(** shutil.move(src, dst): a destination that is a directory receives the
    source inside it, under the source's base name, unless that name is
    taken there. *)
Definition move (src dst : string) (fs : node) : result node :=
  match stat src fs with
  | None => Err (FileNotFoundError src)
  | Some sn =>
      if isdir dst fs then
        if list_eq_dec string_dec (OsPath.segments src) (OsPath.segments dst)
        then Ok fs
        else
          let real_dst := OsPath.join dst (shutil_basename src) in
          if path_exists real_dst fs
          then Err (ShutilError ("Destination path " ++ quoted real_dst
                                 ++ " already exists"))
          else rename src real_dst sn fs
      else rename src dst sn fs
  end.

End Os.

(** ** JSON documents and the two codecs taken from libraries

    The json and tarfile modules are used as they are.  What a manifest
    text decodes to, how a document is printed with indent=2, and the bytes
    of a gzip-compressed tar archive are those libraries' business: the
    tools are modelled over any such codecs. *)

#[warnings="-register-all"]
Inductive json : Type :=
| JNull
| JBool (b : bool)
| JNum (z : Z)
| JStr (s : string)
| JArr (items : list json)
| JObj (members : list (string * json)).

Class Codecs : Type := {
  (** json.load: [None] when the text is not JSON *)
  json_loads : string -> option json;
  (** json.dump(_, indent=2) *)
  json_dumps : json -> string;
  (** the bytes of a tar.gz archive with the given root entries *)
  tar_pack : list (string * FS.node) -> string;
  (** reading a tar.gz archive: [None] when the bytes are not one *)
  tar_unpack : string -> option (list (string * FS.node))
}.

(** ** The host: external programs, clocks, temporary names *)

(** datetime.datetime.now(), field by field. *)
Record datetime : Type := {
  year : Z; month : Z; day : Z; hour : Z; minute : Z; second : Z
}.

(** One call of subprocess.run. [c_npm_token] is the NPM_TOKEN entry of the
    environment handed over with [env=], when one is. *)
Record call : Type := {
  c_argv : list string;
  c_cwd : option string;
  c_npm_token : option string;
  c_capture_output : bool;
  c_timeout : option Z
}.

(** How a started program behaves: it ends after so many seconds with an
    exit code and its two output streams, it never ends, or it cannot be
    started at all. *)
Inductive behaviour : Type :=
| Finishes (seconds : Z) (returncode : Z) (stdout stderr : string)
| Never
| Fails (e : exn).

Class Host : Type := {
  (** whatever the machine and the network remember between two steps *)
  ext : Type;
  (** running a program: its behaviour, and what it did to the host and to
      the file tree *)
  spawn : call -> ext -> FS.node -> behaviour * ext * FS.node;
  (** datetime.datetime.now() *)
  datetime_now : ext -> datetime * ext;
  (** time.time(), in microseconds since the epoch *)
  time_time : ext -> Z * ext;
  (** the fresh path tempfile.mkdtemp() picks *)
  mkdtemp_name : ext -> string * ext
}.

(** What subprocess.run made of a call. *)
Inductive outcome : Type :=
| Exited (returncode : Z) (stdout stderr : string)
| TimedOut
| Raised (e : exn)
| Hung.

Record event : Type := { ev_call : call; ev_outcome : outcome }.

Record completed : Type := {
  returncode : Z; stdout : string; stderr : string
}.

(** ** Worlds and the monad of the tools *)

(** How a piece of Python ends: with a value, with an exception, or not
    at all. *)
Inductive res (A : Type) : Type :=
| Ret (a : A)
| Raise (e : exn)
| Hang.
Arguments Ret {A} a.
Arguments Raise {A} e.
Arguments Hang {A}.

Section World.
Context {H : Host}.

Record world : Type := {
  w_fs : FS.node;
  w_ext : ext;
  w_trace : list event
}.

Definition M (A : Type) : Type := world -> res A * world.

Definition ret {A} (a : A) : M A := fun w => (Ret a, w).

Definition raise {A} (e : exn) : M A := fun w => (Raise e, w).

Definition bind {A B} (m : M A) (k : A -> M B) : M B :=
  fun w =>
    match m w with
    | (Ret a, w1) => k a w1
    | (Raise e, w1) => (Raise e, w1)
    | (Hang, w1) => (Hang, w1)
    end.

(** try: m  except Exception as e: handler e *)
Definition try_except {A} (m : M A) (handler : exn -> M A) : M A :=
  fun w =>
    match m w with
    | (Raise e, w1) => handler e w1
    | rw => rw
    end.

(** try: m  finally: cleanup -- also on the way out of a return. *)
Definition try_finally {A} (m : M A) (cleanup : M unit) : M A :=
  fun w =>
    match m w with
    | (Hang, w1) => (Hang, w1)
    | (r, w1) =>
        match cleanup w1 with
        | (Ret _, w2) => (r, w2)
        | (Raise e, w2) => (Raise e, w2)
        | (Hang, w2) => (Hang, w2)
        end
    end.

(** A file operation that reads the tree. *)
Definition fs_read {A} (op : FS.node -> result A) : M A :=
  fun w =>
    match op (w_fs w) with
    | Ok a => (Ret a, w)
    | Err e => (Raise e, w)
    end.

(** A file operation that changes the tree. *)
Definition fs_write (op : FS.node -> result FS.node) : M unit :=
  fun w =>
    match op (w_fs w) with
    | Ok fs' => (Ret tt, {| w_fs := fs'; w_ext := w_ext w; w_trace := w_trace w |})
    | Err e => (Raise e, w)
    end.

Definition fs_test (op : FS.node -> bool) : M bool :=
  fun w => (Ret (op (w_fs w)), w).

Definition host_read {A} (op : ext -> A * ext) : M A :=
  fun w =>
    let (a, e') := op (w_ext w) in
    (Ret a, {| w_fs := w_fs w; w_ext := e'; w_trace := w_trace w |}).

(** subprocess.run: TimeoutExpired can only come out of a call that was
    given a timeout; without one the caller waits for as long as the
    program runs. *)
Definition decide (c : call) (b : behaviour) : outcome :=
  match b with
  | Finishes d rc out err =>
      match c_timeout c with
      | Some t => if (t <? d)%Z then TimedOut else Exited rc out err
      | None => Exited rc out err
      end
  | Never =>
      match c_timeout c with
      | Some _ => TimedOut
      | None => Hung
      end
  | Fails e => Raised e
  end.

Definition subprocess_run (c : call) : M completed :=
  fun w =>
    let '(b, e', fs') := spawn c (w_ext w) (w_fs w) in
    let o := decide c b in
    let w' := {| w_fs := fs'; w_ext := e';
                 w_trace := w_trace w ++ [{| ev_call := c; ev_outcome := o |}] |} in
    match o with
    | Exited rc out err =>
        (Ret {| returncode := rc; stdout := out; stderr := err |}, w')
    | TimedOut =>
        (Raise (TimeoutExpired (c_argv c)
                  (match c_timeout c with Some t => t | None => 0%Z end)), w')
    | Raised e => (Raise e, w')
    | Hung => (Hang, w')
    end.

(** for item in items: body item *)
Fixpoint for_each {A} (items : list A) (body : A -> M unit) : M unit :=
  match items with
  | [] => ret tt
  | x :: rest => bind (body x) (fun _ => for_each rest body)
  end.

End World.

Declare Scope py_scope.
Delimit Scope py_scope with py.
Notation "x <- m ;; k" := (bind m (fun x => k))
  (at level 100, m at next level, right associativity) : py_scope.
Notation "m ;;; k" := (bind m (fun _ => k))
  (at level 100, right associativity) : py_scope.

(** ** Requests and results

    A tool receives a JSON object.  The embedding starts after
    [json.loads(args_json)], with the fields at the types the docstrings
    give them; [None] is an absent key.  The [print] calls of the tools
    have no part in any result and are left out. *)

Record request : Type := {
  source_dir : option string;
  project_dir : option string;
  repository_path : option string;
  artifact_name : option string;
  package_name : option string;
  output_dir : option string;
  version : option string;
  timeout : option Z;
  auto_version : option bool;
  dry_run : option bool
}.

(** [args.get(key, default)] *)
Definition get_default {A} (field : option A) (default : A) : A :=
  match field with Some a => a | None => default end.

(** The values found in the dictionaries the tools return. *)
Inductive value : Type :=
| VNone
| VBool (b : bool)
| VInt (z : Z)
| VStr (s : string)
| VList (names : list string)
| VJson (j : json).

Definition pydict : Type := list (string * value).

(** The helpers of the tools return either
    [{"success": True, ...fields}] or [{"success": False, "error": msg}]. *)
Inductive step (A : Type) : Type :=
| Success (fields : A)
| Failure (error : string).
Arguments Success {A} fields.
Arguments Failure {A} error.

Definition nl : string := String (ascii_of_nat 10) EmptyString.

(** strftime("%Y%m%d_%H%M%S") and strftime("%Y%m%d.%H%M%S") *)
Definition strftime_date (d : datetime) : string :=
  PyStr.zero_pad 4 (year d) ++ PyStr.zero_pad 2 (month d) ++ PyStr.zero_pad 2 (day d).

Definition strftime_time (d : datetime) : string :=
  PyStr.zero_pad 2 (hour d) ++ PyStr.zero_pad 2 (minute d) ++ PyStr.zero_pad 2 (second d).

Definition strftime_underscore (d : datetime) : string :=
  strftime_date d ++ "_" ++ strftime_time d.

Definition strftime_dot (d : datetime) : string :=
  strftime_date d ++ "." ++ strftime_time d.

(** ** What the tools share *)

Section Shared.
Context {H : Host} {C : Codecs}.
Open Scope py_scope.

(** tempfile.mkdtemp() *)
Definition mkdir (p : string) (fs : FS.node) : result FS.node :=
  match Os.stat p fs with
  | Some _ => Err (FileExistsError p)
  | None =>
      match Os.resolve p with
      | None => Err (FileNotFoundError p)
      | Some segs =>
          match FS.put segs (FS.Dir []) fs with
          | Some fs' => Ok fs'
          | None => Err (FileNotFoundError p)
          end
      end
  end.

Definition mkdtemp : M string :=
  name <- host_read mkdtemp_name ;;
  fs_write (mkdir name) ;;;
  ret name.

Definition rmtree (p : string) : M unit :=
  fs_write (fun fs => Ok (Os.rmtree_ignore_errors p fs)).

Definition token_call : call :=
  {| c_argv := ["gcloud"; "auth"; "print-access-token"];
     c_cwd := None; c_npm_token := None;
     c_capture_output := true; c_timeout := None |}.

Definition configure_docker_call (registry_host : string) : call :=
  {| c_argv := ["gcloud"; "auth"; "configure-docker"; registry_host];
     c_cwd := None; c_npm_token := None;
     c_capture_output := true; c_timeout := None |}.

(** setup_gcp_auth, which each of three tools defines for itself with
    its own registry host. *)
Definition setup_gcp_auth_for (registry_host : string) : M (option string) :=
  try_except
    (token_process <- subprocess_run token_call ;;
     if negb (returncode token_process =? 0)%Z then ret None
     else
       let token := PyStr.strip (stdout token_process) in
       docker_auth_process <- subprocess_run (configure_docker_call registry_host) ;;
       if negb (returncode docker_auth_process =? 0)%Z then ret None
       else ret (Some token))
    (fun _ => ret None).

Record npmrc_fields : Type := {
  original_npmrc : option string;
  npmrc_path : string
}.

Definition npmrc_text (repository_path token : string) : string :=
  "@observability:registry=https://" ++ repository_path ++ "/" ++ nl
  ++ "//" ++ repository_path ++ "/:_authToken=" ++ token ++ nl
  ++ "//" ++ repository_path ++ "/:always-auth=true" ++ nl
  ++ "//npm.pkg.dev/:_authToken=${NPM_TOKEN}" ++ nl
  ++ "//npm.pkg.dev/:always-auth=true" ++ nl
  ++ "registry=https://registry.npmjs.org/" ++ nl.

(** configure_npmrc, the same in gcp_npm_pull.py and gcp_npm_push.py. *)
Definition configure_npmrc (target_dir repository_path token : string)
  : M (step npmrc_fields) :=
  try_except
    (let npmrc_path := OsPath.join target_dir ".npmrc" in
     present <- fs_test (Os.path_exists npmrc_path) ;;
     original_npmrc <-
       (if present : bool
        then (text <- fs_read (Os.read_text npmrc_path) ;; ret (Some text))
        else ret None) ;;
     fs_write (Os.write_text npmrc_path (npmrc_text repository_path token)) ;;;
     ret (Success {| original_npmrc := original_npmrc;
                     npmrc_path := npmrc_path |}))
    (fun e => ret (Failure (str_exn e))).

(** json.load(f) followed by uses that need a dict. *)
Definition load_manifest (path : string) : M (list (string * json)) :=
  text <- fs_read (Os.read_text path) ;;
  match json_loads text with
  | None => raise JSONDecodeError
  | Some (JObj members) => ret members
  | Some _ => raise (AttributeError "object has no attribute 'get'")
  end.

Definition dump_manifest (path : string) (members : list (string * json)) : M unit :=
  fs_write (Os.write_text path (json_dumps (JObj members))).

(** The two handlers that close every tool but gcp_npm_publish. *)
Definition timeout_result (timeout : Z) : pydict :=
  [("success", VBool false);
   ("error", VStr ("Command timed out after " ++ PyStr.str_of_Z timeout ++ " seconds"))].

Definition boundary (what : string) (timeout : Z) (e : exn) : M pydict :=
  match e with
  | TimeoutExpired _ _ => ret (timeout_result timeout)
  | _ => ret [("success", VBool false);
              ("error", VStr ("Exception during " ++ what ++ ": " ++ str_exn e))]
  end.

End Shared.

(** ** gcp_artifact_push.py *)

Module ArtifactPush.
Section Tool.
Context {H : Host} {C : Codecs}.
Open Scope py_scope.

Definition setup_gcp_auth : M (option string) :=
  setup_gcp_auth_for "us-central1-docker.pkg.dev".

Record artifact_fields : Type := {
  artifact_path : string;
  artifact_filename : string;
  timestamp : string
}.

(** [with tarfile.open(artifact_path, "w:gz") as tar: tar.add(source_dir,
    arcname=...)].  The archive file exists from the opening on; the
    archive never takes itself in, also when it lies below the source. *)
Definition tar_create (artifact_path source_dir arcname : string) : M unit :=
  fs_write (Os.write_text artifact_path (tar_pack [])) ;;;
  source <- fs_read (fun fs =>
              match Os.stat source_dir fs with
              | None => Err (FileNotFoundError source_dir)
              | Some _ =>
                  match FS.remove (OsPath.segments artifact_path) fs with
                  | Some without =>
                      Ok (FS.lookup (OsPath.segments source_dir) without)
                  | None => Ok None
                  end
              end) ;;
  fs_write (Os.write_text artifact_path
              (tar_pack match source with
                        | Some tree => [(arcname, tree)]
                        | None => []
                        end)).

Definition create_compressed_artifact (source_dir output_dir artifact_name : string)
  : M (step artifact_fields) :=
  try_except
    (now <- host_read datetime_now ;;
     let timestamp := strftime_underscore now in
     let artifact_filename := artifact_name ++ "_" ++ timestamp ++ ".tar.gz" in
     let artifact_path := OsPath.join output_dir artifact_filename in
     fs_write (Os.makedirs output_dir) ;;;
     tar_create artifact_path source_dir (OsPath.basename source_dir) ;;;
     ret (Success {| artifact_path := artifact_path;
                     artifact_filename := artifact_filename;
                     timestamp := timestamp |}))
    (fun e => ret (Failure (str_exn e))).

Record push_fields : Type := {
  repository_url : string;
  pushed_path : string;
  package : string;
  push_version : string;
  output : string
}.

Definition invalid_format : string :=
  "Invalid repository path format. Expected: region-docker.pkg.dev/project-id/repository-name".

Definition upload_call (repository_name project_id artifact_name version artifact_path : string)
  : call :=
  {| c_argv := ["gcloud"; "artifacts"; "generic"; "upload";
                "--location=us-central1";
                "--repository=" ++ repository_name;
                "--project=" ++ project_id;
                "--package=" ++ artifact_name;
                "--version=" ++ version;
                "--source=" ++ artifact_path];
     c_cwd := None; c_npm_token := None;
     c_capture_output := true; c_timeout := None |}.

Definition push_to_artifact_registry
  (artifact_path repository_path artifact_name token : string) : M (step push_fields) :=
  try_except
    (let parts := PyStr.split_on PyStr.slash repository_path in
     if (List.length parts <? 3)%nat then ret (Failure invalid_format)
     else
       let project_id := nth 1 parts "" in
       let repository_name := nth 2 parts "" in
       now <- host_read datetime_now ;;
       let version := strftime_dot now in
       push_process <- subprocess_run
         (upload_call repository_name project_id artifact_name version artifact_path) ;;
       if negb (returncode push_process =? 0)%Z
       then ret (Failure ("Failed to push artifact: " ++ stderr push_process))
       else ret (Success {| repository_url := "https://" ++ repository_path;
                            pushed_path := artifact_path;
                            package := artifact_name;
                            push_version := version;
                            output := stdout push_process |}))
    (fun e => ret (Failure (str_exn e))).

Definition gcp_artifact_push (args : request) : M pydict :=
  let output_dir := get_default (output_dir args) "artifacts" in
  let timeout := get_default (timeout args) 300%Z in
  try_except
    match source_dir args with
    | None | Some EmptyString => ret [("error", VStr "Source directory is required")]
    | Some source_dir =>
    match repository_path args with
    | None | Some EmptyString =>
        ret [("error", VStr "GCP Artifact Registry repository path is required")]
    | Some repository_path =>
    match artifact_name args with
    | None | Some EmptyString => ret [("error", VStr "Artifact name is required")]
    | Some artifact_name =>
        temp_dir <- mkdtemp ;;
        try_finally
          (token <- setup_gcp_auth ;;
           match token with
           | None | Some EmptyString =>
               ret [("error", VStr "Failed to authenticate with GCP")]
           | Some token =>
               compress_result <-
                 create_compressed_artifact source_dir output_dir artifact_name ;;
               match compress_result with
               | Failure error =>
                   ret [("error", VStr ("Failed to create compressed artifact: " ++ error))]
               | Success compress =>
                   push_result <-
                     push_to_artifact_registry (artifact_path compress) repository_path
                       (artifact_filename compress) token ;;
                   match push_result with
                   | Failure error =>
                       ret [("error", VStr ("Failed to push artifact: " ++ error))]
                   | Success push =>
                       ret [("success", VBool true);
                            ("artifact_name", VStr (artifact_filename compress));
                            ("artifact_path", VStr (artifact_path compress));
                            ("repository", VStr repository_path);
                            ("timestamp", VStr (timestamp compress));
                            ("package", VStr (package push));
                            ("version", VStr (push_version push));
                            ("output", VStr (output push))]
                   end
               end
           end)
          (rmtree temp_dir)
    end end end
    (boundary "GCP Artifact Registry push" timeout).

End Tool.
End ArtifactPush.

(** ** gcp_npm_pull.py *)

Module NpmPull.
Section Tool.
Context {H : Host} {C : Codecs}.
Open Scope py_scope.

Definition setup_gcp_auth : M (option string) :=
  setup_gcp_auth_for "us-central1-npm.pkg.dev".

Definition registry_url (repository_path : string) : string :=
  "https://" ++ repository_path ++ "/".

Definition cat_call (npmrc_path token : string) : call :=
  {| c_argv := ["cat"; npmrc_path];
     c_cwd := None; c_npm_token := Some token;
     c_capture_output := false; c_timeout := None |}.

Definition view_call (package_name repository_path temp_dir token : string)
  (timeout : Z) : call :=
  {| c_argv := ["npm"; "view"; package_name; "versions"; "--registry";
                registry_url repository_path];
     c_cwd := Some temp_dir; c_npm_token := Some token;
     c_capture_output := true; c_timeout := Some timeout |}.

Definition pack_call (package_spec repository_path temp_dir token : string)
  (timeout : Z) : call :=
  {| c_argv := ["npm"; "pack"; package_spec; "--registry";
                registry_url repository_path];
     c_cwd := Some temp_dir; c_npm_token := Some token;
     c_capture_output := true; c_timeout := Some timeout |}.

(** [with tarfile.open(tarball_path, 'r:gz') as tar:
    tar.extractall(path=output_dir)].  An extraction that fails part of
    the way is modelled as leaving the tree as it was. *)
Definition extractall (tarball_path output_dir : string) : M unit :=
  bytes <- fs_read (Os.read_text tarball_path) ;;
  match tar_unpack bytes with
  | None => raise (ReadError "not a gzip file")
  | Some members =>
      fs_write (fun fs =>
        match FS.extract_member (FS.Dir members) (Os.stat output_dir fs) with
        | None => Err (FileExistsError output_dir)
        | Some merged =>
            match FS.put (OsPath.segments output_dir) merged fs with
            | Some fs' => Ok fs'
            | None => Err (FileNotFoundError output_dir)
            end
        end)
  end.

(** The flatten step: the children of [output_dir/package] move up into
    [output_dir] and the emptied folder is removed. *)
Definition flatten_package (output_dir : string) : M unit :=
  let package_dir := OsPath.join output_dir "package" in
  present <- fs_test (Os.path_exists package_dir) ;;
  if present : bool then
    items <- fs_read (Os.listdir package_dir) ;;
    for_each items (fun item =>
      fs_write (Os.move (OsPath.join package_dir item)
                        (OsPath.join output_dir item))) ;;;
    fs_write (Os.rmdir package_dir)
  else ret tt.

Definition gcp_npm_pull (args : request) : M pydict :=
  let version := get_default (version args) "latest" in
  let output_dir := get_default (output_dir args) "fetched-package" in
  let timeout := get_default (timeout args) 300%Z in
  try_except
    match package_name args with
    | None | Some EmptyString => ret [("error", VStr "Package name is required")]
    | Some package_name =>
    match repository_path args with
    | None | Some EmptyString =>
        ret [("error", VStr "GCP Artifact Registry repository path is required")]
    | Some repository_path =>
        temp_dir <- mkdtemp ;;
        try_finally
          (token <- setup_gcp_auth ;;
           match token with
           | None | Some EmptyString =>
               ret [("error", VStr "Failed to authenticate with GCP")]
           | Some token =>
           npmrc_result <- configure_npmrc temp_dir repository_path token ;;
           match npmrc_result with
           | Failure error =>
               ret [("error", VStr ("Failed to configure .npmrc: " ++ error))]
           | Success npmrc =>
           subprocess_run (cat_call (npmrc_path npmrc) token) ;;;
           versions_process <- subprocess_run
             (view_call package_name repository_path temp_dir token timeout) ;;
           if negb (returncode versions_process =? 0)%Z
           then ret [("error", VStr ("Failed to fetch package versions: "
                                     ++ stderr versions_process))]
           else
           let package_spec :=
             if negb (String.eqb version "latest")
             then package_name ++ "@" ++ version
             else package_name in
           pack_process <- subprocess_run
             (pack_call package_spec repository_path temp_dir token timeout) ;;
           if negb (returncode pack_process =? 0)%Z
           then ret [("success", VBool false);
                     ("error", VStr ("Failed to pack package: " ++ stderr pack_process))]
           else
           names <- fs_read (Os.listdir temp_dir) ;;
           match filter (PyStr.endswith ".tgz") names with
           | [] => ret [("error", VStr "No package tarball found after npm pack")]
           | first_tarball :: _ =>
               let tarball_path := OsPath.join temp_dir first_tarball in
               fs_write (Os.makedirs output_dir) ;;;
               extractall tarball_path output_dir ;;;
               flatten_package output_dir ;;;
               files <- fs_read (Os.listdir output_dir) ;;
               ret [("success", VBool true);
                    ("package_name", VStr package_name);
                    ("version", VStr version);
                    ("output_dir", VStr output_dir);
                    ("files", VList files);
                    ("stdout", VStr (stdout pack_process))]
           end
           end
           end)
          (rmtree temp_dir)
    end end
    (boundary "GCP Artifact Registry NPM pull" timeout).

End Tool.
End NpmPull.

(** ** gcp_npm_push.py *)

Module NpmPush.
Section Tool.
Context {H : Host} {C : Codecs}.
Open Scope py_scope.

Definition setup_gcp_auth : M (option string) :=
  setup_gcp_auth_for "us-central1-npm.pkg.dev".

Record version_fields : Type := {
  old_version : json;
  new_version : string
}.

(** int(time.time()): the clock reading cut down to whole seconds. *)
Definition whole_seconds (microseconds : Z) : Z := Z.quot microseconds 1000000.

Definition update_package_version (package_json_path : string)
  : M (step version_fields) :=
  try_except
    (package_data <- load_manifest package_json_path ;;
     let old_version :=
       match Dict.get "version" package_data with
       | Some v => v
       | None => JStr "0.1.0"
       end in
     now <- host_read time_time ;;
     let timestamp := whole_seconds now in
     let new_version := "0.1." ++ PyStr.str_of_Z timestamp in
     let package_data := Dict.set "version" (JStr new_version) package_data in
     dump_manifest package_json_path package_data ;;;
     ret (Success {| old_version := old_version; new_version := new_version |}))
    (fun e => ret (Failure (str_exn e))).

(** [if auto_version: ...]: [Some] is the result the tool returns at once
    when the update failed, [None] lets it go on. *)
Definition auto_version_step (auto_version : bool) (package_json_path : string)
  : M (option pydict) :=
  if auto_version then
    version_result <- update_package_version package_json_path ;;
    match version_result with
    | Failure error => ret (Some [("error", VStr ("Failed to update version: " ++ error))])
    | Success _ => ret None
    end
  else ret None.

(** [if package_name: ...] *)
Definition rename_step (package_name : option string) (package_json_path : string)
  : M unit :=
  match package_name with
  | None | Some EmptyString => ret tt
  | Some package_name =>
      package_data <- load_manifest package_json_path ;;
      dump_manifest package_json_path
        (Dict.set "name" (JStr package_name) package_data)
  end.

Definition publish_call (repository_path source_dir token : string) (timeout : Z)
  : call :=
  {| c_argv := ["npm"; "publish"; "--registry";
                "https://" ++ repository_path ++ "/"];
     c_cwd := Some source_dir; c_npm_token := Some token;
     c_capture_output := true; c_timeout := Some timeout |}.

Definition json_field (key : string) (members : list (string * json)) : value :=
  match Dict.get key members with
  | Some j => VJson j
  | None => VNone
  end.

Definition gcp_npm_push (args : request) : M pydict :=
  let auto_version := get_default (auto_version args) true in
  let timeout := get_default (timeout args) 300%Z in
  try_except
    match source_dir args with
    | None | Some EmptyString => ret [("error", VStr "Source directory is required")]
    | Some source_dir =>
    match repository_path args with
    | None | Some EmptyString =>
        ret [("error", VStr "GCP Artifact Registry repository path is required")]
    | Some repository_path =>
        let package_json_path := OsPath.join source_dir "package.json" in
        present <- fs_test (Os.path_exists package_json_path) ;;
        if negb present
        then ret [("error", VStr ("package.json not found in " ++ source_dir))]
        else
        temp_dir <- mkdtemp ;;
        try_finally
          (token <- setup_gcp_auth ;;
           match token with
           | None | Some EmptyString =>
               ret [("error", VStr "Failed to authenticate with GCP")]
           | Some token =>
           npmrc_result <- configure_npmrc source_dir repository_path token ;;
           match npmrc_result with
           | Failure error =>
               ret [("error", VStr ("Failed to configure .npmrc: " ++ error))]
           | Success _ =>
           early <- auto_version_step auto_version package_json_path ;;
           match early with
           | Some failed => ret failed
           | None =>
           rename_step (package_name args) package_json_path ;;;
           publish_process <- subprocess_run
             (publish_call repository_path source_dir token timeout) ;;
           if negb (returncode publish_process =? 0)%Z
           then ret [("success", VBool false);
                     ("error", VStr ("Failed to publish package: "
                                     ++ stderr publish_process))]
           else
           final_package <- load_manifest package_json_path ;;
           ret [("success", VBool true);
                ("package_name", json_field "name" final_package);
                ("version", json_field "version" final_package);
                ("repository", VStr repository_path);
                ("output", VStr (stdout publish_process))]
           end
           end
           end)
          (rmtree temp_dir)
    end end
    (boundary "GCP Artifact Registry NPM push" timeout).

End Tool.
End NpmPush.

(** ** gcp_npm_publish.py *)

Module NpmPublish.
Section Tool.
Context {H : Host} {C : Codecs}.
Open Scope py_scope.

Definition script_call (project_dir token : string) : call :=
  {| c_argv := ["./publish.sh"];
     c_cwd := Some project_dir; c_npm_token := Some token;
     c_capture_output := true; c_timeout := None |}.

(** From [if dry_run:] to the last return of the inner try block.
    [content] is the Python variable of that name, bound only on a dry
    run. *)
Definition run_publish_script (project_dir publish_script token : string)
  (dry_run : bool) : M pydict :=
  content <-
    (if dry_run
     then (content <- fs_read (Os.read_text publish_script) ;;
           let modified_content :=
             PyStr.replace "npm publish" "npm publish --dry-run" content in
           fs_write (Os.write_text publish_script modified_content) ;;;
           ret (Some content))
     else ret None) ;;
  publish_process <- subprocess_run (script_call project_dir token) ;;
  (if dry_run
   then match content with
        | Some content => fs_write (Os.write_text publish_script content)
        | None => ret tt
        end
   else ret tt) ;;;
  if (returncode publish_process =? 0)%Z
  then ret [("success", VBool true);
            ("output", VStr (stdout publish_process));
            ("dry_run", VBool dry_run)]
  else ret [("success", VBool false);
            ("error", VStr "Publishing failed");
            ("stdout", VStr (stdout publish_process));
            ("stderr", VStr (stderr publish_process));
            ("dry_run", VBool dry_run)].

(** The handler for CalledProcessError guards nothing: subprocess.run is
    never called with check=True. *)
Definition gcp_npm_publish (args : request) : M pydict :=
  let dry_run := get_default (dry_run args) false in
  try_except
    match project_dir args with
    | None | Some EmptyString => ret [("error", VStr "Project directory is required")]
    | Some project_dir =>
        present <- fs_test (Os.path_exists project_dir) ;;
        if negb present
        then ret [("error", VStr ("Project directory does not exist: " ++ project_dir))]
        else
        let publish_script := OsPath.join project_dir "publish.sh" in
        present <- fs_test (Os.path_exists publish_script) ;;
        if negb present
        then ret [("error", VStr ("publish.sh not found in " ++ project_dir))]
        else
        refused <- try_except
                     (fs_write (Os.chmod publish_script) ;;; ret None)
                     (fun e => ret (Some [("error",
                        VStr ("Failed to make publish.sh executable: " ++ str_exn e))])) ;;
        match refused with
        | Some failed => ret failed
        | None =>
            try_except
              (token_process <- subprocess_run token_call ;;
               if negb (returncode token_process =? 0)%Z
               then ret [("error", VStr "Failed to get GCP access token")]
               else
                 run_publish_script project_dir publish_script
                   (PyStr.strip (stdout token_process)) dry_run)
              (fun e => ret [("success", VBool false);
                             ("error", VStr ("Exception during publish: " ++ str_exn e))])
        end
    end
    (fun e => ret [("success", VBool false);
                   ("error", VStr ("Exception during GCP Artifact Registry NPM publish: "
                                   ++ str_exn e))]).

End Tool.
End NpmPublish.

(** ** Sample hosts, codecs and file trees

    Small concrete environments on which the tools can be run by
    evaluation.  They instantiate the statements below. *)

Module Sample.

(** A codec for flat manifests written [{key=text;key=text}], and for
    one package tarball. *)
Definition manifest_text : string := "{name=demo;version=1.0.0}".

Definition print_member (m : string * json) : string :=
  fst m ++ "=" ++ match snd m with
                  | JStr s => s
                  | _ => "?"
                  end.

Definition parse_member (field : string) : string * json :=
  match PyStr.split_on "="%char field with
  | key :: text :: _ => (key, JStr text)
  | _ => (field, JNull)
  end.

Definition parse_manifest (s : string) : option json :=
  match s with
  | String "{" body =>
      match PyStr.rev_string body with
      | String "}" inner =>
          Some (JObj (map parse_member
                        (PyStr.split_on ";"%char (PyStr.rev_string inner))))
      | _ => None
      end
  | _ => None
  end.

Definition package_tree : list (string * FS.node) :=
  [("package", FS.Dir [("index.js", FS.File "exports = 1");
                       ("package.json", FS.File manifest_text)])].

#[export] Instance codecs : Codecs := {|
  json_loads := parse_manifest;
  json_dumps j := match j with
                  | JObj members => "{" ++ String.concat ";" (map print_member members) ++ "}"
                  | _ => "?"
                  end;
  tar_pack members := "tar:" ++ String.concat "," (Dict.keys members);
  tar_unpack s := if String.eqb s "npm-tarball" then Some package_tree else None
|}.

Definition clock : datetime :=
  {| year := 2024; month := 3; day := 5; hour := 14; minute := 7; second := 9 |}.

(** A host without a memory of its own: each program behaves as the
    script says, the clock stands still. *)
Definition scripted (script : call -> FS.node -> behaviour * FS.node) : Host := {|
  ext := unit;
  spawn c e fs := let (b, fs') := script c fs in (b, e, fs');
  datetime_now e := (clock, e);
  time_time e := (1709647629500000%Z, e);
  mkdtemp_name e := ("/tmp/tmpqk3x", e)
|}.

(** A host whose memory is its clock, in microseconds: the clock moves on
    by a quarter of a second with every reading. *)
Definition ticking (script : call -> FS.node -> behaviour * FS.node) : Host := {|
  ext := Z;
  spawn c e fs := let (b, fs') := script c fs in (b, e, fs');
  datetime_now e := (clock, e);
  time_time e := (e, (e + 250000)%Z);
  mkdtemp_name e := ("/tmp/tmpqk3x", e)
|}.

(** npm pack leaves a tarball in its working directory. *)
Definition npm_pack_effect (c : call) (fs : FS.node) : FS.node :=
  match c_cwd c with
  | Some dir =>
      match Os.write_text (OsPath.join dir "demo-1.0.0.tgz") "npm-tarball" fs with
      | Ok fs' => fs'
      | Err _ => fs
      end
  | None => fs
  end.

(** Every program ends well within a second; the token is "T". *)
Definition all_well (c : call) (fs : FS.node) : behaviour * FS.node :=
  match c_argv c with
  | "gcloud" :: "auth" :: "print-access-token" :: _ =>
      (Finishes 1 0 ("T" ++ nl) "", fs)
  | "npm" :: "pack" :: _ =>
      (Finishes 1 0 "demo-1.0.0.tgz" "", npm_pack_effect c fs)
  | _ => (Finishes 1 0 "OK" "", fs)
  end.

Fixpoint begins_with (words argv : list string) : bool :=
  match words, argv with
  | [], _ => true
  | _ :: _, [] => false
  | x :: words', y :: argv' => String.eqb x y && begins_with words' argv'
  end.

(** As [all_well], but the commands that begin with [words] behave as
    given. *)
Definition except_for (words : list string) (b : behaviour)
  (c : call) (fs : FS.node) : behaviour * FS.node :=
  if begins_with words (c_argv c) then (b, fs) else all_well c fs.

Definition token_refused : call -> FS.node -> behaviour * FS.node :=
  except_for ["gcloud"; "auth"; "print-access-token"]
    (Finishes 1 1 "" "You do not currently have an active account selected.").

Definition docker_refused : call -> FS.node -> behaviour * FS.node :=
  except_for ["gcloud"; "auth"; "configure-docker"]
    (Finishes 1 1 "" "docker is not installed").

Definition upload_denied : call -> FS.node -> behaviour * FS.node :=
  except_for ["gcloud"; "artifacts"; "generic"; "upload"]
    (Finishes 1 1 "" "denied").

(** The upload takes a thousand seconds, or never ends. *)
Definition slow_upload : call -> FS.node -> behaviour * FS.node :=
  except_for ["gcloud"; "artifacts"; "generic"; "upload"]
    (Finishes 1000 0 "uploaded" "").

Definition endless_upload : call -> FS.node -> behaviour * FS.node :=
  except_for ["gcloud"; "artifacts"; "generic"; "upload"] Never.

(** npm view never answers. *)
Definition endless_view : call -> FS.node -> behaviour * FS.node :=
  except_for ["npm"; "view"] Never.

(** publish.sh overwrites itself and fails. *)
Definition clobbering_script (c : call) (fs : FS.node) : behaviour * FS.node :=
  match c_argv c, c_cwd c with
  | ["./publish.sh"], Some dir =>
      (Finishes 2 7 "" "npm ERR! 403",
       match Os.write_text (OsPath.join dir "publish.sh") "echo gone" fs with
       | Ok fs' => fs'
       | Err _ => fs
       end)
  | _, _ => all_well c fs
  end.

(** publish.sh clears away the directory it is run in, and succeeds. *)
Definition self_removing_script (c : call) (fs : FS.node) : behaviour * FS.node :=
  match c_argv c, c_cwd c with
  | ["./publish.sh"], Some dir =>
      (Finishes 2 0 "cleaned up" "", Os.rmtree_ignore_errors dir fs)
  | _, _ => all_well c fs
  end.

Definition publish_request (dry : bool) : request :=
  {| source_dir := None; project_dir := Some "work/pkg"; repository_path := None;
     artifact_name := None; package_name := None; output_dir := None;
     version := None; timeout := None; auto_version := None;
     dry_run := Some dry |}.

Definition tree : FS.node :=
  FS.Dir [("tmp", FS.Dir []);
          ("work", FS.Dir [("mydir", FS.Dir [("a.txt", FS.File "hello")]);
                           ("pkg", FS.Dir [("package.json", FS.File manifest_text);
                                           ("publish.sh", FS.File "npm test && npm publish")])])].

(** The world a scripted host starts in. *)
Definition start (script : call -> FS.node -> behaviour * FS.node)
  : @world (scripted script) :=
  @Build_world (scripted script) tree tt [].

(** The same host started on another file tree. *)
Definition start_in (script : call -> FS.node -> behaviour * FS.node)
  (files : FS.node) : @world (scripted script) :=
  @Build_world (scripted script) files tt [].

(** An output directory after an extraction: a note kept from before, and
    the package folder. *)
Definition extracted : FS.node :=
  FS.Dir [("out", FS.Dir [("README", FS.File "kept");
                          ("package", FS.Dir [("index.js", FS.File "exports = 1");
                                              ("package.json", FS.File manifest_text)])])].

(** A package that ships an entry called "package". *)
Definition extracted_nested : FS.node :=
  FS.Dir [("out", FS.Dir [("package", FS.Dir [("package", FS.File "bin");
                                              ("index.js", FS.File "exports = 1")])])].

(** A second pull into a directory that has a "lib" folder from the
    first. *)
Definition extracted_again : FS.node :=
  FS.Dir [("out", FS.Dir [("lib", FS.Dir [("old.js", FS.File "old")]);
                          ("package", FS.Dir [("lib", FS.Dir [("new.js", FS.File "new")])])])].

Definition push_request (repository : string) : request :=
  {| source_dir := Some "work/mydir"; project_dir := None;
     repository_path := Some repository;
     artifact_name := Some "svc"; package_name := None; output_dir := None;
     version := None; timeout := None; auto_version := None; dry_run := None |}.

Definition pull_request (repository : string) : request :=
  {| source_dir := None; project_dir := None;
     repository_path := Some repository;
     artifact_name := None; package_name := Some "@observability/demo";
     output_dir := Some "out"; version := Some "^1.0.0";
     timeout := None; auto_version := None; dry_run := None |}.

Definition no_args : request :=
  {| source_dir := None; project_dir := None; repository_path := None;
     artifact_name := None; package_name := None; output_dir := None;
     version := None; timeout := None; auto_version := None; dry_run := None |}.

End Sample.

(** * Properties *)

(** ** The model at work *)

Example split_xy : PyStr.split_on PyStr.slash "x/y" = ["x"; "y"].
Proof. reflexivity. Qed.
Example split_empty : PyStr.split_on PyStr.slash "" = [""].
Proof. reflexivity. Qed.
Example split_trailing : PyStr.split_on PyStr.slash "a/b/" = ["a"; "b"; ""].
Proof. reflexivity. Qed.
Example replace_twice :
  PyStr.replace "npm publish" "npm publish --dry-run"
                "npm publish && npm publish x"
  = "npm publish --dry-run && npm publish --dry-run x".
Proof. reflexivity. Qed.
Example strip_token : PyStr.strip ("  tok en" ++ nl) = "tok en".
Proof. reflexivity. Qed.
Example str_of_Z_ex : PyStr.str_of_Z 300 = "300" /\ PyStr.str_of_Z 0 = "0"
                      /\ PyStr.str_of_Z (-5) = "-5".
Proof. repeat split; reflexivity. Qed.
Example zero_pad_ex : PyStr.zero_pad 2 7 = "07" /\ PyStr.zero_pad 4 2024 = "2024".
Proof. split; reflexivity. Qed.
Example join_ex : OsPath.join "artifacts" "a.tar.gz" = "artifacts/a.tar.gz"
                  /\ OsPath.join "out/" "x" = "out/x"
                  /\ OsPath.join "out" "/x" = "/x"
                  /\ OsPath.join "" "x" = "x".
Proof. repeat split; reflexivity. Qed.
Example basename_ex : OsPath.basename "/tmp/mydir" = "mydir"
                      /\ OsPath.basename "/tmp/mydir/" = ""
                      /\ OsPath.basename "mydir" = "mydir".
Proof. repeat split; reflexivity. Qed.
Example segments_ex : OsPath.segments "/tmp/./mydir/" = ["tmp"; "mydir"].
Proof. reflexivity. Qed.

(** The tools themselves, run on the sample host. *)
Example archive_push_end_to_end :
  fst (ArtifactPush.gcp_artifact_push
         (H := Sample.scripted Sample.all_well) (C := Sample.codecs)
         (Sample.push_request "us-central1-docker.pkg.dev/proj/repo")
         (Sample.start _))
  = Ret [("success", VBool true);
         ("artifact_name", VStr "svc_20240305_140709.tar.gz");
         ("artifact_path", VStr "artifacts/svc_20240305_140709.tar.gz");
         ("repository", VStr "us-central1-docker.pkg.dev/proj/repo");
         ("timestamp", VStr "20240305_140709");
         ("package", VStr "svc_20240305_140709.tar.gz");
         ("version", VStr "20240305.140709");
         ("output", VStr "OK")].
Proof. reflexivity. Qed.

Example npm_pull_end_to_end :
  fst (NpmPull.gcp_npm_pull
         (H := Sample.scripted Sample.all_well) (C := Sample.codecs)
         (Sample.pull_request "us-central1-npm.pkg.dev/proj/repo")
         (Sample.start _))
  = Ret [("success", VBool true);
         ("package_name", VStr "@observability/demo");
         ("version", VStr "^1.0.0");
         ("output_dir", VStr "out");
         ("files", VList ["index.js"; "package.json"]);
         ("stdout", VStr "demo-1.0.0.tgz")].
Proof. reflexivity. Qed.

Example temporary_directory_is_removed :
  Os.path_exists "/tmp/tmpqk3x"
    (w_fs (snd (NpmPull.gcp_npm_pull
                  (H := Sample.scripted Sample.all_well) (C := Sample.codecs)
                  (Sample.pull_request "us-central1-npm.pkg.dev/proj/repo")
                  (Sample.start _)))) = false.
Proof. reflexivity. Qed.

(** ** Strings and paths *)

#[local] Arguments Ascii.eqb : simpl never.
#[local] Arguments String.eqb : simpl never.

Module PyStrFacts.
Import PyStr.

Lemma split_on_nonempty sep s : split_on sep s <> [].
Proof.
  destruct s as [|c s]; simpl; [discriminate|].
  destruct (Ascii.eqb c sep); [discriminate|].
  destruct (split_on sep s); discriminate.
Qed.

(** A separator between two strings separates their fields. *)
Lemma split_on_app sep a b :
  split_on sep (a ++ String sep b) = (split_on sep a ++ split_on sep b)%list.
Proof.
  induction a as [|c a IH]; simpl.
  - rewrite Ascii.eqb_refl. reflexivity.
  - destruct (Ascii.eqb c sep); [now rewrite IH|].
    rewrite IH.
    destruct (split_on sep a) eqn:E; [now apply split_on_nonempty in E|].
    reflexivity.
Qed.

Lemma split_on_no_sep sep s :
  contains_char sep s = false -> split_on sep s = [s].
Proof.
  induction s as [|c s IH]; simpl; [reflexivity|].
  intros Hc. apply orb_false_iff in Hc as [Hc Hs].
  rewrite Hc, (IH Hs). reflexivity.
Qed.

Lemma append_nil_r s : s ++ "" = s.
Proof. induction s; simpl; congruence. Qed.

Lemma append_assoc (a b c : string) : (a ++ b) ++ c = a ++ (b ++ c).
Proof. induction a; simpl; congruence. Qed.

Lemma rev_string_app a b : rev_string (a ++ b) = rev_string b ++ rev_string a.
Proof.
  induction a as [|c a IH]; simpl.
  - now rewrite append_nil_r.
  - now rewrite IH, append_assoc.
Qed.

Lemma rev_string_involutive s : rev_string (rev_string s) = s.
Proof.
  induction s as [|c s IH]; simpl; [reflexivity|].
  rewrite rev_string_app, IH. reflexivity.
Qed.

Lemma endswith_slash a :
  endswith "/" a = true -> exists a0, a = a0 ++ "/".
Proof.
  unfold endswith. simpl. intros Hp.
  destruct (rev_string a) as [|c r] eqn:E; [discriminate|].
  simpl in Hp. apply andb_true_iff in Hp as [Hp _].
  apply Ascii.eqb_eq in Hp. subst c.
  exists (rev_string r).
  rewrite <- (rev_string_involutive a), E. reflexivity.
Qed.

End PyStrFacts.

Module OsPathFacts.
Import PyStr PyStrFacts OsPath.

(** A file name: what one directory entry can be called. *)
Definition file_name (n : string) : Prop :=
  n <> "" /\ n <> "." /\ contains_char slash n = false.

Lemma file_name_no_leading_slash n : file_name n -> startswith "/" n = false.
Proof.
  intros (Hne & _ & Hc). destruct n as [|c n]; [easy|].
  simpl in *. apply orb_false_iff in Hc as [Hc _].
  rewrite Ascii.eqb_sym. unfold slash in Hc. now rewrite Hc.
Qed.

Lemma keep_file_name n :
  file_name n -> negb (String.eqb n "" || String.eqb n ".") = true.
Proof.
  intros (H1 & H2 & _).
  apply String.eqb_neq in H1, H2. now rewrite H1, H2.
Qed.

Lemma segments_file_name n : file_name n -> segments n = [n].
Proof.
  intros Hn. unfold segments.
  rewrite split_on_no_sep by apply Hn.
  simpl. now rewrite keep_file_name.
Qed.

(** Joining a file name to a path adds one component to walk. *)
Lemma segments_join a n :
  file_name n -> segments (join a n) = (segments a ++ [n])%list.
Proof.
  intros Hn. unfold join.
  rewrite file_name_no_leading_slash by assumption.
  destruct (String.eqb a "") eqn:Ea; simpl.
  - apply String.eqb_eq in Ea. subst a. simpl. now apply segments_file_name.
  - destruct (endswith "/" a) eqn:Es.
    + apply endswith_slash in Es as [a0 ->].
      unfold segments.
      rewrite append_assoc. simpl.
      rewrite !(split_on_app slash a0), !filter_app.
      rewrite (split_on_no_sep slash n) by apply Hn.
      simpl. rewrite keep_file_name by assumption.
      now rewrite app_nil_r.
    + unfold segments.
      change (a ++ String "/" n) with (a ++ String slash n).
      rewrite split_on_app, filter_app.
      rewrite (split_on_no_sep slash n) by apply Hn.
      simpl. now rewrite keep_file_name.
Qed.

Lemma join_nonempty a n : n <> "" -> join a n <> "".
Proof.
  intros Hn. unfold join.
  destruct (startswith "/" n); [assumption|].
  destruct (String.eqb a "" || endswith "/" a)%bool.
  - destruct a; simpl; [assumption|discriminate].
  - destruct a; simpl; discriminate.
Qed.

End OsPathFacts.

#[local] Arguments String.append : simpl never.

(** ** Dictionaries *)

Module DictFacts.
Section DictFacts.
Context {A : Type}.
Implicit Types (d : list (string * A)) (k : string) (v : A).

Lemma get_set_same k v d : Dict.get k (Dict.set k v d) = Some v.
Proof.
  induction d as [|[k' v'] d IH]; simpl.
  - now rewrite String.eqb_refl.
  - destruct (String.eqb k k') eqn:E; simpl.
    + now rewrite String.eqb_refl.
    + now rewrite E.
Qed.

Lemma get_set_other k k' v d :
  k <> k' -> Dict.get k (Dict.set k' v d) = Dict.get k d.
Proof.
  intros Hk. apply String.eqb_neq in Hk.
  induction d as [|[k0 v0] d IH]; simpl.
  - now rewrite Hk.
  - destruct (String.eqb k' k0) eqn:E; simpl.
    + apply String.eqb_eq in E. subst k0. now rewrite Hk.
    + now rewrite IH.
Qed.

Lemma get_del_same k d : Dict.get k (Dict.del k d) = None.
Proof.
  induction d as [|[k0 v0] d IH]; simpl; [reflexivity|].
  destruct (String.eqb k k0) eqn:E; simpl; [assumption|].
  now rewrite E.
Qed.

Lemma get_del_other k k' d :
  k <> k' -> Dict.get k (Dict.del k' d) = Dict.get k d.
Proof.
  intros Hk. apply String.eqb_neq in Hk.
  induction d as [|[k0 v0] d IH]; simpl; [reflexivity|].
  destruct (String.eqb k' k0) eqn:E; simpl.
  - apply String.eqb_eq in E. subst k0. now rewrite Hk.
  - now rewrite IH.
Qed.

Lemma set_absent k v d :
  Dict.get k d = None -> Dict.set k v d = (d ++ [(k, v)])%list.
Proof.
  induction d as [|[k0 v0] d IH]; simpl; [reflexivity|].
  destruct (String.eqb k k0); [discriminate|].
  intros Hd. now rewrite IH.
Qed.

Lemma del_absent k d : Dict.get k d = None -> Dict.del k d = d.
Proof.
  induction d as [|[k0 v0] d IH]; simpl; [reflexivity|].
  destruct (String.eqb k k0); [discriminate|].
  intros Hd. now rewrite IH.
Qed.

Lemma set_set k v1 v2 d : Dict.set k v2 (Dict.set k v1 d) = Dict.set k v2 d.
Proof.
  induction d as [|[k0 v0] d IH]; simpl.
  - now rewrite String.eqb_refl.
  - destruct (String.eqb k k0) eqn:E; simpl.
    + now rewrite String.eqb_refl.
    + now rewrite E, IH.
Qed.

Lemma get_app k d1 d2 :
  Dict.get k (d1 ++ d2)%list
  = match Dict.get k d1 with Some v => Some v | None => Dict.get k d2 end.
Proof.
  induction d1 as [|[k0 v0] d1 IH]; simpl; [reflexivity|].
  destruct (String.eqb k k0); [reflexivity|assumption].
Qed.

Lemma set_app_present k v d1 d2 :
  Dict.get k d1 <> None ->
  Dict.set k v (d1 ++ d2)%list = (Dict.set k v d1 ++ d2)%list.
Proof.
  induction d1 as [|[k0 v0] d1 IH]; simpl; [congruence|].
  destruct (String.eqb k k0); [reflexivity|].
  intros Hd. now rewrite IH.
Qed.

Lemma del_app k d1 d2 :
  Dict.del k (d1 ++ d2)%list = (Dict.del k d1 ++ Dict.del k d2)%list.
Proof.
  induction d1 as [|[k0 v0] d1 IH]; simpl; [reflexivity|].
  destruct (String.eqb k k0); [assumption|].
  simpl. now rewrite IH.
Qed.

Lemma del_set_same k v d : Dict.del k (Dict.set k v d) = Dict.del k d.
Proof.
  induction d as [|[k0 v0] d IH]; simpl.
  - now rewrite String.eqb_refl.
  - destruct (String.eqb k k0) eqn:E; simpl.
    + now rewrite String.eqb_refl.
    + now rewrite E, IH.
Qed.

Lemma get_absent_iff k d : Dict.get k d = None <-> ~ In k (Dict.keys d).
Proof.
  induction d as [|[k0 v0] d IH]; simpl; [tauto|].
  destruct (String.eqb k k0) eqn:E.
  - apply String.eqb_eq in E. subst k0. split; [discriminate|tauto].
  - apply String.eqb_neq in E. rewrite IH. split.
    + intros Hn [Hk|Hk]; [congruence|tauto].
    + tauto.
Qed.

Lemma get_in k v d : Dict.get k d = Some v -> In (k, v) d.
Proof.
  induction d as [|[k0 v0] d IH]; simpl; [discriminate|].
  destruct (String.eqb k k0) eqn:E.
  - apply String.eqb_eq in E. intros [= ->]. now left; subst.
  - intros Hd. right. now apply IH.
Qed.

(** With distinct keys, every pair of the list is found under its key. *)
Lemma in_get k v d : NoDup (Dict.keys d) -> In (k, v) d -> Dict.get k d = Some v.
Proof.
  induction d as [|[k0 v0] d IH]; simpl; [tauto|].
  intros Hnd [Hin|Hin].
  - injection Hin as -> ->. now rewrite String.eqb_refl.
  - inversion Hnd as [|? ? Hk0 Hnd']; subst.
    destruct (String.eqb k k0) eqn:E.
    + apply String.eqb_eq in E. subst k0.
      exfalso. apply Hk0. change k with (fst (k, v)). now apply in_map.
    + now apply IH.
Qed.

Lemma set_same k v d : Dict.get k d = Some v -> Dict.set k v d = d.
Proof.
  induction d as [|[k0 v0] d IH]; simpl; [discriminate|].
  destruct (String.eqb k k0) eqn:E.
  - apply String.eqb_eq in E. subst k0. now intros [= ->].
  - intros Hd. now rewrite IH.
Qed.

End DictFacts.
End DictFacts.

(** ** The file tree *)

Module FSFacts.
Import FS DictFacts.

Lemma lookup_app p q fs :
  lookup (p ++ q)%list fs
  = match lookup p fs with Some n => lookup q n | None => None end.
Proof.
  revert fs. induction p as [|s p IH]; intros fs; simpl; [reflexivity|].
  destruct fs as [c|es]; [reflexivity|].
  destruct (Dict.get s es); [apply IH|reflexivity].
Qed.

(** What was put is what is found. *)
Lemma lookup_put p v fs fs' : put p v fs = Some fs' -> lookup p fs' = Some v.
Proof.
  revert fs fs'. induction p as [|s p IH]; intros fs fs'; simpl.
  - now intros [= ->].
  - destruct fs as [c|es]; [discriminate|].
    destruct (Dict.get s es) as [c|] eqn:Eg.
    + destruct (put p v c) as [c'|] eqn:Ep; [|discriminate].
      intros [= <-]. simpl. rewrite get_set_same. now apply (IH c).
    + destruct p; [|discriminate].
      intros [= <-]. simpl. now rewrite get_set_same.
Qed.

(** A bound path can always be rebound. *)
Lemma put_bound p v fs n :
  lookup p fs = Some n -> exists fs', put p v fs = Some fs'.
Proof.
  revert fs. induction p as [|s p IH]; intros fs; simpl.
  - eauto.
  - destruct fs as [c|es]; [discriminate|].
    destruct (Dict.get s es) as [c|] eqn:Eg; [|discriminate].
    intros Hl. destruct (IH c Hl) as [c' ->]. eauto.
Qed.

(** A new entry can be put into an existing directory. *)
Lemma put_child p s v fs es :
  lookup p fs = Some (Dir es) ->
  put (p ++ [s])%list v fs = put p (Dir (Dict.set s v es)) fs.
Proof.
  revert fs. induction p as [|s0 p IH]; intros fs; simpl.
  - intros [= ->]. now destruct (Dict.get s es).
  - destruct fs as [c|es0]; [discriminate|].
    destruct (Dict.get s0 es0) as [c|] eqn:Eg; [|discriminate].
    intros Hl. now rewrite (IH c Hl).
Qed.

Lemma remove_child p s fs es c :
  lookup p fs = Some (Dir es) -> Dict.get s es = Some c ->
  remove (p ++ [s])%list fs = put p (Dir (Dict.del s es)) fs.
Proof.
  revert fs. induction p as [|s0 p IH]; intros fs; simpl.
  - intros [= ->] ->. reflexivity.
  - destruct fs as [c0|es0]; [discriminate|].
    destruct (Dict.get s0 es0) as [c0|] eqn:Eg; [|discriminate].
    intros Hl Hc. rewrite (IH c0 Hl Hc).
    now destruct p.
Qed.

(** Only the last of two puts at one path is seen. *)
Lemma put_put p v1 v2 fs fs1 :
  put p v1 fs = Some fs1 -> put p v2 fs1 = put p v2 fs.
Proof.
  revert fs fs1. induction p as [|s p IH]; intros fs fs1; simpl.
  - reflexivity.
  - destruct fs as [c|es]; [discriminate|].
    destruct (Dict.get s es) as [c|] eqn:Eg.
    + destruct (put p v1 c) as [c1|] eqn:Ep; [|discriminate].
      intros [= <-]. simpl. rewrite get_set_same, (IH _ _ Ep).
      destruct (put p v2 c); [now rewrite set_set|reflexivity].
    + destruct p; [|discriminate].
      intros [= <-]. simpl. now rewrite get_set_same, set_set.
Qed.

(** A put below a prefix is a put of the changed subtree at the prefix. *)
Lemma put_app p q v fs n n' :
  lookup p fs = Some n -> put q v n = Some n' ->
  put (p ++ q)%list v fs = put p n' fs.
Proof.
  revert fs. induction p as [|s p IH]; intros fs; simpl.
  - now intros [= ->] ->.
  - destruct fs as [c|es]; [discriminate|].
    destruct (Dict.get s es) as [c|] eqn:Eg; [|discriminate].
    intros Hl Hq. now rewrite (IH c Hl Hq).
Qed.

(** Putting back what is there changes nothing. *)
Lemma put_same p fs n : lookup p fs = Some n -> put p n fs = Some fs.
Proof.
  revert fs. induction p as [|s p IH]; intros fs; simpl.
  - now intros [= ->].
  - destruct fs as [c|es]; [discriminate|].
    destruct (Dict.get s es) as [c|] eqn:Eg; [|discriminate].
    intros Hl. now rewrite (IH c Hl), (set_same _ _ _ Eg).
Qed.

End FSFacts.

(** ** Files and directories that stay *)

Module FrameFacts.
Import FS DictFacts FSFacts.

Definition dir_at (p : list string) (fs : node) : Prop :=
  exists es, lookup p fs = Some (Dir es).

Lemma mkdirs_makes p fs fs' : mkdirs p fs = Some fs' -> dir_at p fs'.
Proof.
  revert fs fs'. induction p as [|s p IH]; intros fs fs'; simpl.
  - destruct fs as [c|es]; [discriminate|]. intros [= <-]. now exists es.
  - destruct fs as [c|es]; [discriminate|].
    destruct (mkdirs p _) as [c'|] eqn:Em; [|discriminate].
    intros [= <-]. unfold dir_at. simpl. rewrite get_set_same.
    exact (IH _ _ Em).
Qed.

Lemma mkdirs_keeps_dirs q p fs fs' :
  mkdirs q fs = Some fs' -> dir_at p fs -> dir_at p fs'.
Proof.
  revert p fs fs'. induction q as [|s q IH]; intros p fs fs'; simpl.
  - destruct fs as [c|es]; [discriminate|]. now intros [= <-].
  - destruct fs as [c|es]; [discriminate|].
    destruct (mkdirs q _) as [c'|] eqn:Em; [|discriminate].
    intros [= <-] [es' Hl]. destruct p as [|s' p]; [now eexists|].
    unfold dir_at. simpl in *.
    destruct (String.eqb_spec s' s) as [->|Hne].
    + rewrite get_set_same.
      destruct (Dict.get s es) as [c|]; [|discriminate].
      apply (IH _ _ _ Em). now exists es'.
    + rewrite get_set_other by assumption.
      destruct (Dict.get s' es); [now exists es'|discriminate].
Qed.

(** Writing a file where no directory is leaves every directory in
    place. *)
Lemma put_file_keeps_dirs q c p fs fs' :
  put q (File c) fs = Some fs' -> ~ dir_at q fs -> dir_at p fs -> dir_at p fs'.
Proof.
  revert p fs fs'. induction q as [|s q IH]; intros p fs fs'; simpl.
  - intros _ Hq [es Hl]. exfalso. apply Hq.
    destruct p; simpl in Hl.
    + injection Hl as ->. now exists es.
    + destruct fs as [|es0]; [discriminate|]. now exists es0.
  - destruct fs as [c0|es]; [discriminate|].
    intros Hput Hq [es' Hl]. destruct p as [|s' p].
    { destruct (match Dict.get s es with Some _ => _ | None => _ end);
        [|discriminate]. injection Hput as <-. now eexists. }
    unfold dir_at in *. simpl in *.
    destruct (String.eqb_spec s' s) as [->|Hne].
    + destruct (Dict.get s es) as [c1|] eqn:Eg; [|discriminate].
      destruct (put q (File c) c1) as [c'|] eqn:Ep; [|discriminate].
      injection Hput as <-. simpl. rewrite get_set_same.
      apply (IH _ _ _ Ep); [assumption|now exists es'].
    + destruct (match Dict.get s es with Some _ => _ | None => _ end);
        [|discriminate].
      injection Hput as <-. simpl.
      rewrite get_set_other by assumption.
      destruct (Dict.get s' es); [now exists es'|discriminate].
Qed.

Lemma remove_bound p fs n :
  p <> [] -> lookup p fs = Some n -> exists fs', remove p fs = Some fs'.
Proof.
  revert fs. induction p as [|s p IH]; intros fs Hp; [easy|]. simpl.
  destruct fs as [c|es]; [discriminate|].
  destruct (Dict.get s es) as [c|]; [|discriminate].
  intros Hl. destruct p as [|s' p]; [eauto|].
  destruct (IH c ltac:(discriminate) Hl) as [c' ->]. eauto.
Qed.

(** Removing a file leaves every directory in place. *)
Lemma remove_file_keeps_dirs q c p fs fs' :
  remove q fs = Some fs' -> lookup q fs = Some (File c) ->
  dir_at p fs -> dir_at p fs'.
Proof.
  revert p fs fs'. induction q as [|s q IH]; intros p fs fs'; [discriminate|].
  simpl. destruct fs as [c0|es]; [discriminate|].
  destruct (Dict.get s es) as [c1|] eqn:Eg; [|discriminate].
  intros Hrm Hq [es' Hl]. destruct p as [|s' p].
  { destruct q; [injection Hrm as <-; now eexists|].
    destruct (remove _ c1); [|discriminate]. injection Hrm as <-. now eexists. }
  unfold dir_at in *. simpl in Hl.
  destruct (String.eqb_spec s' s) as [->|Hne].
  - rewrite Eg in Hl. destruct q as [|s1 q].
    + simpl in Hq. injection Hq as ->. destruct p; discriminate.
    + destruct (remove (s1 :: q) c1) as [c'|] eqn:Er; [|discriminate].
      injection Hrm as <-. simpl. rewrite get_set_same.
      apply (IH _ _ _ Er Hq). now exists es'.
  - assert (Hfs' : exists es1, fs' = Dir es1 /\ Dict.get s' es1 = Dict.get s' es).
    { destruct q as [|s1 q].
      - injection Hrm as <-. eexists. split; [reflexivity|].
        now apply get_del_other.
      - destruct (remove (s1 :: q) c1); [|discriminate].
        injection Hrm as <-. eexists. split; [reflexivity|].
        now apply get_set_other. }
    destruct Hfs' as (es1 & -> & Hg). simpl. rewrite Hg.
    destruct (Dict.get s' es); [now exists es'|discriminate].
Qed.

End FrameFacts.

(** ** os and os.path *)

Module OsFacts.
Import FS DictFacts FSFacts FrameFacts OsPathFacts.

Lemma isdir_dir_at p fs :
  Os.isdir p fs = true <->
  p <> "" /\ dir_at (OsPath.segments p) fs.
Proof.
  unfold Os.isdir, Os.stat, Os.resolve, dir_at.
  destruct (String.eqb_spec p "") as [->|Hne].
  - split; [discriminate|now intros [[] _]].
  - destruct (lookup (OsPath.segments p) fs) as [[c|es]|]; split;
      try discriminate; try (intros [_ [es' [=]]]); eauto.
Qed.

Lemma read_text_lookup p fs c :
  Os.read_text p fs = Ok c <->
  p <> "" /\ lookup (OsPath.segments p) fs = Some (File c).
Proof.
  unfold Os.read_text, Os.stat, Os.resolve.
  destruct (String.eqb_spec p "") as [->|Hne].
  - split; [discriminate|now intros [[] _]].
  - destruct (lookup (OsPath.segments p) fs) as [[c'|es]|]; split;
      try discriminate; try (intros [_ [=]]).
    + intros [= ->]. now split.
    + now subst.
Qed.

(** A file that is there can be rewritten, and then holds what was
    written. *)
Lemma write_text_existing p c c' fs :
  Os.read_text p fs = Ok c ->
  exists fs', Os.write_text p c' fs = Ok fs' /\ Os.read_text p fs' = Ok c'.
Proof.
  intros Hr. apply read_text_lookup in Hr as [Hne Hl].
  unfold Os.write_text, Os.resolve.
  apply String.eqb_neq in Hne. rewrite Hne, Hl.
  destruct (put_bound _ (File c') _ _ Hl) as [fs' Hp]. rewrite Hp.
  exists fs'. split; [reflexivity|].
  apply read_text_lookup. split; [now apply String.eqb_neq|].
  now apply lookup_put in Hp.
Qed.

(** A file can be written into a directory under a name no directory has
    there. *)
Lemma write_text_into_dir dir name c fs :
  file_name name ->
  Os.isdir dir fs = true -> Os.isdir (OsPath.join dir name) fs = false ->
  exists fs', Os.write_text (OsPath.join dir name) c fs = Ok fs'
              /\ Os.read_text (OsPath.join dir name) fs' = Ok c.
Proof.
  intros Hn Hd Hf.
  apply isdir_dir_at in Hd as [Hne [es Hl]].
  assert (Hj : OsPath.join dir name <> "") by (apply join_nonempty, Hn).
  unfold Os.write_text, Os.isdir, Os.stat, Os.resolve in *.
  apply String.eqb_neq in Hj. rewrite Hj in *.
  rewrite segments_join in * by assumption.
  destruct (put_bound _ (Dir (Dict.set name (File c) es)) _ _ Hl) as [fs' Hp].
  rewrite (put_child _ _ _ _ _ Hl), Hp.
  assert (Hr : Os.read_text (OsPath.join dir name) fs' = Ok c).
  { apply read_text_lookup. split; [now apply String.eqb_neq|].
    rewrite segments_join, lookup_app by assumption.
    rewrite (lookup_put _ _ _ _ Hp). simpl. now rewrite get_set_same. }
  destruct (lookup (OsPath.segments dir ++ [name]) fs) as [[c0|es0]|];
    try discriminate; eauto.
Qed.

End OsFacts.

Import OsPathFacts OsFacts.

(** ** File names made from the clock *)

Section Names.
Import PyStr.

Lemma contains_char_app c a b :
  contains_char c (a ++ b) = (contains_char c a || contains_char c b)%bool.
Proof.
  induction a as [|d a IH]; [reflexivity|].
  change (String d a ++ b) with (String d (a ++ b)).
  cbn [contains_char]. now rewrite IH, orb_assoc.
Qed.

Lemma no_slash_in_uint (d : Decimal.uint) :
  contains_char slash (NilZero.string_of_uint d) = false
  /\ contains_char slash (NilEmpty.string_of_uint d) = false.
Proof.
  induction d; (split; [|try reflexivity]);
    try (destruct IHd as [_ IHd]; cbn; exact IHd).
  reflexivity.
Qed.

Lemma no_slash_in_number z : contains_char slash (str_of_Z z) = false.
Proof.
  unfold str_of_Z. destruct (Z.to_int z) as [d|d]; simpl.
  - apply no_slash_in_uint.
  - apply no_slash_in_uint.
Qed.
End Names.

Section ArchiveName.
Import PyStr.

Lemma no_slash_in_zeros n : contains_char slash (zeros n) = false.
Proof. induction n; [reflexivity|]. cbn [zeros contains_char]. now rewrite IHn. Qed.

Lemma no_slash_in_zero_pad width z : contains_char slash (zero_pad width z) = false.
Proof.
  unfold zero_pad. now rewrite contains_char_app, no_slash_in_zeros, no_slash_in_number.
Qed.

Lemma no_slash_in_timestamp now : contains_char slash (strftime_underscore now) = false.
Proof.
  unfold strftime_underscore, strftime_date, strftime_time.
  now rewrite !contains_char_app, !no_slash_in_zero_pad.
Qed.

(** The name of an archive is a file name when the artifact name has no
    slash in it. *)
Lemma archive_file_name artifact_name now :
  contains_char slash artifact_name = false ->
  file_name (artifact_name ++ "_" ++ strftime_underscore now ++ ".tar.gz").
Proof.
  intros Hname. repeat split.
  - destruct artifact_name; discriminate.
  - destruct artifact_name as [|c [|c' rest]]; discriminate.
  - now rewrite !contains_char_app, Hname, no_slash_in_timestamp.
Qed.

End ArchiveName.

(** ** Reasoning about the monad *)

Section Logic.
Context {H : Host}.

(** [logs P m]: whatever [m] does, each external command it runs
    satisfies [P], and nothing is erased from the log. *)
Definition logs {A} (P : event -> Prop) (m : M A) : Prop :=
  forall w, exists evs,
    w_trace (snd (m w)) = (w_trace w ++ evs)%list /\ Forall P evs.

(** [silent m]: [m] runs no external command. *)
Definition silent {A} (m : M A) : Prop :=
  forall w, w_trace (snd (m w)) = w_trace w.

Lemma silent_logs {A} P (m : M A) : silent m -> logs P m.
Proof.
  intros Hs w. exists []. rewrite app_nil_r. split; [apply Hs|constructor].
Qed.

Lemma silent_ret {A} (a : A) : silent (ret a).
Proof. intros w. reflexivity. Qed.

Lemma silent_raise {A} e : silent (@raise _ A e).
Proof. intros w. reflexivity. Qed.

Lemma silent_fs_read {A} (op : FS.node -> result A) : silent (fs_read op).
Proof. intros w. unfold fs_read. now destruct (op (w_fs w)). Qed.

Lemma silent_fs_write op : silent (fs_write op).
Proof. intros w. unfold fs_write. now destruct (op (w_fs w)). Qed.

Lemma silent_fs_test op : silent (fs_test op).
Proof. intros w. reflexivity. Qed.

Lemma silent_host_read {A} (op : ext -> A * ext) : silent (host_read op).
Proof. intros w. unfold host_read. now destruct (op (w_ext w)). Qed.

Lemma silent_bind {A B} (m : M A) (k : A -> M B) :
  silent m -> (forall a, silent (k a)) -> silent (bind m k).
Proof.
  intros Hm Hk w. unfold bind. specialize (Hm w).
  destruct (m w) as [[a|e|] w1]; simpl in *; try assumption.
  now rewrite Hk.
Qed.

Lemma silent_try_except {A} (m : M A) handler :
  silent m -> (forall e, silent (handler e)) -> silent (try_except m handler).
Proof.
  intros Hm Hh w. unfold try_except. specialize (Hm w).
  destruct (m w) as [[a|e|] w1]; simpl in *; try assumption.
  now rewrite Hh.
Qed.

Lemma silent_for_each {A} (items : list A) body :
  (forall x, silent (body x)) -> silent (for_each items body).
Proof.
  intros Hb. induction items as [|x items IH]; simpl.
  - apply silent_ret.
  - apply silent_bind; [apply Hb|intros _; exact IH].
Qed.

Lemma logs_run P (c : call) :
  (forall b, P {| ev_call := c; ev_outcome := decide c b |}) ->
  logs P (subprocess_run c).
Proof.
  intros Hp w. unfold subprocess_run.
  destruct (spawn c (w_ext w) (w_fs w)) as [[b e'] fs'].
  exists [{| ev_call := c; ev_outcome := decide c b |}].
  split; [now destruct (decide c b)|].
  constructor; [apply Hp|constructor].
Qed.

Lemma logs_bind {A B} P (m : M A) (k : A -> M B) :
  logs P m -> (forall a, logs P (k a)) -> logs P (bind m k).
Proof.
  intros Hm Hk w. unfold bind.
  destruct (Hm w) as (evs1 & Ht1 & Hp1).
  destruct (m w) as [[a|e|] w1]; simpl in *; eauto.
  destruct (Hk a w1) as (evs2 & Ht2 & Hp2).
  exists (evs1 ++ evs2)%list. split.
  - now rewrite Ht2, Ht1, app_assoc.
  - apply Forall_app. now split.
Qed.

Lemma logs_try_except {A} P (m : M A) handler :
  logs P m -> (forall e, logs P (handler e)) -> logs P (try_except m handler).
Proof.
  intros Hm Hh w. unfold try_except.
  destruct (Hm w) as (evs1 & Ht1 & Hp1).
  destruct (m w) as [[a|e|] w1]; simpl in *; eauto.
  destruct (Hh e w1) as (evs2 & Ht2 & Hp2).
  exists (evs1 ++ evs2)%list. split.
  - now rewrite Ht2, Ht1, app_assoc.
  - apply Forall_app. now split.
Qed.

Lemma logs_try_finally {A} P (m : M A) cleanup :
  logs P m -> silent cleanup -> logs P (try_finally m cleanup).
Proof.
  intros Hm Hc w. unfold try_finally.
  destruct (Hm w) as (evs1 & Ht1 & Hp1).
  specialize (Hc (snd (m w))).
  destruct (m w) as [[a|e|] w1]; simpl in *; eauto;
    exists evs1; (split; [|assumption]);
    destruct (cleanup w1) as [[[]|e'|] w2]; simpl in *; congruence.
Qed.

(** A call without a timeout cannot time out. *)
Lemma no_timeout_without_one (c : call) b :
  c_timeout c = None -> decide c b <> TimedOut.
Proof. intros Hc. unfold decide. rewrite Hc. now destruct b. Qed.

Definition timed_out (e : event) : Prop := ev_outcome e = TimedOut.

(** [surfaces m]: if one of the commands [m] runs times out, [m] ends by
    raising TimeoutExpired. *)
Definition surfaces {A} (m : M A) : Prop :=
  forall w, exists evs,
    w_trace (snd (m w)) = (w_trace w ++ evs)%list
    /\ (Exists timed_out evs ->
        exists cmd t, fst (m w) = Raise (TimeoutExpired cmd t)).

Lemma surfaces_quiet {A} (m : M A) :
  logs (fun e => ~ timed_out e) m -> surfaces m.
Proof.
  intros Hm w. destruct (Hm w) as (evs & Ht & Hp).
  exists evs. split; [assumption|].
  intros Hex. apply Exists_exists in Hex as (e & Hin & He).
  rewrite Forall_forall in Hp. now destruct (Hp e Hin).
Qed.

Lemma surfaces_silent {A} (m : M A) : silent m -> surfaces m.
Proof. intros Hs. now apply surfaces_quiet, silent_logs. Qed.

Lemma surfaces_run (c : call) : surfaces (subprocess_run c).
Proof.
  intros w. unfold subprocess_run.
  destruct (spawn c (w_ext w) (w_fs w)) as [[b e'] fs'].
  exists [{| ev_call := c; ev_outcome := decide c b |}].
  split; [now destruct (decide c b)|].
  intros Hex. inversion Hex as [? ? Hto|? ? Hto]; [|inversion Hto].
  unfold timed_out in Hto. simpl in Hto. rewrite Hto. simpl. eauto.
Qed.

Lemma surfaces_bind {A B} (m : M A) (k : A -> M B) :
  surfaces m -> (forall a, surfaces (k a)) -> surfaces (bind m k).
Proof.
  intros Hm Hk w. unfold bind.
  destruct (Hm w) as (evs1 & Ht1 & Hr1).
  destruct (m w) as [[a|e|] w1]; simpl in *;
    try (exists evs1; split; [assumption|];
         intros Hex; destruct (Hr1 Hex) as (cmd & t & Heq);
         inversion Heq; eauto).
  destruct (Hk a w1) as (evs2 & Ht2 & Hr2).
  exists (evs1 ++ evs2)%list. split.
  - now rewrite Ht2, Ht1, app_assoc.
  - intros Hex. apply Exists_app in Hex as [Hex|Hex]; [|auto].
    destruct (Hr1 Hex) as (cmd & t & Hret). discriminate.
Qed.

Lemma surfaces_try_finally {A} (m : M A) cleanup :
  surfaces m -> silent cleanup ->
  (forall w, exists w', cleanup w = (Ret tt, w')) ->
  surfaces (try_finally m cleanup).
Proof.
  intros Hm Hs Hc w. unfold try_finally.
  destruct (Hm w) as (evs & Ht & Hr).
  specialize (Hs (snd (m w))). destruct (Hc (snd (m w))) as [w2 Hw2].
  destruct (m w) as [[a|e|] w1]; simpl in *; eauto;
    rewrite Hw2 in *; simpl in *; exists evs; (split; [congruence|assumption]).
Qed.

(** [returns R m]: when [m] returns a value, the value satisfies [R]. *)
Definition returns {A} (R : A -> Prop) (m : M A) : Prop :=
  forall w a, fst (m w) = Ret a -> R a.

Lemma returns_ret {A} (R : A -> Prop) a : R a -> returns R (ret a).
Proof. intros Hr w a' [= <-]. assumption. Qed.

Lemma returns_bind_from {A B} (R1 : A -> Prop) (R : B -> Prop)
  (m : M A) (k : A -> M B) :
  returns R1 m -> (forall a, R1 a -> returns R (k a)) -> returns R (bind m k).
Proof.
  intros Hm Hk w b. unfold bind. specialize (Hm w).
  destruct (m w) as [[a|e|] w1]; simpl in *; try discriminate.
  apply Hk. now apply Hm.
Qed.

Lemma returns_bind {A B} (R : B -> Prop) (m : M A) (k : A -> M B) :
  (forall a, returns R (k a)) -> returns R (bind m k).
Proof.
  intros Hk. apply (returns_bind_from (fun _ => True)); [easy|auto].
Qed.

Lemma returns_try_except {A} (R : A -> Prop) (m : M A) handler :
  returns R m -> (forall e, returns R (handler e)) ->
  returns R (try_except m handler).
Proof.
  intros Hm Hh w a. unfold try_except. specialize (Hm w).
  destruct (m w) as [[a'|e|] w1]; simpl in *; try discriminate.
  - apply Hm.
  - apply Hh.
Qed.

Lemma returns_try_finally {A} (R : A -> Prop) (m : M A) cleanup :
  returns R m -> returns R (try_finally m cleanup).
Proof.
  intros Hm w a. unfold try_finally. specialize (Hm w).
  destruct (m w) as [[a'|e|] w1]; simpl in *; try discriminate;
    destruct (cleanup w1) as [[[]|e'|] w2]; simpl; try discriminate.
  apply Hm.
Qed.

End Logic.

(** ** Running a tool step by step *)

Ltac run_step :=
  unfold bind, ret, try_except, host_read, subprocess_run, fs_read, fs_write,
    fs_test; simpl.

(** ** Missing arguments *)

(** C7.  A request for the archive push that has repository_path "x/y/z"
    but neither source_dir nor artifact_name is answered with exactly
    {"error": "Source directory is required"}; no external command is run
    and the file tree, the host and the log are left as they were. *)
Theorem missing_source_dir_is_answered_at_once
  {H : Host} {C : Codecs}
  (project_dir package_name output_dir version : option string)
  (timeout : option Z) (auto_version dry_run : option bool) (w : world) :
  ArtifactPush.gcp_artifact_push
    {| source_dir := None; project_dir := project_dir;
       repository_path := Some "x/y/z"; artifact_name := None;
       package_name := package_name; output_dir := output_dir;
       version := version; timeout := timeout;
       auto_version := auto_version; dry_run := dry_run |} w
  = (Ret [("error", VStr "Source directory is required")], w).
Proof. reflexivity. Qed.

(** ** The auth provisioner *)

(** C8.  The auth provisioner of every tool returns no token when the
    token command exits with a non-zero code; and when the token command
    succeeds but the docker credential configuration exits with a non-zero
    code, it returns no token either: the token it had read is dropped. *)
Theorem failed_provisioning_returns_no_token
  {H : Host} (registry_host : string) (w : world) :
  (forall d rc out err e1 fs1,
      spawn token_call (w_ext w) (w_fs w) = (Finishes d rc out err, e1, fs1) ->
      rc <> 0%Z ->
      fst (setup_gcp_auth_for registry_host w) = Ret None)
  /\
  (forall d out err e1 fs1 d' rc' out' err' e2 fs2,
      spawn token_call (w_ext w) (w_fs w) = (Finishes d 0 out err, e1, fs1) ->
      spawn (configure_docker_call registry_host) e1 fs1
      = (Finishes d' rc' out' err', e2, fs2) ->
      rc' <> 0%Z ->
      fst (setup_gcp_auth_for registry_host w) = Ret None).
Proof.
  split.
  - intros d rc out err e1 fs1 Hs Hrc.
    unfold setup_gcp_auth_for. run_step. rewrite Hs. simpl.
    apply Z.eqb_neq in Hrc. now rewrite Hrc.
  - intros d out err e1 fs1 d' rc' out' err' e2 fs2 Hs1 Hs2 Hrc.
    unfold setup_gcp_auth_for. run_step. rewrite Hs1. simpl.
    rewrite Hs2. simpl.
    apply Z.eqb_neq in Hrc. now rewrite Hrc.
Qed.

Lemma failed_provisioning_returns_no_token_witness :
  fst (setup_gcp_auth_for (H := Sample.scripted Sample.token_refused)
         "us-central1-docker.pkg.dev" (Sample.start _)) = Ret None
  /\ fst (setup_gcp_auth_for (H := Sample.scripted Sample.docker_refused)
            "us-central1-npm.pkg.dev" (Sample.start _)) = Ret None.
Proof.
  split.
  - eapply (proj1 (failed_provisioning_returns_no_token
                     (H := Sample.scripted Sample.token_refused) _ _)).
    + reflexivity.
    + discriminate.
  - eapply (proj2 (failed_provisioning_returns_no_token
                     (H := Sample.scripted Sample.docker_refused) _ _)).
    + reflexivity.
    + reflexivity.
    + discriminate.
Defined.

(** ** The archive builder *)

Section ArchiveBuilder.
Context {H : Host} {C : Codecs}.
Import FS FSFacts FrameFacts.

(** One run of create_compressed_artifact in which nothing fails: the
    source directory exists, the output directory can be created and the
    archive file can be opened for writing. *)
Lemma archive_builder_run
  (source_dir output_dir artifact_name : string) (w : world) now e1 fs1 fs2 :
  let timestamp := strftime_underscore now in
  let filename := artifact_name ++ "_" ++ timestamp ++ ".tar.gz" in
  let path := OsPath.join output_dir filename in
  datetime_now (w_ext w) = (now, e1) ->
  Os.isdir source_dir (w_fs w) = true ->
  Os.makedirs output_dir (w_fs w) = Ok fs1 ->
  Os.write_text path (tar_pack []) fs1 = Ok fs2 ->
  exists w' tree,
    ArtifactPush.create_compressed_artifact source_dir output_dir artifact_name w
    = (Ret (Success {| ArtifactPush.artifact_path := path;
                       ArtifactPush.artifact_filename := filename;
                       ArtifactPush.timestamp := timestamp |}), w')
    /\ Os.isdir output_dir (w_fs w') = true
    /\ Os.read_text path (w_fs w')
       = Ok (tar_pack [(OsPath.basename source_dir, tree)]).
Proof.
  intros timestamp filename path Hnow Hsrc Hmk Hopen.
  (* the paths, resolved *)
  apply isdir_dir_at in Hsrc as [Hsrc_ne Hsrc].
  unfold Os.makedirs, Os.resolve in Hmk.
  destruct (String.eqb_spec output_dir "") as [|Hout_ne]; [discriminate|].
  destruct (mkdirs (OsPath.segments output_dir) (w_fs w)) as [fs1'|] eqn:Emk;
    [|destruct (lookup _ _) as [[]|]; discriminate].
  injection Hmk as ->.
  unfold Os.write_text, Os.resolve in Hopen.
  destruct (String.eqb_spec path "") as [|Hpath_ne]; [discriminate|].
  set (segs := OsPath.segments path) in *.
  assert (Hnodir : ~ dir_at segs fs1).
  { intros [es He]. rewrite He in Hopen. discriminate. }
  assert (Hput : put segs (File (tar_pack [])) fs1 = Some fs2).
  { destruct (lookup segs fs1) as [[]|]; try discriminate;
      destruct (put segs _ fs1); congruence. }
  clear Hopen.
  (* the directories are still there once the archive file is opened *)
  assert (Hout1 : dir_at (OsPath.segments output_dir) fs1)
    by exact (mkdirs_makes _ _ _ Emk).
  assert (Hsrc1 : dir_at (OsPath.segments source_dir) fs1)
    by exact (mkdirs_keeps_dirs _ _ _ _ Emk Hsrc).
  assert (Hout2 : dir_at (OsPath.segments output_dir) fs2)
    by exact (put_file_keeps_dirs _ _ _ _ _ Hput Hnodir Hout1).
  assert (Hsrc2 : dir_at (OsPath.segments source_dir) fs2)
    by exact (put_file_keeps_dirs _ _ _ _ _ Hput Hnodir Hsrc1).
  assert (Hfile : lookup segs fs2 = Some (File (tar_pack [])))
    by exact (lookup_put _ _ _ _ Hput).
  (* the source, read beside the archive *)
  assert (Hsegs : segs <> []).
  { intros E. rewrite E in Hfile. simpl in Hfile. injection Hfile as ->.
    destruct Hsrc2 as [es He]. destruct (OsPath.segments source_dir); discriminate. }
  destruct (remove_bound _ _ _ Hsegs Hfile) as [without Hrm].
  destruct (remove_file_keeps_dirs _ _ _ _ _ Hrm Hfile Hsrc2) as [entries Htree].
  (* the archive, written *)
  set (bytes := tar_pack [(OsPath.basename source_dir, Dir entries)]).
  destruct (put_bound _ (File bytes) _ _ Hfile) as [fs3 Hput3].
  assert (Hout3 : dir_at (OsPath.segments output_dir) fs3).
  { apply (put_file_keeps_dirs _ _ _ _ _ Hput3); [|assumption].
    intros [es He]. congruence. }
  exists {| w_fs := fs3; w_ext := e1; w_trace := w_trace w |}, (Dir entries).
  split; [|split].
  - unfold ArtifactPush.create_compressed_artifact, ArtifactPush.tar_create.
    unfold try_except, bind, host_read, fs_write, fs_read, ret. simpl.
    rewrite Hnow. simpl.
    unfold Os.makedirs, Os.resolve.
    apply String.eqb_neq in Hout_ne. rewrite Hout_ne, Emk. simpl.
    fold timestamp. fold filename. fold path. unfold bytes in Hput3.
    unfold Os.write_text, Os.stat, Os.resolve.
    apply String.eqb_neq in Hpath_ne, Hsrc_ne. rewrite Hpath_ne. fold segs.
    assert (Hl1 : match lookup segs fs1 with
                  | Some (Dir _) => true
                  | _ => false
                  end = false).
    { destruct (lookup segs fs1) as [[|es]|] eqn:El; try reflexivity.
      exfalso. apply Hnodir. now exists es. }
    destruct (lookup segs fs1) as [[|es]|]; try discriminate;
      rewrite Hput; simpl; rewrite Hsrc_ne;
      destruct Hsrc2 as [es2 ->]; rewrite Hrm, Htree; simpl;
      rewrite Hfile, Hput3; reflexivity.
  - apply isdir_dir_at. now split.
  - apply read_text_lookup. split; [assumption|].
    exact (lookup_put _ _ _ _ Hput3).
Qed.

End ArchiveBuilder.

Section ArchiveBuilderClaim.
Context {H : Host} {C : Codecs}.
Import FS DictFacts FSFacts FrameFacts.

(** When the output directory cannot be created, or the archive file
    cannot be opened, create_compressed_artifact reports a failure. *)
Lemma archive_builder_failure
  (source_dir output_dir artifact_name : string) (w : world) now e1 :
  let filename := artifact_name ++ "_" ++ strftime_underscore now ++ ".tar.gz" in
  let path := OsPath.join output_dir filename in
  datetime_now (w_ext w) = (now, e1) ->
  (exists e, Os.makedirs output_dir (w_fs w) = Err e)
  \/ (exists fs1 e, Os.makedirs output_dir (w_fs w) = Ok fs1
                    /\ Os.write_text path (tar_pack []) fs1 = Err e) ->
  exists error w',
    ArtifactPush.create_compressed_artifact source_dir output_dir artifact_name w
    = (Ret (Failure error), w').
Proof.
  intros filename path Hnow Hfail.
  unfold ArtifactPush.create_compressed_artifact, ArtifactPush.tar_create.
  unfold try_except, bind, host_read, fs_write, fs_read, ret.
  rewrite Hnow. cbn [w_fs w_ext w_trace].
  destruct Hfail as [[e He]|(fs1 & e & Hmk & He)].
  - rewrite He. eauto.
  - rewrite Hmk. cbn [w_fs w_ext w_trace]. fold filename. fold path.
    rewrite He. eauto.
Qed.


End ArchiveBuilderClaim.


(** ** The archive uploader *)

(** C3, as the code has it.  When the upload command exits with a
    non-zero code, push_to_artifact_registry returns the failure whose
    error text is "Failed to push artifact: " followed by the captured
    standard error, which is carried unchanged behind that prefix. *)
Theorem upload_failure_keeps_stderr_behind_prefix
  {H : Host}
  (artifact_path repository_path artifact_name token : string) (w : world)
  now e1 d rc out err e2 fs2 :
  let parts := PyStr.split_on PyStr.slash repository_path in
  (3 <= List.length parts)%nat ->
  datetime_now (w_ext w) = (now, e1) ->
  spawn (ArtifactPush.upload_call (nth 2 parts "") (nth 1 parts "") artifact_name
           (strftime_dot now) artifact_path) e1 (w_fs w)
  = (Finishes d rc out err, e2, fs2) ->
  rc <> 0%Z ->
  fst (ArtifactPush.push_to_artifact_registry artifact_path repository_path
         artifact_name token w)
  = Ret (Failure ("Failed to push artifact: " ++ err)).
Proof.
  intros parts Hlen Hnow Hs Hrc.
  unfold ArtifactPush.push_to_artifact_registry. run_step.
  fold parts.
  destruct (Nat.ltb_spec (List.length parts) 3) as [Hlt|_]; [lia|].
  simpl. rewrite Hnow. simpl. rewrite Hs. simpl.
  apply Z.eqb_neq in Hrc. now rewrite Hrc.
Qed.

Lemma upload_failure_keeps_stderr_behind_prefix_witness :
  fst (ArtifactPush.push_to_artifact_registry
         (H := Sample.scripted Sample.upload_denied)
         "artifacts/svc_20240305_140709.tar.gz"
         "us-central1-docker.pkg.dev/proj/repo" "svc_20240305_140709.tar.gz" "T"
         (Sample.start _))
  = Ret (Failure "Failed to push artifact: denied").
Proof.
  eapply (upload_failure_keeps_stderr_behind_prefix
            (H := Sample.scripted Sample.upload_denied)).
  - simpl. lia.
  - reflexivity.
  - reflexivity.
  - discriminate.
Defined.

(** C3 as stated fails: with an upload command that exits 1 and writes
    "denied" to standard error, the error text of the uploader is not
    "denied" but carries a prefix, and the tool adds the prefix once
    more. *)
Lemma upload_failure_is_not_verbatim :
  let run := ArtifactPush.gcp_artifact_push
               (H := Sample.scripted Sample.upload_denied) (C := Sample.codecs)
               (Sample.push_request "us-central1-docker.pkg.dev/proj/repo")
               (Sample.start _) in
  option_map ev_outcome (List.last (map Some (w_trace (snd run))) None)
  = Some (Exited 1 "" "denied")
  /\ fst run
     = Ret [("error", VStr "Failed to push artifact: Failed to push artifact: denied")]
  /\ fst run <> Ret [("error", VStr "denied")]
  /\ fst (ArtifactPush.push_to_artifact_registry
            (H := Sample.scripted Sample.upload_denied)
            "artifacts/svc_20240305_140709.tar.gz"
            "us-central1-docker.pkg.dev/proj/repo" "svc_20240305_140709.tar.gz" "T"
            (Sample.start _))
     <> Ret (Failure "denied").
Proof.
  repeat split; try reflexivity; vm_compute; discriminate.
Qed.

(** C1, as the code has it.  A repository_path with fewer than three
    fields between slashes is turned down by push_to_artifact_registry with
    the invalid-format error, without any external command and without any
    other effect.  In gcp_artifact_push this happens after the two commands
    of the auth provisioner: those are the only commands the tool runs on
    such a request, the upload command is never among them, and the tool
    does not report success. *)
Theorem short_repository_path_never_reaches_upload
  {H : Host} {C : Codecs} (args : request) (repository : string) (w : world) :
  repository_path args = Some repository ->
  (List.length (PyStr.split_on PyStr.slash repository) < 3)%nat ->
  (forall artifact_path artifact_name token w',
      ArtifactPush.push_to_artifact_registry artifact_path repository
        artifact_name token w'
      = (Ret (Failure ArtifactPush.invalid_format), w'))
  /\ (exists evs,
         w_trace (snd (ArtifactPush.gcp_artifact_push args w))
         = (w_trace w ++ evs)%list
         /\ Forall (fun e => ev_call e = token_call
                             \/ ev_call e = configure_docker_call
                                              "us-central1-docker.pkg.dev") evs)
  /\ (forall d, fst (ArtifactPush.gcp_artifact_push args w) = Ret d ->
                Dict.get "success" d <> Some (VBool true)).
Proof.
  intros Hrp Hshort.
  assert (Hpush : forall artifact_path artifact_name token w',
             ArtifactPush.push_to_artifact_registry artifact_path repository
               artifact_name token w'
             = (Ret (Failure ArtifactPush.invalid_format), w')).
  { intros. unfold ArtifactPush.push_to_artifact_registry, try_except.
    apply Nat.ltb_lt in Hshort. now rewrite Hshort. }
  split; [exact Hpush|]. split.
  - assert (Hl : logs (fun e => ev_call e = token_call
                              \/ ev_call e = configure_docker_call
                                               "us-central1-docker.pkg.dev")
                   (ArtifactPush.gcp_artifact_push args)); [|apply Hl].
    unfold ArtifactPush.gcp_artifact_push. rewrite Hrp.
    apply logs_try_except.
    + destruct (source_dir args) as [[|]|]; try (apply silent_logs, silent_ret).
      destruct repository; try (apply silent_logs, silent_ret).
      destruct (artifact_name args) as [[|]|]; try (apply silent_logs, silent_ret).
      apply logs_bind.
      { apply silent_logs. unfold mkdtemp.
        repeat first [apply silent_bind | intro | apply silent_ret
                     | apply silent_host_read | apply silent_fs_write]. }
      intros temp_dir. apply logs_try_finally; [|apply silent_fs_write].
      apply logs_bind.
      { unfold ArtifactPush.setup_gcp_auth, setup_gcp_auth_for.
        apply logs_try_except; [|intros; apply silent_logs, silent_ret].
        apply logs_bind; [apply logs_run; intros; left; reflexivity|].
        intros p. destruct (negb _); [apply silent_logs, silent_ret|].
        apply logs_bind; [apply logs_run; intros; right; reflexivity|].
        intros p'. destruct (negb _); apply silent_logs, silent_ret. }
      intros [[|]|]; try (apply silent_logs, silent_ret).
      apply logs_bind.
      { apply silent_logs. unfold ArtifactPush.create_compressed_artifact,
          ArtifactPush.tar_create.
        repeat first [apply silent_try_except | apply silent_bind | intro
                     | apply silent_ret | apply silent_host_read
                     | apply silent_fs_write | apply silent_fs_read]. }
      intros [compress|error]; [|apply silent_logs, silent_ret].
      apply logs_bind.
      { apply silent_logs. intros w'. now rewrite Hpush. }
      intros [push|error]; apply silent_logs, silent_ret.
    + intros e. apply silent_logs. unfold boundary.
      destruct e; apply silent_ret.
  - intros d. revert w d.
    change (returns (fun d => Dict.get "success" d <> Some (VBool true))
              (ArtifactPush.gcp_artifact_push args)).
    unfold ArtifactPush.gcp_artifact_push. rewrite Hrp.
    apply returns_try_except.
    + destruct (source_dir args) as [[|]|]; try (apply returns_ret; discriminate).
      destruct repository; try (apply returns_ret; discriminate).
      destruct (artifact_name args) as [[|]|]; try (apply returns_ret; discriminate).
      apply returns_bind. intros temp_dir. apply returns_try_finally.
      apply returns_bind. intros [[|]|]; try (apply returns_ret; discriminate).
      apply returns_bind. intros [compress|error]; [|apply returns_ret; discriminate].
      apply (returns_bind_from (fun r => r = Failure ArtifactPush.invalid_format)).
      { intros w' r. rewrite Hpush. now intros [= <-]. }
      intros r ->. apply returns_ret. discriminate.
    + intros e. unfold boundary. destruct e; apply returns_ret; discriminate.
Qed.

Lemma short_repository_path_never_reaches_upload_witness :
  ArtifactPush.push_to_artifact_registry (H := Sample.scripted Sample.all_well)
    "artifacts/svc_20240305_140709.tar.gz" "x/y" "svc_20240305_140709.tar.gz" "T"
    (Sample.start _)
  = (Ret (Failure ArtifactPush.invalid_format), Sample.start _).
Proof.
  apply (proj1 (short_repository_path_never_reaches_upload
                  (H := Sample.scripted Sample.all_well) (C := Sample.codecs)
                  (Sample.push_request "x/y") "x/y" (Sample.start _)
                  eq_refl ltac:(simpl; lia))).
Defined.

(** C1 as stated fails.  On the request with repository_path "x/y" the
    archive push does answer with the invalid-format error, but only after
    it has run the two commands of the auth provisioner; and the package
    puller, which takes a repository_path too, does not turn "x/y" down at
    all. *)
Lemma short_path_is_rejected_late_or_not_at_all :
  let push := ArtifactPush.gcp_artifact_push
                (H := Sample.scripted Sample.all_well) (C := Sample.codecs)
                (Sample.push_request "x/y") (Sample.start _) in
  let pull := NpmPull.gcp_npm_pull
                (H := Sample.scripted Sample.all_well) (C := Sample.codecs)
                (Sample.pull_request "x/y") (Sample.start _) in
  List.length (PyStr.split_on PyStr.slash "x/y") = 2%nat
  /\ fst push
     = Ret [("error", VStr ("Failed to push artifact: " ++ ArtifactPush.invalid_format))]
  /\ map (fun e => c_argv (ev_call e)) (w_trace (snd push))
     = [["gcloud"; "auth"; "print-access-token"];
        ["gcloud"; "auth"; "configure-docker"; "us-central1-docker.pkg.dev"]]
  /\ (exists d, fst pull = Ret d /\ Dict.get "success" d = Some (VBool true))
  /\ List.length (w_trace (snd pull)) = 5%nat.
Proof.
  repeat split; try reflexivity.
  eexists. split; reflexivity.
Qed.

(** ** Timeouts *)

(** The commands of the package manager. *)
Definition npm_command (c : call) : bool := String.eqb (hd "" (c_argv c)) "npm".

(** What the two package-manager tools pass as [timeout=]. *)
Definition timeout_given (t : Z) (e : event) : Prop :=
  c_timeout (ev_call e) = if npm_command (ev_call e) then Some t else None.

Ltac unfold_helpers :=
  unfold ArtifactPush.setup_gcp_auth, ArtifactPush.create_compressed_artifact,
    NpmPull.setup_gcp_auth, NpmPull.extractall, NpmPull.flatten_package,
    NpmPush.setup_gcp_auth, NpmPush.auto_version_step, NpmPush.rename_step;
  unfold ArtifactPush.tar_create, NpmPush.update_package_version;
  unfold mkdtemp, rmtree, setup_gcp_auth_for, configure_npmrc, load_manifest,
    dump_manifest, boundary.

Ltac silent_go :=
  repeat first
    [ apply silent_ret | apply silent_raise | apply silent_fs_read
    | apply silent_fs_write | apply silent_fs_test | apply silent_host_read
    | apply silent_bind | apply silent_try_except | apply silent_for_each
    | match goal with
      | |- forall _, _ => intro
      | |- silent (match ?x with _ => _ end) => destruct x
      end ].

(** [logs_go ev]: walk through a tool, leaving to [ev] the commands. *)
Ltac logs_go ev :=
  repeat first
    [ apply logs_try_except | apply logs_bind
    | apply logs_try_finally; [|solve [silent_go]]
    | apply logs_run; intro; cbv beta; solve [ev]
    | match goal with
      | |- forall _, _ => intro
      | |- logs _ (match ?x with _ => _ end) => destruct x
      end
    | solve [apply silent_logs; silent_go] ].

Ltac surfaces_go :=
  repeat first
    [ apply surfaces_run
    | apply surfaces_bind
    | apply surfaces_try_finally;
      [| solve [silent_go] | intros; unfold fs_write; simpl; eauto]
    | match goal with
      | |- forall _, _ => intro
      | |- surfaces (match ?x with _ => _ end) => destruct x
      | |- surfaces (try_except _ _) =>
          apply surfaces_quiet;
          solve [logs_go ltac:(apply no_timeout_without_one; reflexivity)]
      end
    | solve [apply surfaces_silent; silent_go] ].

Section Boundary.
Context {H : Host}.

(** What the closing handlers of a tool make of its body. *)
Lemma at_boundary P (body : M pydict) what (t : Z) :
  logs P body -> surfaces body ->
  forall w, exists evs,
    w_trace (snd (try_except body (boundary what t) w)) = (w_trace w ++ evs)%list
    /\ Forall P evs
    /\ (Exists timed_out evs ->
        fst (try_except body (boundary what t) w) = Ret (timeout_result t)).
Proof.
  intros Hl Hs w. unfold try_except.
  destruct (Hl w) as (evs & Ht & Hp).
  destruct (Hs w) as (evs' & Ht' & Hr).
  assert (evs' = evs) as -> by (rewrite Ht in Ht'; now apply app_inv_head in Ht').
  exists evs.
  destruct (body w) as [[d|e|] w1]; simpl in *.
  - repeat split; try assumption.
    intros Hex. destruct (Hr Hex) as (? & ? & [=]).
  - assert (Hb : w_trace (snd (boundary what t e w1)) = w_trace w1
                 /\ forall cmd t', e = TimeoutExpired cmd t' ->
                      fst (boundary what t e w1) = Ret (timeout_result t)).
    { destruct e; simpl; split; try reflexivity; intros; discriminate. }
    destruct Hb as [Hb1 Hb2]. repeat split.
    + congruence.
    + assumption.
    + intros Hex. destruct (Hr Hex) as (cmd & t' & [= ->]). eauto.
  - repeat split; try assumption.
    intros Hex. destruct (Hr Hex) as (? & ? & [=]).
Qed.

End Boundary.

(** C2, as the code has it.  In the package puller and in the package
    publisher gcp_npm_push every npm command (view, pack, publish) is run
    with the configured timeout, 300 when the request gives none; the
    other commands of these tools are run without a timeout.  When a
    command of one of the two tools times out, the tool returns the
    timeout error, which names the configured value. *)
Theorem npm_commands_carry_the_timeout
  {H : Host} {C : Codecs} (args : request) (w : world) :
  let t := get_default (timeout args) 300%Z in
  (exists evs,
      w_trace (snd (NpmPull.gcp_npm_pull args w)) = (w_trace w ++ evs)%list
      /\ Forall (timeout_given t) evs
      /\ (Exists timed_out evs ->
          fst (NpmPull.gcp_npm_pull args w) = Ret (timeout_result t)))
  /\
  (exists evs,
      w_trace (snd (NpmPush.gcp_npm_push args w)) = (w_trace w ++ evs)%list
      /\ Forall (timeout_given t) evs
      /\ (Exists timed_out evs ->
          fst (NpmPush.gcp_npm_push args w) = Ret (timeout_result t))).
Proof.
  intros t. split.
  - unfold NpmPull.gcp_npm_pull. apply at_boundary; unfold_helpers.
    + logs_go ltac:(reflexivity).
    + surfaces_go.
  - unfold NpmPush.gcp_npm_push. apply at_boundary; unfold_helpers.
    + logs_go ltac:(reflexivity).
    + surfaces_go.
Qed.

Lemma npm_commands_carry_the_timeout_witness :
  fst (NpmPull.gcp_npm_pull (H := Sample.scripted Sample.endless_view)
         (C := Sample.codecs)
         (Sample.pull_request "us-central1-npm.pkg.dev/proj/repo")
         (Sample.start _))
  = Ret (timeout_result 300).
Proof.
  destruct (npm_commands_carry_the_timeout
              (H := Sample.scripted Sample.endless_view) (C := Sample.codecs)
              (Sample.pull_request "us-central1-npm.pkg.dev/proj/repo")
              (Sample.start _)) as [(evs & Htrace & _ & Htimeout) _].
  apply Htimeout.
  vm_compute in Htrace. subst evs.
  do 3 apply Exists_cons_tl. apply Exists_cons_hd. reflexivity.
Defined.

(** C2 as stated fails.  No command of the archive push is given a
    timeout: an upload that takes a thousand seconds, with the timeout left
    at its default of 300, is waited for and the push reports success; and
    with an upload that never ends the push never returns, so it returns no
    timeout error either. *)
Lemma archive_push_runs_without_timeouts :
  let request := Sample.push_request "us-central1-docker.pkg.dev/proj/repo" in
  let slow := ArtifactPush.gcp_artifact_push
                (H := Sample.scripted Sample.slow_upload) (C := Sample.codecs)
                request (Sample.start _) in
  let endless := ArtifactPush.gcp_artifact_push
                   (H := Sample.scripted Sample.endless_upload) (C := Sample.codecs)
                   request (Sample.start _) in
  get_default (timeout request) 300%Z = 300%Z
  /\ map (fun e => c_timeout (ev_call e)) (w_trace (snd slow)) = [None; None; None]
  /\ Dict.get "success" match fst slow with Ret d => d | _ => [] end
     = Some (VBool true)
  /\ Dict.get "output" match fst slow with Ret d => d | _ => [] end
     = Some (VStr "uploaded")
  /\ fst slow <> Ret (timeout_result 300)
  /\ fst endless = Hang.
Proof.
  repeat split; try reflexivity. vm_compute. discriminate.
Qed.

(** ** What the package puller reports *)

(** [returns_go leaf]: walk through a tool, leaving to [leaf] the values
    it returns. *)
Ltac returns_go leaf :=
  repeat first
    [ apply returns_try_except | apply returns_try_finally
    | apply returns_bind
    | apply returns_ret; solve [leaf]
    | match goal with
      | |- forall _, _ => intro
      | |- returns _ (match ?x with _ => _ end) => destruct x
      end ].

(** C10.  When the package puller reports success, the "version" of its
    result is the version string of the request, "latest" when the request
    has none: it is never read from what the package manager resolved and
    packed. *)
Theorem pulled_version_is_the_requested_one
  {H : Host} {C : Codecs} (args : request) (w : world) (d : pydict) :
  fst (NpmPull.gcp_npm_pull args w) = Ret d ->
  Dict.get "success" d = Some (VBool true) ->
  Dict.get "version" d = Some (VStr (get_default (version args) "latest")).
Proof.
  revert w d.
  change (returns (fun d => Dict.get "success" d = Some (VBool true) ->
                            Dict.get "version" d
                            = Some (VStr (get_default (version args) "latest")))
            (NpmPull.gcp_npm_pull args)).
  unfold NpmPull.gcp_npm_pull, boundary.
  returns_go ltac:(first [reflexivity | intros Hs; cbv in Hs; discriminate]).
Qed.

Lemma pulled_version_is_the_requested_one_witness :
  exists d,
    fst (NpmPull.gcp_npm_pull (H := Sample.scripted Sample.all_well)
           (C := Sample.codecs)
           (Sample.pull_request "us-central1-npm.pkg.dev/proj/repo")
           (Sample.start _)) = Ret d
    /\ Dict.get "version" d = Some (VStr "^1.0.0").
Proof.
  eexists. split.
  - vm_compute. reflexivity.
  - eapply (pulled_version_is_the_requested_one
              (H := Sample.scripted Sample.all_well) (C := Sample.codecs)
              (Sample.pull_request "us-central1-npm.pkg.dev/proj/repo")
              (Sample.start _)).
    + vm_compute. reflexivity.
    + reflexivity.
Defined.

(** ** The flatten step of the package puller *)

Section Flatten.
Context {H : Host}.
Import FS DictFacts FSFacts.

Lemma file_name_package : file_name "package".
Proof. repeat split; discriminate. Qed.

(** One turn of the loop: the first child of the package folder goes to
    the end of the output directory. *)
Lemma move_child_up (output_dir item : string) c rest es fs :
  output_dir <> "" ->
  lookup (OsPath.segments output_dir) fs = Some (Dir es) ->
  Dict.get "package" es = Some (Dir ((item, c) :: rest)) ->
  file_name item ->
  Dict.get item es = None ->
  ~ In item (Dict.keys rest) ->
  exists fs',
    put (OsPath.segments output_dir)
      (Dir (Dict.set "package" (Dir rest) es ++ [(item, c)])) fs = Some fs'
    /\ Os.move (OsPath.join (OsPath.join output_dir "package") item)
               (OsPath.join output_dir item) fs = Ok fs'.
Proof.
  intros Hout Hl Hpkg Hitem Hfree Hrest.
  set (segs := OsPath.segments output_dir) in *.
  assert (Hne : item <> "package") by (intros ->; congruence).
  (* the two paths, resolved *)
  assert (Hsrc : Os.resolve (OsPath.join (OsPath.join output_dir "package") item)
                 = Some ((segs ++ ["package"]) ++ [item])%list).
  { unfold Os.resolve.
    rewrite (proj2 (String.eqb_neq _ _) (join_nonempty _ _ (proj1 Hitem))).
    now rewrite !segments_join by auto using file_name_package. }
  assert (Hdst : Os.resolve (OsPath.join output_dir item)
                 = Some (segs ++ [item])%list).
  { unfold Os.resolve.
    rewrite (proj2 (String.eqb_neq _ _) (join_nonempty _ _ (proj1 Hitem))).
    now rewrite segments_join. }
  assert (Hpkg_at : lookup (segs ++ ["package"])%list fs
                    = Some (Dir ((item, c) :: rest))).
  { rewrite lookup_app, Hl. simpl. now rewrite Hpkg. }
  (* the source leaves the package folder *)
  destruct (put_bound segs (Dir (Dict.set "package" (Dir rest) es)) fs _ Hl)
    as [fs1 Hput1].
  assert (Hrm : remove ((segs ++ ["package"]) ++ [item])%list fs = Some fs1).
  { rewrite (remove_child _ _ _ _ c Hpkg_at) by (simpl; now rewrite String.eqb_refl).
    simpl. rewrite String.eqb_refl.
    rewrite del_absent by now apply get_absent_iff.
    now rewrite (put_child _ _ _ _ _ Hl). }
  (* and arrives in the output directory *)
  assert (Hl1 : lookup segs fs1 = Some (Dir (Dict.set "package" (Dir rest) es)))
    by exact (lookup_put _ _ _ _ Hput1).
  destruct (put_bound segs
              (Dir (Dict.set "package" (Dir rest) es ++ [(item, c)])) fs _ Hl)
    as [fs2 Hput2].
  assert (Hin : put (segs ++ [item])%list c fs1 = Some fs2).
  { rewrite (put_child _ _ _ _ _ Hl1).
    rewrite set_absent by now rewrite get_set_other.
    now rewrite (put_put _ _ _ _ _ Hput1). }
  exists fs2. split; [assumption|].
  unfold Os.move, Os.isdir, Os.rename, Os.stat.
  rewrite Hsrc, Hdst.
  rewrite lookup_app, Hpkg_at. simpl. rewrite String.eqb_refl.
  rewrite lookup_app, Hl. simpl. rewrite Hfree.
  unfold Os.resolve in Hsrc.
  destruct (String.eqb _ "") in Hsrc; [discriminate|].
  injection Hsrc as ->. now rewrite Hrm, Hin.
Qed.

(** The whole loop. *)
Lemma move_children_up (output_dir : string) cs es (w : world) :
  output_dir <> "" ->
  lookup (OsPath.segments output_dir) (w_fs w) = Some (Dir es) ->
  Dict.get "package" es = Some (Dir cs) ->
  NoDup (Dict.keys cs) ->
  Forall file_name (Dict.keys cs) ->
  (forall k, In k (Dict.keys cs) -> Dict.get k es = None) ->
  exists fs',
    put (OsPath.segments output_dir)
      (Dir (Dict.set "package" (Dir []) es ++ cs)) (w_fs w) = Some fs'
    /\ for_each (Dict.keys cs)
         (fun item =>
            fs_write (Os.move (OsPath.join (OsPath.join output_dir "package") item)
                              (OsPath.join output_dir item))) w
       = (Ret tt, {| w_fs := fs'; w_ext := w_ext w; w_trace := w_trace w |}).
Proof.
  intros Hout. revert es w.
  induction cs as [|[item c] rest IH]; intros es w Hl Hpkg Hnd Hnames Hfree.
  - simpl. rewrite app_nil_r.
    exists (w_fs w). split.
    + rewrite (set_same _ _ _ Hpkg). now apply put_same.
    + unfold ret. now destruct w.
  - simpl in Hnd, Hnames. inversion Hnd as [|? ? Hnotin Hnd']; subst.
    inversion Hnames as [|? ? Hitem Hnames']; subst.
    destruct (move_child_up output_dir item c rest es (w_fs w) Hout Hl Hpkg
                Hitem (Hfree item (or_introl eq_refl)) Hnotin)
      as (fs1 & Hput1 & Hmove).
    set (es1 := (Dict.set "package" (Dir rest) es ++ [(item, c)])%list) in *.
    set (w1 := {| w_fs := fs1; w_ext := w_ext w; w_trace := w_trace w |}).
    assert (Hne : forall k, In k (Dict.keys rest) -> k <> "package").
    { intros k Hk ->. specialize (Hfree "package" (or_intror Hk)). congruence. }
    destruct (IH es1 w1) as (fs2 & Hput2 & Hloop).
    + exact (lookup_put _ _ _ _ Hput1).
    + unfold es1. rewrite get_app, get_set_same. reflexivity.
    + assumption.
    + assumption.
    + intros k Hk. unfold es1. rewrite get_app.
      rewrite get_set_other by now apply Hne.
      rewrite (Hfree k (or_intror Hk)). simpl.
      destruct (String.eqb_spec k item) as [->|]; [contradiction|reflexivity].
    + exists fs2. split.
      * rewrite <- Hput2. simpl. rewrite (put_put _ _ _ _ _ Hput1).
        f_equal. f_equal. unfold es1.
        rewrite set_app_present by (rewrite get_set_same; discriminate).
        rewrite set_set, <- app_assoc. reflexivity.
      * cbn [Dict.keys map fst for_each]. unfold bind at 1, fs_write at 1.
        rewrite Hmove. exact Hloop.
Qed.


End Flatten.



(** ** The version the package publisher writes *)

Section AutoVersion.
Context {H : Host} {C : Codecs}.

(** One run of update_package_version on a manifest that is there and
    holds a JSON object. *)
Lemma update_package_version_run (path : string) (w : world) text members now e1 :
  Os.read_text path (w_fs w) = Ok text ->
  json_loads text = Some (JObj members) ->
  time_time (w_ext w) = (now, e1) ->
  let new_version := "0.1." ++ PyStr.str_of_Z (NpmPush.whole_seconds now) in
  let written :=
    json_dumps (JObj (Dict.set "version" (JStr new_version) members)) in
  exists old w',
    NpmPush.update_package_version path w
    = (Ret (Success {| NpmPush.old_version := old;
                       NpmPush.new_version := new_version |}), w')
    /\ Os.read_text path (w_fs w') = Ok written.
Proof.
  intros Hread Hjson Hnow new_version written.
  destruct (write_text_existing path text written (w_fs w) Hread)
    as (fs' & Hwrite & Hafter).
  unfold NpmPush.update_package_version, load_manifest, dump_manifest.
  run_step. rewrite Hread. simpl. rewrite Hjson. simpl. rewrite Hnow. simpl.
  unfold written, new_version in Hwrite. simpl in Hwrite.
  rewrite Hwrite. simpl.
  eexists. eexists. split; [reflexivity|exact Hafter].
Qed.

End AutoVersion.



(** ** The dry run of gcp_npm_publish *)




(** * Further properties of the tools *)

(** ** Exceptions stay inside *)

Section Raises.
Context {H : Host}.

(** [raises P m]: an exception that comes out of [m] satisfies [P]. *)
Definition raises {A} (P : exn -> Prop) (m : M A) : Prop :=
  forall w e, fst (m w) = Raise e -> P e.

Lemma raises_ret {A} P (a : A) : raises P (ret a).
Proof. intros w e. discriminate. Qed.

Lemma raises_fs_test P op : raises P (fs_test op).
Proof. intros w e. discriminate. Qed.

Lemma raises_host_read {A} P (op : ext -> A * ext) : raises P (host_read op).
Proof. intros w e. unfold host_read. destruct (op (w_ext w)). discriminate. Qed.

Lemma raises_fs_read {A} (P : exn -> Prop) (op : FS.node -> result A) :
  (forall fs e, op fs = Err e -> P e) -> raises P (fs_read op).
Proof.
  intros Hop w e. unfold fs_read.
  destruct (op (w_fs w)) eqn:E; simpl; [discriminate|].
  intros [= <-]. eauto.
Qed.

Lemma raises_fs_write (P : exn -> Prop) op :
  (forall fs e, op fs = Err e -> P e) -> raises P (fs_write op).
Proof.
  intros Hop w e. unfold fs_write.
  destruct (op (w_fs w)) eqn:E; simpl; [discriminate|].
  intros [= <-]. eauto.
Qed.

Lemma raises_bind {A B} P (m : M A) (k : A -> M B) :
  raises P m -> (forall a, raises P (k a)) -> raises P (bind m k).
Proof.
  intros Hm Hk w e. unfold bind. specialize (Hm w).
  destruct (m w) as [[a|e'|] w1]; simpl in *.
  - apply Hk.
  - intros [= <-]. now apply Hm.
  - discriminate.
Qed.

(** A handler that catches everything lets through only what it raises
    itself. *)
Lemma raises_try_except {A} P (m : M A) handler :
  (forall e, raises P (handler e)) -> raises P (try_except m handler).
Proof.
  intros Hh w e. unfold try_except.
  destruct (m w) as [[a|e'|] w1]; simpl; try discriminate.
  apply Hh.
Qed.

Lemma raises_try_finally {A} P (m : M A) cleanup :
  raises P m -> raises P cleanup -> raises P (try_finally m cleanup).
Proof.
  intros Hm Hc w e. unfold try_finally. specialize (Hm w).
  destruct (m w) as [[a|e'|] w1]; simpl in *; try discriminate;
    specialize (Hc w1); destruct (cleanup w1) as [[[]|e''|] w2]; simpl in *;
    try discriminate; intros [= <-]; auto.
Qed.

Lemma boundary_returns what t e w : exists d, boundary what t e w = (Ret d, w).
Proof. unfold boundary, ret. destruct e; eauto. Qed.

End Raises.

(** X1.  None of the four tools lets an exception out: whatever the host
    and the file tree do, a tool ends with a result dictionary or, when a
    program it waits for without a timeout never ends, does not end at
    all. *)
Theorem tools_never_raise {H : Host} {C : Codecs} (args : request) (w : world) e :
  fst (ArtifactPush.gcp_artifact_push args w) <> Raise e
  /\ fst (NpmPull.gcp_npm_pull args w) <> Raise e
  /\ fst (NpmPush.gcp_npm_push args w) <> Raise e
  /\ fst (NpmPublish.gcp_npm_publish args w) <> Raise e.
Proof.
  assert (Hb : forall what t, forall e', raises (fun _ => False) (boundary what t e')).
  { intros what t e' w' e''. destruct (boundary_returns what t e' w') as [d ->].
    discriminate. }
  repeat split; intros Hr.
  - exact (raises_try_except (fun _ => False) _ _ (Hb _ _) w e Hr).
  - exact (raises_try_except (fun _ => False) _ _ (Hb _ _) w e Hr).
  - exact (raises_try_except (fun _ => False) _ _ (Hb _ _) w e Hr).
  - refine (raises_try_except (fun _ => False) _ _ _ w e Hr).
    intros e' w' e''. discriminate.
Qed.

(** ** The timeout of the archive push *)

Definition with_timeout (t : option Z) (args : request) : request :=
  {| source_dir := source_dir args; project_dir := project_dir args;
     repository_path := repository_path args; artifact_name := artifact_name args;
     package_name := package_name args; output_dir := output_dir args;
     version := version args; timeout := t;
     auto_version := auto_version args; dry_run := dry_run args |}.

Definition not_a_timeout (e : exn) : Prop :=
  forall cmd t, e <> TimeoutExpired cmd t.

Section TimeoutUnused.
Context {H : Host} {C : Codecs}.

(** The closing handlers look at the timeout only for TimeoutExpired. *)
Lemma boundary_without_timeouts (body : M pydict) what t1 t2 w :
  raises not_a_timeout body ->
  try_except body (boundary what t1) w = try_except body (boundary what t2) w.
Proof.
  intros Hb. unfold try_except. specialize (Hb w).
  destruct (body w) as [[d|e|] w1]; simpl in *; try reflexivity.
  specialize (Hb e eq_refl). destruct e; try reflexivity.
  now destruct (Hb cmd timeout0).
Qed.

Lemma mkdtemp_raises_no_timeout : raises not_a_timeout mkdtemp.
Proof.
  unfold mkdtemp. apply raises_bind; [apply raises_host_read|]. intros name.
  apply raises_bind; [|intros; apply raises_ret].
  apply raises_fs_write. intros fs e. unfold mkdir.
  destruct (Os.stat name fs); [intros [= <-]; discriminate|].
  destruct (Os.resolve name); [|intros [= <-]; discriminate].
  destruct (FS.put _ _ fs); [discriminate|]. intros [= <-]. discriminate.
Qed.

(** X2.  The timeout of a request has no effect on the archive push: the
    tool reads it, but runs no command with it, and so gives the same
    result and leaves the same world whatever its value. *)
Theorem archive_push_ignores_timeout (t : option Z) (args : request) (w : world) :
  ArtifactPush.gcp_artifact_push (with_timeout t args) w
  = ArtifactPush.gcp_artifact_push args w.
Proof.
  unfold ArtifactPush.gcp_artifact_push, with_timeout. cbn [source_dir
    repository_path artifact_name output_dir timeout].
  apply boundary_without_timeouts.
  destruct (source_dir args) as [[|]|]; try apply raises_ret.
  destruct (repository_path args) as [[|]|]; try apply raises_ret.
  destruct (artifact_name args) as [[|]|]; try apply raises_ret.
  apply raises_bind; [apply mkdtemp_raises_no_timeout|]. intros temp_dir.
  apply raises_try_finally.
  - apply raises_bind.
    { apply raises_try_except. intros e. apply raises_ret. }
    intros [[|]|]; try apply raises_ret.
    apply raises_bind.
    { apply raises_try_except. intros e. apply raises_ret. }
    intros [compress|error]; [|apply raises_ret].
    apply raises_bind.
    { apply raises_try_except. intros e. apply raises_ret. }
    intros [push|error]; apply raises_ret.
  - apply raises_fs_write. discriminate.
Qed.

End TimeoutUnused.

(** ** The temporary directory *)

Section TemporaryDirectory.
Context {H : Host} {C : Codecs}.
Import FS DictFacts FSFacts FrameFacts.

Lemma lookup_remove p fs fs' : remove p fs = Some fs' -> lookup p fs' = None.
Proof.
  revert fs fs'. induction p as [|s p IH]; intros fs fs'; simpl; [discriminate|].
  destruct fs as [c|es]; [discriminate|].
  destruct (Dict.get s es) as [c|] eqn:Eg; [|discriminate].
  destruct p as [|s' p].
  - intros [= <-]. simpl. now rewrite get_del_same.
  - destruct (remove (s' :: p) c) as [c'|] eqn:Er; [|discriminate].
    intros [= <-]. cbn [lookup]. rewrite get_set_same. exact (IH _ _ Er).
Qed.

(** shutil.rmtree leaves no directory at the path, unless the path is the
    root of the tree. *)
Lemma rmtree_leaves_no_directory p fs :
  OsPath.segments p <> [] \/ p = "" ->
  Os.isdir p (Os.rmtree_ignore_errors p fs) = false.
Proof.
  intros Hp. unfold Os.rmtree_ignore_errors, Os.isdir, Os.stat, Os.resolve.
  destruct (String.eqb_spec p "") as [->|Hne]; [reflexivity|].
  destruct Hp as [Hp|Hp]; [|contradiction].
  destruct (lookup (OsPath.segments p) fs) as [[c|es]|] eqn:El.
  - now rewrite El.
  - destruct (remove_bound _ _ _ Hp El) as [fs' Hrm]. rewrite Hrm.
    now rewrite (lookup_remove _ _ _ Hrm).
  - now rewrite El.
Qed.

Lemma fresh_name_is_not_the_root p fs :
  Os.path_exists p fs = false -> OsPath.segments p <> [] \/ p = "".
Proof.
  unfold Os.path_exists, Os.stat, Os.resolve.
  destruct (String.eqb_spec p "") as [->|Hne]; [now right|].
  intros Hex. left. intros Hs. rewrite Hs in Hex. discriminate.
Qed.

(** [temp_dir = mkdtemp()] followed by [try: ... finally: rmtree(temp_dir)]:
    when this comes to an end, there is no directory under the fresh
    name. *)
Lemma temporary_directory_scope (body : string -> M pydict) (w : world) :
  let temp_dir := fst (mkdtemp_name (w_ext w)) in
  let run := bind mkdtemp (fun t => try_finally (body t) (rmtree t)) w in
  Os.path_exists temp_dir (w_fs w) = false ->
  fst run <> Hang ->
  Os.isdir temp_dir (w_fs (snd run)) = false.
Proof.
  intros temp_dir run Hfresh Hend. subst run.
  assert (Hnone : Os.isdir temp_dir (w_fs w) = false).
  { unfold Os.isdir. unfold Os.path_exists in Hfresh.
    now destruct (Os.stat temp_dir (w_fs w)). }
  pose proof (fresh_name_is_not_the_root _ _ Hfresh) as Hroot.
  unfold mkdtemp, bind, host_read, fs_write, ret in *.
  subst temp_dir. destruct (mkdtemp_name (w_ext w)) as [name e']. simpl in *.
  destruct (mkdir name (w_fs w)) as [fs1|e]; simpl in *; [|assumption].
  unfold try_finally, rmtree, fs_write in *.
  destruct (body name _) as [[d|e|] w1]; simpl in *;
    try (now apply rmtree_leaves_no_directory).
  now destruct Hend.
Qed.

Lemma through_boundary (body : M pydict) what t w (P : FS.node -> Prop) :
  (fst (body w) <> Hang -> P (w_fs (snd (body w)))) ->
  fst (try_except body (boundary what t) w) <> Hang ->
  P (w_fs (snd (try_except body (boundary what t) w))).
Proof.
  unfold try_except. destruct (body w) as [[d|e|] w1]; simpl; auto.
  destruct (boundary_returns what t e w1) as [d ->]. simpl.
  intros Hp _. apply Hp. discriminate.
Qed.

(** X3.  The three tools that work in a temporary directory never leave
    it behind: when the name tempfile.mkdtemp picks is free at the start and
    the tool comes to an end, whether with a success or with any error,
    there is no directory under that name afterwards. *)
Theorem temporary_directory_is_never_left_behind (args : request) (w : world) :
  let temp_dir := fst (mkdtemp_name (w_ext w)) in
  Os.path_exists temp_dir (w_fs w) = false ->
  (fst (ArtifactPush.gcp_artifact_push args w) <> Hang ->
   Os.isdir temp_dir (w_fs (snd (ArtifactPush.gcp_artifact_push args w))) = false)
  /\ (fst (NpmPull.gcp_npm_pull args w) <> Hang ->
      Os.isdir temp_dir (w_fs (snd (NpmPull.gcp_npm_pull args w))) = false)
  /\ (fst (NpmPush.gcp_npm_push args w) <> Hang ->
      Os.isdir temp_dir (w_fs (snd (NpmPush.gcp_npm_push args w))) = false).
Proof.
  intros temp_dir Hfresh.
  assert (Hnone : Os.isdir temp_dir (w_fs w) = false).
  { unfold Os.isdir. unfold Os.path_exists in Hfresh.
    now destruct (Os.stat temp_dir (w_fs w)). }
  split; [|split]; intros Hend.
  - refine (through_boundary _ _ _ w (fun fs => Os.isdir temp_dir fs = false) _ Hend).
    clear Hend. intros Hend.
    destruct (source_dir args) as [[|]|]; try assumption.
    destruct (repository_path args) as [[|]|]; try assumption.
    destruct (artifact_name args) as [[|]|]; try assumption.
    now apply temporary_directory_scope.
  - refine (through_boundary _ _ _ w (fun fs => Os.isdir temp_dir fs = false) _ Hend).
    clear Hend. intros Hend.
    destruct (package_name args) as [[|]|]; try assumption.
    destruct (repository_path args) as [[|]|]; try assumption.
    now apply temporary_directory_scope.
  - refine (through_boundary _ _ _ w (fun fs => Os.isdir temp_dir fs = false) _ Hend).
    clear Hend. intros Hend.
    destruct (source_dir args) as [[|]|]; try assumption.
    destruct (repository_path args) as [[|]|]; try assumption.
    unfold bind at 1 in Hend. unfold bind at 1. unfold fs_test in *. simpl in *.
    destruct (negb _); [assumption|].
    now apply temporary_directory_scope.
Qed.

End TemporaryDirectory.

Lemma temporary_directory_is_never_left_behind_witness :
  Os.isdir "/tmp/tmpqk3x"
    (w_fs (snd (NpmPull.gcp_npm_pull
                  (H := Sample.scripted Sample.endless_view) (C := Sample.codecs)
                  (Sample.pull_request "us-central1-npm.pkg.dev/proj/repo")
                  (Sample.start _)))) = false.
Proof.
  apply (proj1 (proj2 (temporary_directory_is_never_left_behind
                         (H := Sample.scripted Sample.endless_view)
                         (C := Sample.codecs)
                         (Sample.pull_request "us-central1-npm.pkg.dev/proj/repo")
                         (Sample.start _) eq_refl))).
  intros Hhang. vm_compute in Hhang. discriminate.
Defined.

(** ** The registry configuration file *)

Section Npmrc.
Context {H : Host}.

Lemma file_name_npmrc : file_name ".npmrc".
Proof. repeat split; discriminate. Qed.

(** X4.  In an existing target directory, configure_npmrc succeeds
    without running any command: it returns the text the .npmrc held
    before, or none when there was no such file, and the path of the file,
    which afterwards holds the six configuration lines made from the
    repository path and the token. *)
Theorem configure_npmrc_overwrites_and_reports
  (target_dir repository token : string) (w : world) :
  let path := OsPath.join target_dir ".npmrc" in
  Os.isdir target_dir (w_fs w) = true ->
  Os.isdir path (w_fs w) = false ->
  exists w',
    configure_npmrc target_dir repository token w
    = (Ret (Success {| original_npmrc :=
                         match Os.read_text path (w_fs w) with
                         | Ok text => Some text
                         | Err _ => None
                         end;
                       npmrc_path := path |}), w')
    /\ Os.read_text path (w_fs w') = Ok (npmrc_text repository token)
    /\ w_ext w' = w_ext w
    /\ w_trace w' = w_trace w.
Proof.
  intros path Hdir Hfile.
  destruct (write_text_into_dir target_dir ".npmrc" (npmrc_text repository token)
              (w_fs w) file_name_npmrc Hdir Hfile) as (fs' & Hwrite & Hread).
  subst path.
  exists {| w_fs := fs'; w_ext := w_ext w; w_trace := w_trace w |}.
  split; [|now repeat split].
  assert (Hpresent :
            Os.path_exists (OsPath.join target_dir ".npmrc") (w_fs w)
            = match Os.read_text (OsPath.join target_dir ".npmrc") (w_fs w) with
              | Ok _ => true
              | Err _ => false
              end).
  { unfold Os.path_exists, Os.read_text. unfold Os.isdir in Hfile.
    now destruct (Os.stat _ (w_fs w)) as [[|]|]. }
  unfold configure_npmrc, try_except, bind, fs_test, fs_read, fs_write, ret.
  cbv beta zeta. rewrite Hpresent.
  destruct (Os.read_text (OsPath.join target_dir ".npmrc") (w_fs w)) eqn:Hold;
    cbv beta iota zeta; cbn [w_fs]; rewrite ?Hold;
    cbv beta iota zeta; cbn [w_fs]; now rewrite Hwrite.
Qed.

End Npmrc.

Lemma configure_npmrc_overwrites_and_reports_witness :
  exists w',
    configure_npmrc (H := Sample.scripted Sample.all_well)
      "work/pkg" "us-central1-npm.pkg.dev/proj/repo" "T" (Sample.start _)
    = (Ret (Success {| original_npmrc := None;
                       npmrc_path := "work/pkg/.npmrc" |}), w')
    /\ Os.read_text "work/pkg/.npmrc" (w_fs w')
       = Ok (npmrc_text "us-central1-npm.pkg.dev/proj/repo" "T").
Proof.
  destruct (configure_npmrc_overwrites_and_reports
              (H := Sample.scripted Sample.all_well)
              "work/pkg" "us-central1-npm.pkg.dev/proj/repo" "T" (Sample.start _)
              eq_refl eq_refl) as (w' & Hrun & Hread & _).
  exists w'. split; assumption.
Defined.

(** ** The manifest *)

Section Manifest.
Context {H : Host} {C : Codecs}.
Import DictFacts.

(** X5.  When the manifest is missing, is not JSON or is JSON but not an
    object, update_package_version reports a failure and changes nothing:
    the file is not written, the clock is not read, no command is run; the
    package publisher then answers "Failed to update version: ...". *)
Theorem unusable_manifest_is_left_alone (path : string) (w : world) :
  (forall text members,
      Os.read_text path (w_fs w) = Ok text ->
      json_loads text <> Some (JObj members)) ->
  exists error,
    NpmPush.update_package_version path w = (Ret (Failure error), w)
    /\ NpmPush.auto_version_step true path w
       = (Ret (Some [("error", VStr ("Failed to update version: " ++ error))]), w).
Proof.
  intros Hbad.
  assert (Hrun : exists error,
             NpmPush.update_package_version path w = (Ret (Failure error), w)).
  { unfold NpmPush.update_package_version, load_manifest, try_except, bind,
      fs_read, raise, ret.
    destruct (Os.read_text path (w_fs w)) as [text|e] eqn:Hread; [|eauto].
    specialize (Hbad text).
    destruct (json_loads text) as [[| | | | |members]|]; eauto.
    now destruct (Hbad members eq_refl). }
  destruct Hrun as [error Hrun]. exists error. split; [assumption|].
  unfold NpmPush.auto_version_step, bind. now rewrite Hrun.
Qed.

(** X6.  The version step followed by the rename step, on a manifest that
    the codec reads back as it was written: the manifest ends with the name
    of the request and still has the version the first step gave it, all
    its other fields being those it had. *)
Theorem version_then_name (path name : string) (w : world) text members now e1 :
  let new_version := "0.1." ++ PyStr.str_of_Z (NpmPush.whole_seconds now) in
  let versioned := Dict.set "version" (JStr new_version) members in
  let renamed := Dict.set "name" (JStr name) versioned in
  name <> "" ->
  Os.read_text path (w_fs w) = Ok text ->
  json_loads text = Some (JObj members) ->
  time_time (w_ext w) = (now, e1) ->
  json_loads (json_dumps (JObj versioned)) = Some (JObj versioned) ->
  exists w1 w2,
    NpmPush.auto_version_step true path w = (Ret None, w1)
    /\ NpmPush.rename_step (Some name) path w1 = (Ret tt, w2)
    /\ Os.read_text path (w_fs w2) = Ok (json_dumps (JObj renamed))
    /\ Dict.get "version" renamed = Some (JStr new_version)
    /\ Dict.get "name" renamed = Some (JStr name)
    /\ (forall key, key <> "version" -> key <> "name" ->
                    Dict.get key renamed = Dict.get key members).
Proof.
  intros new_version versioned renamed Hname Hread Hjson Hnow Hround.
  destruct (update_package_version_run path w text members now e1 Hread Hjson Hnow)
    as (old & w1 & Hrun & Hafter).
  fold new_version versioned in Hrun, Hafter.
  destruct (write_text_existing path _ (json_dumps (JObj renamed)) (w_fs w1) Hafter)
    as (fs2 & Hwrite & Hfinal).
  exists w1, {| w_fs := fs2; w_ext := w_ext w1; w_trace := w_trace w1 |}.
  split; [|split; [|split; [|split; [|split]]]].
  - unfold NpmPush.auto_version_step, bind. now rewrite Hrun.
  - unfold NpmPush.rename_step. destruct name as [|c name]; [contradiction|].
    unfold load_manifest, dump_manifest, bind, fs_read, fs_write, ret.
    rewrite Hafter. cbv beta iota zeta. rewrite Hround. cbv beta iota zeta.
    fold renamed. now rewrite Hwrite.
  - exact Hfinal.
  - unfold renamed. rewrite get_set_other by discriminate.
    apply get_set_same.
  - apply get_set_same.
  - intros key Hv Hn. unfold renamed, versioned.
    now rewrite !get_set_other.
Qed.

End Manifest.

Lemma unusable_manifest_is_left_alone_witness :
  exists error,
    NpmPush.update_package_version (H := Sample.scripted Sample.all_well)
      (C := Sample.codecs) "work/mydir/a.txt" (Sample.start _)
    = (Ret (Failure error), Sample.start _).
Proof.
  destruct (unusable_manifest_is_left_alone
              (H := Sample.scripted Sample.all_well) (C := Sample.codecs)
              "work/mydir/a.txt" (Sample.start _)) as (error & Hrun & _).
  - intros text members Hread. vm_compute in Hread. injection Hread as <-.
    vm_compute. discriminate.
  - now exists error.
Defined.

Lemma version_then_name_witness :
  exists w1 w2,
    NpmPush.auto_version_step (H := Sample.scripted Sample.all_well)
      (C := Sample.codecs) true "work/pkg/package.json" (Sample.start _)
    = (Ret None, w1)
    /\ NpmPush.rename_step (H := Sample.scripted Sample.all_well)
         (C := Sample.codecs) (Some "renamed") "work/pkg/package.json" w1
       = (Ret tt, w2)
    /\ Os.read_text "work/pkg/package.json" (w_fs w2)
       = Ok "{name=renamed;version=0.1.1709647629}".
Proof.
  destruct (version_then_name
              (H := Sample.scripted Sample.all_well) (C := Sample.codecs)
              "work/pkg/package.json" "renamed" (Sample.start _)
              Sample.manifest_text
              [("name", JStr "demo"); ("version", JStr "1.0.0")]
              1709647629500000%Z tt
              ltac:(discriminate) eq_refl eq_refl eq_refl eq_refl)
    as (w1 & w2 & Hstep1 & Hstep2 & Hread & _).
  exists w1, w2. repeat split; assumption.
Defined.

(** ** What the archive uploader takes from its arguments *)

Section UploaderArguments.
Context {H : Host}.

Definition same_upload (repository : string)
  (r1 r2 : step ArtifactPush.push_fields) : Prop :=
  match r1, r2 with
  | Failure error1, Failure error2 => error1 = error2
  | Success f1, Success f2 =>
      ArtifactPush.repository_url f2 = "https://" ++ repository
      /\ ArtifactPush.pushed_path f2 = ArtifactPush.pushed_path f1
      /\ ArtifactPush.package f2 = ArtifactPush.package f1
      /\ ArtifactPush.push_version f2 = ArtifactPush.push_version f1
      /\ ArtifactPush.output f2 = ArtifactPush.output f1
  | _, _ => False
  end.

(** X7.  Of the repository path, push_to_artifact_registry uses the second
    and the third field only, and it does not use the token: two calls that
    agree on these two fields, on the archive and on the package name run
    the same command with the same effects, whatever the first field (the
    region) and the fields after the third are; the results differ in the
    repository_url at most. *)
Theorem upload_reads_project_and_repository_only
  (artifact_path artifact_name : string)
  (repository repository' token token' : string) (w : world) :
  let parts := PyStr.split_on PyStr.slash repository in
  let parts' := PyStr.split_on PyStr.slash repository' in
  (3 <= List.length parts)%nat ->
  (3 <= List.length parts')%nat ->
  nth 1 parts "" = nth 1 parts' "" ->
  nth 2 parts "" = nth 2 parts' "" ->
  let run := ArtifactPush.push_to_artifact_registry artifact_path repository
               artifact_name token w in
  let run' := ArtifactPush.push_to_artifact_registry artifact_path repository'
                artifact_name token' w in
  snd run' = snd run
  /\ match fst run, fst run' with
     | Ret r, Ret r' => same_upload repository' r r'
     | Hang, Hang => True
     | _, _ => False
     end.
Proof.
  intros parts parts' Hlen Hlen' Hproject Hname run run'.
  subst run run'. unfold ArtifactPush.push_to_artifact_registry.
  fold parts parts'.
  destruct (Nat.ltb_spec (List.length parts) 3) as [Hlt|_]; [lia|].
  destruct (Nat.ltb_spec (List.length parts') 3) as [Hlt|_]; [lia|].
  rewrite <- Hproject, <- Hname.
  unfold try_except, bind, host_read, subprocess_run, ret.
  destruct (datetime_now (w_ext w)) as [now e1]. cbn [w_fs w_ext w_trace].
  destruct (spawn _ e1 (w_fs w)) as [[b e2] fs2].
  destruct (decide _ b) as [rc out err| |e|]; cbn; try (split; reflexivity).
  destruct (rc =? 0)%Z; cbn; repeat split; reflexivity.
Qed.

End UploaderArguments.

Lemma upload_reads_project_and_repository_only_witness :
  snd (ArtifactPush.push_to_artifact_registry (H := Sample.scripted Sample.all_well)
         "artifacts/svc_20240305_140709.tar.gz"
         "europe-west1-docker.pkg.dev/proj/repo/more" "svc" "" (Sample.start _))
  = snd (ArtifactPush.push_to_artifact_registry (H := Sample.scripted Sample.all_well)
           "artifacts/svc_20240305_140709.tar.gz"
           "us-central1-docker.pkg.dev/proj/repo" "svc" "T" (Sample.start _)).
Proof.
  refine (proj1 (upload_reads_project_and_repository_only
                   (H := Sample.scripted Sample.all_well)
                   "artifacts/svc_20240305_140709.tar.gz" "svc"
                   "us-central1-docker.pkg.dev/proj/repo"
                   "europe-west1-docker.pkg.dev/proj/repo/more" "T" ""
                   (Sample.start _) _ _ _ _));
    vm_compute; solve [lia | reflexivity].
Defined.

(** ** What the archive push reports on success *)

Section PushReport.
Context {H : Host} {C : Codecs}.

Lemma returns_host_read {A} (op : ext -> A * ext) :
  returns (fun a => exists e, a = fst (op e)) (host_read op).
Proof.
  intros w a. unfold host_read. destruct (op (w_ext w)) as [a' e'] eqn:Hop.
  intros [= <-]. exists (w_ext w). now rewrite Hop.
Qed.

Lemma returns_weaken {A} (R R' : A -> Prop) (m : M A) :
  returns R m -> (forall a, R a -> R' a) -> returns R' m.
Proof. intros Hm Hr w a Hret. eapply Hr, Hm, Hret. Qed.

Definition built_from (output_dir name : string)
  (r : step ArtifactPush.artifact_fields) : Prop :=
  forall fields, r = Success fields ->
    exists stamp,
      ArtifactPush.timestamp fields = strftime_underscore stamp
      /\ ArtifactPush.artifact_filename fields
         = name ++ "_" ++ strftime_underscore stamp ++ ".tar.gz"
      /\ ArtifactPush.artifact_path fields
         = OsPath.join output_dir (ArtifactPush.artifact_filename fields).

Lemma archive_builder_returns source_dir output_dir name :
  returns (built_from output_dir name)
    (ArtifactPush.create_compressed_artifact source_dir output_dir name).
Proof.
  unfold ArtifactPush.create_compressed_artifact.
  apply returns_try_except.
  - apply (returns_bind_from (fun now => True)); [easy|]. intros now _.
    do 2 (apply returns_bind; intros _).
    apply returns_ret. intros fields [= <-]. exists now. now cbn.
  - intros e. apply returns_ret. discriminate.
Qed.

Definition uploaded_as (repository name : string)
  (r : step ArtifactPush.push_fields) : Prop :=
  forall fields, r = Success fields ->
    (3 <= List.length (PyStr.split_on PyStr.slash repository))%nat
    /\ ArtifactPush.package fields = name
    /\ exists stamp, ArtifactPush.push_version fields = strftime_dot stamp.

Lemma uploader_returns artifact_path repository name token :
  returns (uploaded_as repository name)
    (ArtifactPush.push_to_artifact_registry artifact_path repository name token).
Proof.
  unfold ArtifactPush.push_to_artifact_registry.
  apply returns_try_except.
  - destruct (Nat.ltb_spec (List.length (PyStr.split_on PyStr.slash repository)) 3)
      as [Hlt|Hge]; [apply returns_ret; discriminate|].
    apply (returns_bind_from (fun now => True)); [easy|]. intros now _.
    apply returns_bind. intros process.
    destruct (negb _); apply returns_ret; [discriminate|].
    intros fields [= <-]. cbn. eauto.
  - intros e. apply returns_ret. discriminate.
Qed.

(** X8.  When gcp_artifact_push reports success, the package it has
    uploaded is not called by the artifact name of the request but by the
    name of the archive file, <artifact_name>_<YYYYMMDD_HHMMSS>.tar.gz: the
    result gives that file name under "artifact_name" and under "package",
    the archive path below the output directory (default "artifacts"), the
    time stamp of the file name, a version of the form YYYYMMDD.HHMMSS and
    the repository path of the request, which has at least three fields. *)
Theorem pushed_package_is_named_after_the_archive
  (args : request) (w : world) (d : pydict) :
  fst (ArtifactPush.gcp_artifact_push args w) = Ret d ->
  Dict.get "success" d = Some (VBool true) ->
  exists name repository stamp stamp',
    let file := name ++ "_" ++ strftime_underscore stamp ++ ".tar.gz" in
    artifact_name args = Some name
    /\ repository_path args = Some repository
    /\ (3 <= List.length (PyStr.split_on PyStr.slash repository))%nat
    /\ Dict.get "artifact_name" d = Some (VStr file)
    /\ Dict.get "package" d = Some (VStr file)
    /\ Dict.get "artifact_path" d
       = Some (VStr (OsPath.join (get_default (output_dir args) "artifacts") file))
    /\ Dict.get "timestamp" d = Some (VStr (strftime_underscore stamp))
    /\ Dict.get "version" d = Some (VStr (strftime_dot stamp'))
    /\ Dict.get "repository" d = Some (VStr repository).
Proof.
  revert w d.
  match goal with
  | |- forall w d, _ -> ?P => change (returns (fun d => P) (ArtifactPush.gcp_artifact_push args))
  end.
  unfold ArtifactPush.gcp_artifact_push.
  apply returns_try_except.
  - destruct (source_dir args) as [[|c0 source]|]; try (apply returns_ret; discriminate).
    destruct (repository_path args) as [[|c1 repository]|];
      try (apply returns_ret; discriminate).
    destruct (artifact_name args) as [[|c2 name]|]; try (apply returns_ret; discriminate).
    apply returns_bind. intros temp_dir. apply returns_try_finally.
    apply returns_bind. intros [[|c3 token]|]; try (apply returns_ret; discriminate).
    eapply returns_bind_from; [apply archive_builder_returns|].
    intros [compress|error] Hbuilt; [|intros; apply returns_ret; discriminate].
    destruct (Hbuilt compress eq_refl) as (stamp & Hstamp & Hfile & Hpath).
    eapply returns_bind_from; [apply uploader_returns|].
    intros [push|error] Hpush; [|intros; apply returns_ret; discriminate].
    destruct (Hpush push eq_refl) as (Hlen & Hpackage & stamp' & Hversion).
    apply returns_ret. intros _.
    exists (String c2 name), (String c1 repository), stamp, stamp'.
    cbn zeta. rewrite <- Hfile.
    repeat split; try assumption;
      cbv beta iota delta [Dict.get String.eqb Ascii.eqb Bool.eqb]; congruence.
  - intros e. unfold boundary. destruct e; apply returns_ret; discriminate.
Qed.

End PushReport.

Lemma pushed_package_is_named_after_the_archive_witness :
  exists d,
    fst (ArtifactPush.gcp_artifact_push
           (H := Sample.scripted Sample.all_well) (C := Sample.codecs)
           (Sample.push_request "us-central1-docker.pkg.dev/proj/repo")
           (Sample.start _)) = Ret d
    /\ Dict.get "package" d = Some (VStr "svc_20240305_140709.tar.gz").
Proof.
  eexists. split; [reflexivity|].
  destruct (pushed_package_is_named_after_the_archive
              (H := Sample.scripted Sample.all_well) (C := Sample.codecs)
              (Sample.push_request "us-central1-docker.pkg.dev/proj/repo")
              (Sample.start _) _ eq_refl eq_refl)
    as (name & repository & stamp & stamp' & Hname & _ & _ & Hfile & Hpackage & _).
  reflexivity.
Defined.

(** ** Requests that are turned down at once *)

(** [not field] for an argument read with [args.get]. *)
Definition not_given (field : option string) : bool :=
  match field with
  | None | Some EmptyString => true
  | Some _ => false
  end.

Definition only_error (d : pydict) : Prop := exists text, d = [("error", VStr text)].

Section TurnedDown.
Context {H : Host} {C : Codecs}.

(** X9.  A request that lacks a required argument, or names a directory
    without the file the tool works on, is answered with a dictionary that
    holds an "error" text and nothing else, before the temporary directory
    is made, before any command is run and without any change to the file
    tree. *)
Theorem rejected_requests_leave_no_trace (args : request) (w : world) :
  (not_given (source_dir args) || not_given (repository_path args)
   || not_given (artifact_name args) = true ->
   exists d, ArtifactPush.gcp_artifact_push args w = (Ret d, w) /\ only_error d)
  /\ (not_given (package_name args) || not_given (repository_path args) = true ->
      exists d, NpmPull.gcp_npm_pull args w = (Ret d, w) /\ only_error d)
  /\ (not_given (source_dir args) || not_given (repository_path args)
      || negb (Os.path_exists
                 (OsPath.join (get_default (source_dir args) "") "package.json")
                 (w_fs w)) = true ->
      exists d, NpmPush.gcp_npm_push args w = (Ret d, w) /\ only_error d)
  /\ (not_given (project_dir args)
      || negb (Os.path_exists (get_default (project_dir args) "") (w_fs w))
      || negb (Os.path_exists
                 (OsPath.join (get_default (project_dir args) "") "publish.sh")
                 (w_fs w)) = true ->
      exists d, NpmPublish.gcp_npm_publish args w = (Ret d, w) /\ only_error d).
Proof.
  unfold only_error. repeat split.
  - unfold ArtifactPush.gcp_artifact_push, try_except, ret.
    destruct (source_dir args) as [[|c0 s0]|]; cbn [not_given orb]; eauto.
    destruct (repository_path args) as [[|c1 s1]|]; cbn [not_given orb]; eauto.
    destruct (artifact_name args) as [[|c2 s2]|]; cbn [not_given orb]; eauto.
    discriminate.
  - unfold NpmPull.gcp_npm_pull, try_except, ret.
    destruct (package_name args) as [[|c0 s0]|]; cbn [not_given orb]; eauto.
    destruct (repository_path args) as [[|c1 s1]|]; cbn [not_given orb]; eauto.
    discriminate.
  - unfold NpmPush.gcp_npm_push, try_except, ret.
    destruct (source_dir args) as [[|c0 s0]|]; cbn [not_given orb]; eauto.
    destruct (repository_path args) as [[|c1 s1]|]; cbn [not_given orb]; eauto.
    cbn [get_default]. unfold bind, fs_test, ret.
    intros Hmissing. rewrite Hmissing. eauto.
  - unfold NpmPublish.gcp_npm_publish, try_except, ret.
    destruct (project_dir args) as [[|c0 s0]|]; cbn [not_given orb]; eauto.
    cbn [get_default]. unfold bind, fs_test, ret.
    destruct (Os.path_exists (String c0 s0) (w_fs w)); cbn [negb orb]; eauto.
    intros Hmissing. rewrite Hmissing. eauto.
Qed.

End TurnedDown.

Lemma rejected_requests_leave_no_trace_witness :
  exists d,
    NpmPush.gcp_npm_push (H := Sample.scripted Sample.all_well) (C := Sample.codecs)
      (Sample.push_request "us-central1-npm.pkg.dev/proj/repo") (Sample.start _)
    = (Ret d, Sample.start _)
    /\ only_error d.
Proof.
  refine (proj1 (proj2 (proj2 (rejected_requests_leave_no_trace
                                 (H := Sample.scripted Sample.all_well)
                                 (C := Sample.codecs)
                                 (Sample.push_request "us-central1-npm.pkg.dev/proj/repo")
                                 (Sample.start _)))) _).
  vm_compute. reflexivity.
Defined.

(** ** The dry run when the script does not say "npm publish" *)

(** [old in s] *)
Fixpoint occurs (old s : string) : bool :=
  PyStr.startswith old s
  || match s with
     | EmptyString => false
     | String _ s' => occurs old s'
     end.

Lemma replace_without_occurrence old new s :
  occurs old s = false -> PyStr.replace old new s = s.
Proof.
  unfold PyStr.replace. induction s as [|c s IH]; [reflexivity|].
  intros Hocc. cbn [occurs] in Hocc. apply orb_false_iff in Hocc as [Hhere Hlater].
  cbn [PyStr.replace_from]. rewrite Hhere. now rewrite IH.
Qed.

Section DryRunUnmarked.
Context {H : Host}.


End DryRunUnmarked.


(** ** A dry run whose script cannot be started *)

Section DryRunAborted.
Context {H : Host}.

Lemma script_directory_exists project_dir content fs :
  project_dir <> "" ->
  Os.read_text (OsPath.join project_dir "publish.sh") fs = Ok content ->
  Os.path_exists project_dir fs = true
  /\ Os.path_exists (OsPath.join project_dir "publish.sh") fs = true.
Proof.
  intros Hne Hread.
  assert (Hname : file_name "publish.sh") by (repeat split; discriminate).
  split.
  - apply read_text_lookup in Hread as [_ Hfile].
    rewrite (segments_join _ _ Hname), FSFacts.lookup_app in Hfile.
    unfold Os.path_exists, Os.stat, Os.resolve.
    destruct (String.eqb_spec project_dir ""); [contradiction|].
    now destruct (FS.lookup (OsPath.segments project_dir) fs).
  - unfold Os.path_exists. unfold Os.read_text in Hread.
    now destruct (Os.stat _ fs).
Qed.

(** X11.  When subprocess.run cannot start ./publish.sh on a dry run, the
    file is not written back: gcp_npm_publish answers with "Exception
    during publish: ..." and leaves publish.sh with "--dry-run" added to
    every "npm publish" in it. *)
Theorem aborted_dry_run_leaves_the_script_changed
  (args : request) (project : string) (w : world)
  content d out err e1 e e2 :
  let publish_script := OsPath.join project "publish.sh" in
  let modified := PyStr.replace "npm publish" "npm publish --dry-run" content in
  project_dir args = Some project ->
  project <> "" ->
  dry_run args = Some true ->
  Os.read_text publish_script (w_fs w) = Ok content ->
  spawn token_call (w_ext w) (w_fs w) = (Finishes d 0 out err, e1, w_fs w) ->
  (forall fs1,
      Os.write_text publish_script modified (w_fs w) = Ok fs1 ->
      spawn (NpmPublish.script_call project (PyStr.strip out)) e1 fs1
      = (Fails e, e2, fs1)) ->
  exists w',
    NpmPublish.gcp_npm_publish args w
    = (Ret [("success", VBool false);
            ("error", VStr ("Exception during publish: " ++ str_exn e))], w')
    /\ Os.read_text publish_script (w_fs w') = Ok modified.
Proof.
  intros publish_script modified Hproject Hne Hdry Hread Htoken Hscript.
  destruct (script_directory_exists _ _ _ Hne Hread) as [Hdir Hfile].
  destruct (write_text_existing _ _ modified _ Hread) as (fs1 & Hwrite & Hmodified).
  fold publish_script in Hfile, Hwrite, Hmodified.
  specialize (Hscript fs1 Hwrite).
  exists {| w_fs := fs1; w_ext := e2;
            w_trace := (w_trace w
                        ++ [{| ev_call := token_call; ev_outcome := Exited 0 out err |}]
                        ++ [{| ev_call := NpmPublish.script_call project (PyStr.strip out);
                               ev_outcome := Raised e |}])%list |}.
  split; [|exact Hmodified].
  unfold NpmPublish.gcp_npm_publish. rewrite Hproject, Hdry.
  destruct project as [|c project]; [contradiction|].
  unfold try_except at 1. unfold bind at 1. unfold fs_test at 1.
  rewrite Hdir. cbv beta iota zeta. cbn [negb].
  unfold bind at 1. unfold fs_test at 1. fold publish_script.
  rewrite Hfile. cbv beta iota zeta. cbn [negb].
  unfold bind at 1. unfold try_except at 1. unfold bind at 1.
  unfold fs_write at 1. unfold Os.chmod, Os.path_exists in *.
  destruct (Os.stat publish_script (w_fs w)); [|discriminate].
  cbv beta iota zeta. unfold ret at 1. cbv beta iota zeta.
  unfold try_except at 1. unfold bind at 1. unfold subprocess_run at 1.
  cbn [w_fs w_ext w_trace]. rewrite Htoken. cbn [decide token_call c_timeout].
  cbv beta iota zeta. cbn [returncode stdout Z.eqb negb get_default].
  unfold NpmPublish.run_publish_script, bind, fs_read, fs_write, ret, subprocess_run.
  cbn [w_fs w_ext w_trace]. rewrite Hread. cbv beta iota zeta.
  cbn [w_fs w_ext w_trace]. fold modified. rewrite Hwrite.
  cbv beta iota zeta. cbn [w_fs w_ext w_trace].
  rewrite Hscript. cbn [decide]. cbv beta iota zeta.
  now rewrite <- app_assoc.
Qed.

End DryRunAborted.

Lemma aborted_dry_run_leaves_the_script_changed_witness :
  let script := Sample.except_for ["./publish.sh"]
                  (Fails (OSError "[Errno 8] Exec format error: './publish.sh'")) in
  exists w',
    NpmPublish.gcp_npm_publish (H := Sample.scripted script)
      (Sample.publish_request true) (Sample.start _)
    = (Ret [("success", VBool false);
            ("error", VStr ("Exception during publish: "
                            ++ "[Errno 8] Exec format error: './publish.sh'"))], w')
    /\ Os.read_text "work/pkg/publish.sh" (w_fs w')
       = Ok "npm test && npm publish --dry-run".
Proof.
  intros script.
  refine (aborted_dry_run_leaves_the_script_changed
            (H := Sample.scripted script)
            (Sample.publish_request true) "work/pkg" (Sample.start _)
            "npm test && npm publish" 1%Z ("T" ++ nl) ""  tt
            (OSError "[Errno 8] Exec format error: './publish.sh'") tt
            eq_refl _ eq_refl eq_refl eq_refl _).
  - discriminate.
  - intros fs1 Hwrite. vm_compute in Hwrite. injection Hwrite as <-. reflexivity.
Defined.

(** ** What gcp_npm_publish itself does to the files *)

Section PublishFrame.
Context {H : Host}.

Lemma write_back p c c' fs fs1 :
  Os.read_text p fs = Ok c ->
  Os.write_text p c' fs = Ok fs1 ->
  Os.write_text p c fs1 = Ok fs.
Proof.
  intros Hread Hwrite.
  apply read_text_lookup in Hread as [Hne Hfile].
  unfold Os.write_text, Os.resolve in *.
  destruct (String.eqb_spec p ""); [contradiction|].
  rewrite Hfile in Hwrite.
  destruct (FS.put (OsPath.segments p) (FS.File c') fs) as [fs'|] eqn:Hput;
    [|discriminate].
  injection Hwrite as ->.
  rewrite (FSFacts.lookup_put _ _ _ _ Hput).
  now rewrite (FSFacts.put_put _ _ _ _ _ Hput), (FSFacts.put_same _ _ _ Hfile).
Qed.

Hypothesis programs_leave_files :
  forall c e fs, snd (spawn c e fs) = fs.

Lemma run_leaves_files (c : call) (w : world) :
  w_fs (snd (subprocess_run c w)) = w_fs w.
Proof.
  unfold subprocess_run. specialize (programs_leave_files c (w_ext w) (w_fs w)).
  destruct (spawn c (w_ext w) (w_fs w)) as [[b e'] fs']. cbn in programs_leave_files.
  subst fs'. now destruct (decide c b).
Qed.

Lemma script_run_leaves_files project_dir publish_script token dry (w : world) :
  (dry = true ->
   forall e fs, exists d rc out err,
       fst (fst (spawn (NpmPublish.script_call project_dir token) e fs))
       = Finishes d rc out err) ->
  w_fs (snd (NpmPublish.run_publish_script project_dir publish_script token dry w))
  = w_fs w.
Proof.
  intros Hends. unfold NpmPublish.run_publish_script. destruct dry.
  - specialize (Hends eq_refl).
    unfold bind at 1. unfold bind at 1. unfold fs_read at 1.
    destruct (Os.read_text publish_script (w_fs w)) as [content|e] eqn:Hread;
      [|reflexivity].
    destruct (write_text_existing _ _
                (PyStr.replace "npm publish" "npm publish --dry-run" content)
                _ Hread) as (fs1 & Hwrite & _).
    pose proof (write_back _ _ _ _ _ Hread Hwrite) as Hback.
    unfold bind at 1. unfold fs_write at 1. rewrite Hwrite.
    unfold ret at 1. cbv beta iota zeta.
    unfold bind at 1. unfold subprocess_run.
    cbn [w_fs w_ext w_trace].
    specialize (programs_leave_files (NpmPublish.script_call project_dir token)
                  (w_ext w) fs1).
    destruct (Hends (w_ext w) fs1) as (d & rc & out & err & Hb).
    destruct (spawn (NpmPublish.script_call project_dir token) (w_ext w) fs1)
      as [[b e'] fs'].
    cbn in programs_leave_files, Hb. subst fs' b.
    cbn [decide NpmPublish.script_call c_timeout]. cbv beta iota zeta.
    unfold bind at 1. unfold fs_write at 1. cbn [w_fs w_ext w_trace].
    rewrite Hback. cbv beta iota zeta. cbn [returncode].
    now destruct (rc =? 0)%Z.
  - unfold bind at 1. unfold ret at 1. cbv beta iota zeta.
    unfold bind at 1.
    pose proof (run_leaves_files (NpmPublish.script_call project_dir token) w) as Hrun.
    destruct (subprocess_run (NpmPublish.script_call project_dir token) w)
      as [[process|e|] w1]; cbn [snd] in *; try assumption.
    unfold bind, ret. cbv beta iota zeta.
    now destruct (returncode process =? 0)%Z.
Qed.


End PublishFrame.


(** ** A package that cannot be looked up *)

Section LookupFirst.
Context {H : Host} {C : Codecs}.

Lemma logs_bind_from {A B} P (R : A -> Prop) (m : M A) (k : A -> M B) :
  logs P m -> returns R m -> (forall a, R a -> logs P (k a)) -> logs P (bind m k).
Proof.
  intros Hm Hr Hk w. unfold bind.
  destruct (Hm w) as (evs1 & Ht1 & Hp1). specialize (Hr w).
  destruct (m w) as [[a|e|] w1]; simpl in *; eauto.
  destruct (Hk a (Hr a eq_refl) w1) as (evs2 & Ht2 & Hp2).
  exists (evs1 ++ evs2)%list. split.
  - now rewrite Ht2, Ht1, app_assoc.
  - apply Forall_app. now split.
Qed.

Lemma returns_run (R : completed -> Prop) (c : call) :
  (forall e fs rc out err,
      decide c (fst (fst (spawn c e fs))) = Exited rc out err ->
      R {| returncode := rc; stdout := out; stderr := err |}) ->
  returns R (subprocess_run c).
Proof.
  intros Hr w a. unfold subprocess_run. specialize (Hr (w_ext w) (w_fs w)).
  destruct (spawn c (w_ext w) (w_fs w)) as [[b e'] fs']. cbn [fst] in Hr.
  destruct (decide c b) as [rc out err| |e|]; try discriminate.
  intros [= <-]. now apply Hr.
Qed.

Definition no_pack (ev : event) : Prop :=
  forall package_spec repository temp_dir token timeout,
    ev_call ev <> NpmPull.pack_call package_spec repository temp_dir token timeout.

Hypothesis lookup_fails :
  forall package repository temp_dir token timeout e fs d out err,
    fst (fst (spawn (NpmPull.view_call package repository temp_dir token timeout) e fs))
    <> Finishes d 0 out err.

Lemma lookup_returns_nonzero package repository temp_dir token timeout :
  returns (fun process => returncode process <> 0%Z)
    (subprocess_run (NpmPull.view_call package repository temp_dir token timeout)).
Proof.
  apply returns_run. intros e fs rc out err Hdecide. cbn [returncode].
  intros ->.
  specialize (lookup_fails package repository temp_dir token timeout e fs).
  destruct (fst (fst (spawn _ e fs))) as [d rc out' err'| |e0];
    cbn [decide NpmPull.view_call c_timeout] in Hdecide; try discriminate.
  destruct (timeout <? d)%Z; [discriminate|].
  injection Hdecide as -> -> ->. now apply (lookup_fails d out err).
Qed.

(** X13.  As long as npm view does not exit with code 0, gcp_npm_pull
    never runs npm pack and never reports success. *)
Theorem no_pack_without_lookup (args : request) (w : world) :
  (exists evs,
      w_trace (snd (NpmPull.gcp_npm_pull args w)) = (w_trace w ++ evs)%list
      /\ Forall no_pack evs)
  /\ (forall d, fst (NpmPull.gcp_npm_pull args w) = Ret d ->
                Dict.get "success" d <> Some (VBool true)).
Proof.
  split.
  - assert (Hl : logs no_pack (NpmPull.gcp_npm_pull args)); [|apply Hl].
    unfold NpmPull.gcp_npm_pull.
    apply logs_try_except.
    + destruct (package_name args) as [[|c0 package]|];
        try (apply silent_logs, silent_ret).
      destruct (repository_path args) as [[|c1 repository]|];
        try (apply silent_logs, silent_ret).
      apply logs_bind.
      { apply silent_logs. unfold mkdtemp.
        repeat first [apply silent_bind | intro | apply silent_ret
                     | apply silent_host_read | apply silent_fs_write]. }
      intros temp_dir. apply logs_try_finally; [|apply silent_fs_write].
      apply logs_bind.
      { unfold NpmPull.setup_gcp_auth, setup_gcp_auth_for.
        apply logs_try_except; [|intros; apply silent_logs, silent_ret].
        apply logs_bind; [apply logs_run; intros b; red; discriminate|].
        intros p. destruct (negb _); [apply silent_logs, silent_ret|].
        apply logs_bind; [apply logs_run; intros b; red; discriminate|].
        intros p'. destruct (negb _); apply silent_logs, silent_ret. }
      intros [[|c2 token]|]; try (apply silent_logs, silent_ret).
      apply logs_bind.
      { apply silent_logs. unfold configure_npmrc. silent_go. }
      intros [npmrc|error]; [|apply silent_logs, silent_ret].
      apply logs_bind; [apply logs_run; intros b; red; discriminate|].
      intros _.
      eapply logs_bind_from;
        [apply logs_run; intros b; red; discriminate
        |apply lookup_returns_nonzero|].
      intros process Hrc. apply Z.eqb_neq in Hrc. rewrite Hrc.
      apply silent_logs, silent_ret.
    + intros e. apply silent_logs. unfold boundary.
      destruct e; apply silent_ret.
  - intros d. revert w d.
    change (returns (fun d => Dict.get "success" d <> Some (VBool true))
              (NpmPull.gcp_npm_pull args)).
    unfold NpmPull.gcp_npm_pull.
    apply returns_try_except.
    + destruct (package_name args) as [[|c0 package]|];
        try (apply returns_ret; discriminate).
      destruct (repository_path args) as [[|c1 repository]|];
        try (apply returns_ret; discriminate).
      apply returns_bind. intros temp_dir. apply returns_try_finally.
      apply returns_bind. intros [[|c2 token]|]; try (apply returns_ret; discriminate).
      apply returns_bind. intros [npmrc|error]; [|apply returns_ret; discriminate].
      apply returns_bind. intros _.
      eapply returns_bind_from; [apply lookup_returns_nonzero|].
      intros process Hrc. apply Z.eqb_neq in Hrc. rewrite Hrc.
      apply returns_ret. discriminate.
    + intros e. unfold boundary. destruct e; apply returns_ret; discriminate.
Qed.

End LookupFirst.

Lemma no_pack_without_lookup_witness :
  let script := Sample.except_for ["npm"; "view"] (Finishes 1 1 "" "E404") in
  exists evs,
    w_trace (snd (NpmPull.gcp_npm_pull (H := Sample.scripted script)
                    (C := Sample.codecs)
                    (Sample.pull_request "us-central1-npm.pkg.dev/proj/repo")
                    (Sample.start _)))
    = (w_trace (Sample.start script) ++ evs)%list
    /\ Forall no_pack evs.
Proof.
  intros script.
  refine (proj1 (no_pack_without_lookup (H := Sample.scripted script)
                   (C := Sample.codecs) _
                   (Sample.pull_request "us-central1-npm.pkg.dev/proj/repo")
                   (Sample.start _))).
  intros package repository temp_dir token timeout e fs d out err.
  cbv. discriminate.
Defined.

(** ** A token that is blank *)

Section BlankToken.
Context {H : Host} {C : Codecs}.

Definition auth_only (registry_host : string) (ev : event) : Prop :=
  ev_call ev = token_call \/ ev_call ev = configure_docker_call registry_host.

Definition no_success (d : pydict) : Prop :=
  Dict.get "success" d <> Some (VBool true).

Hypothesis blank_token :
  forall e fs d out err,
    fst (fst (spawn token_call e fs)) = Finishes d 0 out err ->
    PyStr.strip out = "".

Lemma auth_logs registry_host :
  logs (auth_only registry_host) (setup_gcp_auth_for registry_host).
Proof.
  unfold setup_gcp_auth_for.
  logs_go ltac:(first [left; reflexivity | right; reflexivity]).
Qed.

Lemma blank_token_is_no_token registry_host :
  returns (fun token => token = None \/ token = Some "")
    (setup_gcp_auth_for registry_host).
Proof.
  unfold setup_gcp_auth_for. apply returns_try_except.
  - eapply returns_bind_from.
    + apply (returns_run
               (fun process => returncode process = 0%Z ->
                               PyStr.strip (stdout process) = "")).
      intros e fs rc out err Hdecide. cbn [returncode stdout]. intros ->.
      destruct (fst (fst (spawn token_call e fs))) as [d rc out' err'| |e0] eqn:Hb;
        cbn [decide token_call c_timeout] in Hdecide; try discriminate.
      injection Hdecide as -> -> ->. exact (blank_token e fs d out err Hb).
    + intros process Hblank.
      destruct (Z.eqb_spec (returncode process) 0) as [Hrc|_]; cbn [negb];
        [|apply returns_ret; now left].
      apply returns_bind. intros docker.
      destruct (negb _); apply returns_ret; [now left|].
      right. now rewrite (Hblank Hrc).
  - intros e. apply returns_ret. now left.
Qed.

Ltac stop_at_auth :=
  eapply logs_bind_from; [apply auth_logs|apply blank_token_is_no_token|];
  intros token [->| ->]; apply silent_logs, silent_ret.

Ltac refuse_at_auth :=
  eapply returns_bind_from; [apply blank_token_is_no_token|];
  intros token [->| ->]; apply returns_ret; discriminate.

(** X14.  When gcloud prints a token that is blank once stripped, the
    three tools that ask for one stop at the authentication: they run the
    two gcloud auth commands at most, no upload and no npm command, and do
    not report success. *)
Theorem blank_token_stops_the_tools (args : request) (w : world) :
  ((exists evs,
       w_trace (snd (ArtifactPush.gcp_artifact_push args w)) = (w_trace w ++ evs)%list
       /\ Forall (auth_only "us-central1-docker.pkg.dev") evs)
   /\ forall d, fst (ArtifactPush.gcp_artifact_push args w) = Ret d -> no_success d)
  /\ ((exists evs,
          w_trace (snd (NpmPull.gcp_npm_pull args w)) = (w_trace w ++ evs)%list
          /\ Forall (auth_only "us-central1-npm.pkg.dev") evs)
      /\ forall d, fst (NpmPull.gcp_npm_pull args w) = Ret d -> no_success d)
  /\ ((exists evs,
          w_trace (snd (NpmPush.gcp_npm_push args w)) = (w_trace w ++ evs)%list
          /\ Forall (auth_only "us-central1-npm.pkg.dev") evs)
      /\ forall d, fst (NpmPush.gcp_npm_push args w) = Ret d -> no_success d).
Proof.
  assert (Hmk : silent mkdtemp) by (unfold mkdtemp; silent_go).
  assert (Hend : forall what t e, silent (boundary what t e))
    by (intros what t e; unfold boundary; destruct e; apply silent_ret).
  assert (Hno : forall what t e, returns no_success (boundary what t e))
    by (intros what t e; unfold boundary; destruct e; apply returns_ret; discriminate).
  unfold no_success in *.
  split; [|split]; split.
  - assert (Hl : logs (auth_only "us-central1-docker.pkg.dev")
                   (ArtifactPush.gcp_artifact_push args)); [|apply Hl].
    unfold ArtifactPush.gcp_artifact_push.
    apply logs_try_except; [|intros e; apply silent_logs, Hend].
    destruct (source_dir args) as [[|c0 source]|]; try (apply silent_logs, silent_ret).
    destruct (repository_path args) as [[|c1 repository]|];
      try (apply silent_logs, silent_ret).
    destruct (artifact_name args) as [[|c2 name]|]; try (apply silent_logs, silent_ret).
    apply logs_bind; [apply silent_logs, Hmk|].
    intros temp_dir. apply logs_try_finally; [|apply silent_fs_write].
    unfold ArtifactPush.setup_gcp_auth. stop_at_auth.
  - intros d. revert w d.
    change (returns (fun d => Dict.get "success" d <> Some (VBool true))
              (ArtifactPush.gcp_artifact_push args)).
    unfold ArtifactPush.gcp_artifact_push.
    apply returns_try_except; [|apply Hno].
    destruct (source_dir args) as [[|c0 source]|]; try (apply returns_ret; discriminate).
    destruct (repository_path args) as [[|c1 repository]|];
      try (apply returns_ret; discriminate).
    destruct (artifact_name args) as [[|c2 name]|]; try (apply returns_ret; discriminate).
    apply returns_bind. intros temp_dir. apply returns_try_finally.
    unfold ArtifactPush.setup_gcp_auth. refuse_at_auth.
  - assert (Hl : logs (auth_only "us-central1-npm.pkg.dev")
                   (NpmPull.gcp_npm_pull args)); [|apply Hl].
    unfold NpmPull.gcp_npm_pull.
    apply logs_try_except; [|intros e; apply silent_logs, Hend].
    destruct (package_name args) as [[|c0 package]|]; try (apply silent_logs, silent_ret).
    destruct (repository_path args) as [[|c1 repository]|];
      try (apply silent_logs, silent_ret).
    apply logs_bind; [apply silent_logs, Hmk|].
    intros temp_dir. apply logs_try_finally; [|apply silent_fs_write].
    unfold NpmPull.setup_gcp_auth. stop_at_auth.
  - intros d. revert w d.
    change (returns (fun d => Dict.get "success" d <> Some (VBool true))
              (NpmPull.gcp_npm_pull args)).
    unfold NpmPull.gcp_npm_pull.
    apply returns_try_except; [|apply Hno].
    destruct (package_name args) as [[|c0 package]|]; try (apply returns_ret; discriminate).
    destruct (repository_path args) as [[|c1 repository]|];
      try (apply returns_ret; discriminate).
    apply returns_bind. intros temp_dir. apply returns_try_finally.
    unfold NpmPull.setup_gcp_auth. refuse_at_auth.
  - assert (Hl : logs (auth_only "us-central1-npm.pkg.dev")
                   (NpmPush.gcp_npm_push args)); [|apply Hl].
    unfold NpmPush.gcp_npm_push.
    apply logs_try_except; [|intros e; apply silent_logs, Hend].
    destruct (source_dir args) as [[|c0 source]|]; try (apply silent_logs, silent_ret).
    destruct (repository_path args) as [[|c1 repository]|];
      try (apply silent_logs, silent_ret).
    apply logs_bind; [apply silent_logs, silent_fs_test|].
    intros present. destruct (negb present); [apply silent_logs, silent_ret|].
    apply logs_bind; [apply silent_logs, Hmk|].
    intros temp_dir. apply logs_try_finally; [|apply silent_fs_write].
    unfold NpmPush.setup_gcp_auth. stop_at_auth.
  - intros d. revert w d.
    change (returns (fun d => Dict.get "success" d <> Some (VBool true))
              (NpmPush.gcp_npm_push args)).
    unfold NpmPush.gcp_npm_push.
    apply returns_try_except; [|apply Hno].
    destruct (source_dir args) as [[|c0 source]|]; try (apply returns_ret; discriminate).
    destruct (repository_path args) as [[|c1 repository]|];
      try (apply returns_ret; discriminate).
    apply returns_bind. intros present.
    destruct (negb present); [apply returns_ret; discriminate|].
    apply returns_bind. intros temp_dir. apply returns_try_finally.
    unfold NpmPush.setup_gcp_auth. refuse_at_auth.
Qed.

End BlankToken.

Lemma blank_token_stops_the_tools_witness :
  let script := Sample.except_for ["gcloud"; "auth"; "print-access-token"]
                  (Finishes 1 0 (" " ++ nl) "") in
  exists evs,
    w_trace (snd (NpmPull.gcp_npm_pull (H := Sample.scripted script)
                    (C := Sample.codecs)
                    (Sample.pull_request "us-central1-npm.pkg.dev/proj/repo")
                    (Sample.start _)))
    = (w_trace (Sample.start script) ++ evs)%list
    /\ Forall (auth_only "us-central1-npm.pkg.dev") evs.
Proof.
  intros script.
  refine (proj1 (proj1 (proj2 (blank_token_stops_the_tools
                                 (H := Sample.scripted script) (C := Sample.codecs) _
                                 (Sample.pull_request "us-central1-npm.pkg.dev/proj/repo")
                                 (Sample.start _))))).
  intros e fs d out err Hb. vm_compute in Hb. injection Hb as _ <- _.
  reflexivity.
Defined.

(** ** Flattening twice *)

Section FlattenAgain.
Context {H : Host}.

Lemma rmdir_removes p fs fs' :
  Os.rmdir p fs = Ok fs' -> Os.path_exists p fs' = false.
Proof.
  unfold Os.rmdir, Os.path_exists, Os.stat, Os.resolve.
  destruct (String.eqb_spec p "") as [->|Hne]; [discriminate|].
  destruct (FS.lookup (OsPath.segments p) fs) as [[c|[|entry es]]|];
    try discriminate.
  destruct (FS.remove (OsPath.segments p) fs) as [fs1|] eqn:Hrm; [|discriminate].
  intros [= <-]. now rewrite (lookup_remove _ _ _ Hrm).
Qed.

(** X15.  A flatten step that went through leaves no "package" folder in
    the output directory, so that a second flatten step finds nothing to
    do: it succeeds and changes nothing. *)
Theorem flatten_again_changes_nothing (output_dir : string) (w w1 : world) :
  NpmPull.flatten_package output_dir w = (Ret tt, w1) ->
  (Os.path_exists (OsPath.join output_dir "package") (w_fs w) = true ->
   Os.path_exists (OsPath.join output_dir "package") (w_fs w1) = false)
  /\ NpmPull.flatten_package output_dir w1 = (Ret tt, w1).
Proof.
  unfold NpmPull.flatten_package at 1. unfold bind at 1. unfold fs_test at 1.
  set (package_dir := OsPath.join output_dir "package").
  destruct (Os.path_exists package_dir (w_fs w)) eqn:Hpresent.
  - unfold bind at 1.
    destruct (fs_read (Os.listdir package_dir) w) as [[items|e|] w2];
      try discriminate.
    unfold bind at 1.
    destruct (for_each items _ w2) as [[[]|e|] w3]; try discriminate.
    unfold fs_write.
    destruct (Os.rmdir package_dir (w_fs w3)) as [fs'|e] eqn:Hrm; [|discriminate].
    intros [= <-]. apply rmdir_removes in Hrm.
    split; [intros _; exact Hrm|].
    unfold NpmPull.flatten_package, bind, fs_test. fold package_dir.
    cbn [w_fs]. now rewrite Hrm.
  - unfold ret. intros [= <-]. split; [discriminate|].
    unfold NpmPull.flatten_package, bind, fs_test. fold package_dir.
    now rewrite Hpresent.
Qed.

End FlattenAgain.

Lemma flatten_again_changes_nothing_witness :
  exists w1,
    NpmPull.flatten_package (H := Sample.scripted Sample.all_well) "out"
      (Sample.start_in _ Sample.extracted) = (Ret tt, w1)
    /\ Os.listdir "out" (w_fs w1) = Ok ["README"; "index.js"; "package.json"]
    /\ NpmPull.flatten_package "out" w1 = (Ret tt, w1).
Proof.
  eexists. split; [reflexivity|]. split; [reflexivity|].
  refine (proj2 (flatten_again_changes_nothing
                   (H := Sample.scripted Sample.all_well) "out"
                   (Sample.start_in _ Sample.extracted) _ eq_refl)).
Defined.

(** ** An archive of nothing *)

Section MissingSource.
Context {H : Host} {C : Codecs}.

Lemma written_file_exists p c fs fs' :
  Os.write_text p c fs = Ok fs' -> Os.path_exists p fs' = true.
Proof.
  unfold Os.write_text, Os.path_exists, Os.stat.
  destruct (Os.resolve p) as [segs|]; [|discriminate].
  destruct (FS.lookup segs fs) as [[c0|es]|]; try discriminate;
    destruct (FS.put segs (FS.File c) fs) as [fs1|] eqn:Hput; try discriminate;
    intros [= <-]; now rewrite (FSFacts.lookup_put _ _ _ _ Hput).
Qed.

(** X16.  create_compressed_artifact does not look for the source
    directory before it opens the archive.  When the source is still
    missing once the output directory is made and the archive file opened,
    the builder reports "[Errno 2] No such file or directory" for the
    source and leaves the archive file it has opened where it is. *)
Theorem missing_source_leaves_an_archive_behind
  (source_dir output_dir artifact_name : string) (w : world) now e1 fs1 fs2 :
  let path := OsPath.join output_dir
                (artifact_name ++ "_" ++ strftime_underscore now ++ ".tar.gz") in
  datetime_now (w_ext w) = (now, e1) ->
  Os.makedirs output_dir (w_fs w) = Ok fs1 ->
  Os.write_text path (tar_pack []) fs1 = Ok fs2 ->
  Os.path_exists source_dir fs2 = false ->
  exists w',
    ArtifactPush.create_compressed_artifact source_dir output_dir artifact_name w
    = (Ret (Failure ("[Errno 2] No such file or directory: '" ++ source_dir ++ "'")),
       w')
    /\ w_fs w' = fs2
    /\ Os.path_exists path (w_fs w') = true
    /\ w_trace w' = w_trace w.
Proof.
  intros path Hnow Hmake Hopen Hmissing.
  exists {| w_fs := fs2; w_ext := e1; w_trace := w_trace w |}.
  split; [|split; [reflexivity|split; [|reflexivity]]].
  - unfold ArtifactPush.create_compressed_artifact, ArtifactPush.tar_create,
      try_except, bind, host_read, fs_write, fs_read, ret.
    rewrite Hnow. cbn [w_fs w_ext w_trace]. rewrite Hmake.
    cbn [w_fs w_ext w_trace]. fold path. rewrite Hopen.
    cbn [w_fs w_ext w_trace].
    unfold Os.path_exists in Hmissing.
    destruct (Os.stat source_dir fs2); [discriminate|]. reflexivity.
  - exact (written_file_exists _ _ _ _ Hopen).
Qed.

End MissingSource.

Lemma missing_source_leaves_an_archive_behind_witness :
  exists w',
    ArtifactPush.create_compressed_artifact
      (H := Sample.scripted Sample.all_well) (C := Sample.codecs)
      "work/nowhere" "artifacts" "svc" (Sample.start _)
    = (Ret (Failure "[Errno 2] No such file or directory: 'work/nowhere'"), w')
    /\ Os.listdir "artifacts" (w_fs w') = Ok ["svc_20240305_140709.tar.gz"].
Proof.
  destruct (missing_source_leaves_an_archive_behind
              (H := Sample.scripted Sample.all_well) (C := Sample.codecs)
              "work/nowhere" "artifacts" "svc" (Sample.start _) Sample.clock tt
              _ _ eq_refl eq_refl eq_refl eq_refl)
    as (w' & Hrun & Hfs & _).
  exists w'. split; [exact Hrun|]. now rewrite Hfs.
Defined.

(** ** The commands behind a success *)

Section Runs.
Context {H : Host}.

(** [runs R m]: when [m] returns a value, the commands it has run and the
    value satisfy [R]. *)
Definition runs {A} (R : A -> list event -> Prop) (m : M A) : Prop :=
  forall w a w', m w = (Ret a, w') ->
    exists evs, w_trace w' = (w_trace w ++ evs)%list /\ R a evs.

Lemma runs_weaken {A} (R R' : A -> list event -> Prop) (m : M A) :
  runs R m -> (forall a evs, R a evs -> R' a evs) -> runs R' m.
Proof.
  intros Hm Hr w a w' Hrun. destruct (Hm w a w' Hrun) as (evs & Ht & Ha). eauto.
Qed.

Lemma runs_silent {A} (R : A -> Prop) (m : M A) :
  silent m -> returns R m -> runs (fun a evs => evs = [] /\ R a) m.
Proof.
  intros Hs Hr w a w' Hrun. exists []. specialize (Hs w). specialize (Hr w a).
  rewrite Hrun in Hs, Hr. cbn in Hs, Hr. rewrite app_nil_r. auto.
Qed.

Lemma runs_quiet {A} (m : M A) : silent m -> runs (fun _ evs => evs = []) m.
Proof.
  intros Hs. eapply runs_weaken; [apply (runs_silent (fun _ => True)); easy|].
  now intros a evs [-> _].
Qed.

Lemma runs_ret {A} (R : A -> list event -> Prop) a : R a [] -> runs R (ret a).
Proof. intros Hr w a' w' [= <- <-]. exists []. now rewrite app_nil_r. Qed.

Lemma runs_run (c : call) :
  runs (fun process evs =>
          evs = [{| ev_call := c;
                    ev_outcome := Exited (returncode process) (stdout process)
                                    (stderr process) |}])
    (subprocess_run c).
Proof.
  intros w a w'. unfold subprocess_run.
  destruct (spawn c (w_ext w) (w_fs w)) as [[b e'] fs'].
  destruct (decide c b) as [rc out err| |e|]; try discriminate.
  intros [= <- <-]. eexists. split; reflexivity.
Qed.

Lemma runs_bind {A B} (R1 : A -> list event -> Prop) (R : B -> list event -> Prop)
  (m : M A) (k : A -> M B) :
  runs R1 m ->
  (forall a evs1, R1 a evs1 -> runs (fun b evs2 => R b (evs1 ++ evs2)%list) (k a)) ->
  runs R (bind m k).
Proof.
  intros Hm Hk w b w'. unfold bind.
  destruct (m w) as [[a|e|] w1] eqn:Hrun; try discriminate.
  destruct (Hm w a w1 Hrun) as (evs1 & Ht1 & Ha). intros Hrest.
  destruct (Hk a evs1 Ha w1 b w' Hrest) as (evs2 & Ht2 & Hb).
  exists (evs1 ++ evs2)%list. split; [|assumption].
  now rewrite Ht2, Ht1, app_assoc.
Qed.

Lemma runs_try_except {A} (R : A -> list event -> Prop) (m : M A) handler :
  logs (fun _ => True) (try_except m handler) ->
  runs R m ->
  (forall e, returns (fun a => forall evs, R a evs) (handler e)) ->
  runs R (try_except m handler).
Proof.
  intros Hl Hm Hh w a w' Hrun.
  destruct (Hl w) as (evs & Ht & _). rewrite Hrun in Ht. cbn in Ht.
  unfold try_except in Hrun.
  destruct (m w) as [[a'|e|] w1] eqn:Hbody.
  - apply (Hm w a w'). now rewrite Hbody, <- Hrun.
  - exists evs. split; [assumption|]. apply (Hh e w1 a). now rewrite Hrun.
  - discriminate.
Qed.

Lemma runs_try_finally {A} (R : A -> list event -> Prop) (m : M A) cleanup :
  runs R m -> silent cleanup -> runs R (try_finally m cleanup).
Proof.
  intros Hm Hs w a w'. unfold try_finally. specialize (Hm w).
  destruct (m w) as [[a'|e|] w1]; try discriminate;
    specialize (Hs w1); destruct (cleanup w1) as [[[]|e'|] w2];
    try discriminate; cbn in Hs.
  intros [= <- <-]. destruct (Hm a' w1 eq_refl) as (evs & Ht & Ha).
  exists evs. split; [congruence|assumption].
Qed.

(** The command [c] was run, exited with code 0 and printed [out]. *)
Definition printed (c : call) (out : string) (ev : event) : Prop :=
  ev_call ev = c /\ exists err, ev_outcome ev = Exited 0 out err.

(** The command [c] was run and came back, with whatever exit code. *)
Definition came_back (c : call) (ev : event) : Prop :=
  ev_call ev = c /\ exists rc out err, ev_outcome ev = Exited rc out err.

Lemma run_printed (c : call) (process : completed) :
  returncode process = 0%Z ->
  printed c (stdout process)
    {| ev_call := c;
       ev_outcome := Exited (returncode process) (stdout process) (stderr process) |}.
Proof. intros ->. split; [reflexivity|]. now exists (stderr process). Qed.

(** The token setup_gcp_auth returns, and the two commands behind it. *)
Definition authenticated (registry_host : string) (token : option string)
  (evs : list event) : Prop :=
  forall t, token = Some t ->
    exists out out' e1 e2,
      evs = [e1; e2]
      /\ printed token_call out e1
      /\ printed (configure_docker_call registry_host) out' e2
      /\ t = PyStr.strip out.

Lemma auth_runs registry_host :
  runs (authenticated registry_host) (setup_gcp_auth_for registry_host).
Proof.
  unfold setup_gcp_auth_for. apply runs_try_except.
  - logs_go ltac:(exact I).
  - eapply runs_bind; [apply runs_run|].
    intros process evs1 ->.
    destruct (Z.eqb_spec (returncode process) 0) as [Hrc|_]; cbn [negb];
      [|apply runs_ret; intros t; discriminate].
    eapply runs_bind; [apply runs_run|].
    intros docker evs2 ->.
    destruct (Z.eqb_spec (returncode docker) 0) as [Hrc'|_]; cbn [negb];
      [|apply runs_ret; intros t; discriminate].
    apply runs_ret. intros t [= <-].
    do 4 eexists. split; [reflexivity|].
    split; [now apply run_printed|]. split; [now apply run_printed|reflexivity].
  - intros e. apply returns_ret. intros evs t. discriminate.
Qed.

End Runs.

Section PullCommands.
Context {H : Host} {C : Codecs}.

Lemma configure_npmrc_returns target_dir repository token :
  returns (fun r => forall npmrc, r = Success npmrc ->
                      npmrc_path npmrc = OsPath.join target_dir ".npmrc")
    (configure_npmrc target_dir repository token).
Proof.
  unfold configure_npmrc. apply returns_try_except.
  - do 3 (apply returns_bind; intros ?).
    apply returns_ret. now intros npmrc [= <-].
  - intros e. apply returns_ret. discriminate.
Qed.

(** X17.  When gcp_npm_pull reports success it has run five commands, in
    this order: gcloud auth print-access-token, gcloud auth
    configure-docker for us-central1-npm.pkg.dev, cat on the .npmrc of the
    temporary directory, npm view and npm pack; all but cat, whose exit
    code is not looked at, have exited with code 0.  The token handed to
    the last three in NPM_TOKEN is the stripped output of the first, npm
    pack is asked for <package>@<version>, or for <package> alone when the
    version is "latest", and its output is the "stdout" of the result. *)
Theorem successful_pull_has_run_five_commands
  (args : request) (w : world) (d : pydict) (w' : world) :
  let timeout := get_default (timeout args) 300%Z in
  let version := get_default (version args) "latest" in
  NpmPull.gcp_npm_pull args w = (Ret d, w') ->
  Dict.get "success" d = Some (VBool true) ->
  exists package repository temp_dir out out2 out4 out5 e1 e2 e3 e4 e5,
    let token := PyStr.strip out in
    let package_spec :=
      if String.eqb version "latest" then package else package ++ "@" ++ version in
    package_name args = Some package
    /\ repository_path args = Some repository
    /\ w_trace w' = (w_trace w ++ [e1; e2; e3; e4; e5])%list
    /\ printed token_call out e1
    /\ printed (configure_docker_call "us-central1-npm.pkg.dev") out2 e2
    /\ came_back (NpmPull.cat_call (OsPath.join temp_dir ".npmrc") token) e3
    /\ printed (NpmPull.view_call package repository temp_dir token timeout) out4 e4
    /\ printed (NpmPull.pack_call package_spec repository temp_dir token timeout)
         out5 e5
    /\ Dict.get "stdout" d = Some (VStr out5).
Proof.
  intros timeout version Hrun Hsuccess.
  set (R := fun (d : pydict) (evs : list event) =>
    Dict.get "success" d = Some (VBool true) ->
    exists package repository temp_dir out out2 out4 out5 e1 e2 e3 e4 e5,
      package_name args = Some package
      /\ repository_path args = Some repository
      /\ evs = [e1; e2; e3; e4; e5]
      /\ printed token_call out e1
      /\ printed (configure_docker_call "us-central1-npm.pkg.dev") out2 e2
      /\ came_back (NpmPull.cat_call (OsPath.join temp_dir ".npmrc")
                      (PyStr.strip out)) e3
      /\ printed (NpmPull.view_call package repository temp_dir
                    (PyStr.strip out) timeout) out4 e4
      /\ printed (NpmPull.pack_call
                    (if String.eqb version "latest" then package
                     else package ++ "@" ++ version)
                    repository temp_dir (PyStr.strip out) timeout) out5 e5
      /\ Dict.get "stdout" d = Some (VStr out5)).
  assert (Hr : runs R (NpmPull.gcp_npm_pull args)).
  { unfold NpmPull.gcp_npm_pull. fold timeout version.
    apply runs_try_except.
    - unfold_helpers. logs_go ltac:(exact I).
    - destruct (package_name args) as [[|c0 package]|];
        try (apply runs_ret; intros [=]).
      destruct (repository_path args) as [[|c1 repository]|];
        try (apply runs_ret; intros [=]).
      eapply runs_bind; [apply runs_quiet; unfold mkdtemp; silent_go|].
      intros temp_dir evs ->. cbn [app].
      apply runs_try_finally; [|apply silent_fs_write].
      eapply runs_bind; [apply auth_runs|].
      intros [[|c2 token]|] evs Hauth; try (apply runs_ret; intros [=]).
      destruct (Hauth _ eq_refl) as (out & out2 & e1 & e2 & -> & He1 & He2 & Htoken).
      rewrite Htoken. clear Hauth Htoken c2 token.
      eapply runs_bind;
        [apply runs_silent;
         [unfold configure_npmrc; silent_go|apply configure_npmrc_returns]|].
      intros [npmrc|error] evs [-> Hpath]; [|apply runs_ret; intros [=]].
      rewrite (Hpath npmrc eq_refl). clear Hpath npmrc.
      eapply runs_bind; [apply runs_run|]. intros cat evs ->.
      eapply runs_bind; [apply runs_run|]. intros view evs ->.
      destruct (Z.eqb_spec (returncode view) 0) as [Hview|_]; cbn [negb];
        [|apply runs_ret; intros [=]].
      eapply runs_bind; [apply runs_run|]. intros pack evs ->.
      destruct (Z.eqb_spec (returncode pack) 0) as [Hpack|_]; cbn [negb];
        [|apply runs_ret; intros [=]].
      eapply runs_bind; [apply runs_quiet, silent_fs_read|]. intros names evs ->.
      destruct (filter _ names) as [|first_tarball others];
        [apply runs_ret; intros [=]|].
      eapply runs_bind; [apply runs_quiet, silent_fs_write|]. intros _ evs ->.
      eapply runs_bind;
        [apply runs_quiet; unfold NpmPull.extractall; silent_go|]. intros _ evs ->.
      eapply runs_bind;
        [apply runs_quiet; unfold NpmPull.flatten_package; silent_go|].
      intros _ evs ->.
      eapply runs_bind; [apply runs_quiet, silent_fs_read|]. intros files evs ->.
      apply runs_ret. intros _. cbn [app].
      exists (String c0 package), (String c1 repository), temp_dir,
        out, out2, (stdout view), (stdout pack), e1, e2.
      do 3 eexists.
      do 3 (split; [reflexivity|]).
      split; [exact He1|]. split; [exact He2|].
      split; [split; [reflexivity|]; do 3 eexists; reflexivity|].
      split; [now apply run_printed|].
      split; [|reflexivity].
      destruct (String.eqb version "latest"); cbn [negb]; now apply run_printed.
    - intros e. unfold boundary. destruct e; apply returns_ret; intros evs [=]. }
  destruct (Hr w d w' Hrun) as (evs & Htrace & Hd).
  destruct (Hd Hsuccess)
    as (package & repository & temp_dir & out & out2 & out4 & out5
        & e1 & e2 & e3 & e4 & e5 & Hp & Hrp & -> & H1 & H2 & H3 & H4 & H5 & Hout).
  exists package, repository, temp_dir, out, out2, out4, out5, e1, e2, e3, e4, e5.
  cbv zeta. repeat (split; [assumption|]). assumption.
Qed.

End PullCommands.

Lemma successful_pull_has_run_five_commands_witness :
  exists e1 e2 e3 e4 e5,
    w_trace (snd (NpmPull.gcp_npm_pull
                    (H := Sample.scripted Sample.all_well) (C := Sample.codecs)
                    (Sample.pull_request "us-central1-npm.pkg.dev/proj/repo")
                    (Sample.start _)))
    = [e1; e2; e3; e4; e5]
    /\ ev_call e5
       = NpmPull.pack_call "@observability/demo@^1.0.0"
           "us-central1-npm.pkg.dev/proj/repo" "/tmp/tmpqk3x" "T" 300.
Proof.
  set (run := NpmPull.gcp_npm_pull _ _).
  assert (Hrun : run = (Ret match fst run with Ret d => d | _ => [] end, snd run))
    by (vm_compute; reflexivity).
  assert (Hsuccess : Dict.get "success" match fst run with Ret d => d | _ => [] end
                     = Some (VBool true))
    by (vm_compute; reflexivity).
  destruct (successful_pull_has_run_five_commands
              (H := Sample.scripted Sample.all_well) (C := Sample.codecs)
              (Sample.pull_request "us-central1-npm.pkg.dev/proj/repo")
              (Sample.start _) _ _ Hrun Hsuccess)
    as (package & repository & temp_dir & out & out2 & out4 & out5
        & e1 & e2 & e3 & e4 & e5 & _ & _ & Htrace & _).
  exists e1, e2, e3, e4, e5. split; [exact Htrace|].
  vm_compute in Htrace. injection Htrace as _ _ _ _ <-. vm_compute. reflexivity.
Defined.

Section PushCommands.
Context {H : Host} {C : Codecs}.

Lemma auto_version_step_returns auto_version path :
  returns (fun early => forall failed, early = Some failed ->
                          Dict.get "success" failed <> Some (VBool true))
    (NpmPush.auto_version_step auto_version path).
Proof.
  unfold NpmPush.auto_version_step. destruct auto_version.
  - apply returns_bind. intros [fields|error]; apply returns_ret.
    + discriminate.
    + intros failed [= <-]. discriminate.
  - apply returns_ret. discriminate.
Qed.

(** X18.  When gcp_npm_push reports success it has run three commands, in
    this order and each with exit code 0: gcloud auth print-access-token,
    gcloud auth configure-docker for us-central1-npm.pkg.dev, and npm
    publish for the registry https://<repository_path>/, run in the source
    directory with the stripped output of the first command in NPM_TOKEN
    and with the timeout of the request (300 by default); the "output" of
    the result is what npm publish printed, the "repository" the
    repository path of the request. *)
Theorem successful_push_has_run_three_commands
  (args : request) (w : world) (d : pydict) (w' : world) :
  let timeout := get_default (timeout args) 300%Z in
  NpmPush.gcp_npm_push args w = (Ret d, w') ->
  Dict.get "success" d = Some (VBool true) ->
  exists source repository out out2 out3 e1 e2 e3,
    source_dir args = Some source
    /\ repository_path args = Some repository
    /\ w_trace w' = (w_trace w ++ [e1; e2; e3])%list
    /\ printed token_call out e1
    /\ printed (configure_docker_call "us-central1-npm.pkg.dev") out2 e2
    /\ printed (NpmPush.publish_call repository source (PyStr.strip out) timeout)
         out3 e3
    /\ Dict.get "output" d = Some (VStr out3)
    /\ Dict.get "repository" d = Some (VStr repository).
Proof.
  intros timeout Hrun Hsuccess.
  set (R := fun (d : pydict) (evs : list event) =>
    Dict.get "success" d = Some (VBool true) ->
    exists source repository out out2 out3 e1 e2 e3,
      source_dir args = Some source
      /\ repository_path args = Some repository
      /\ evs = [e1; e2; e3]
      /\ printed token_call out e1
      /\ printed (configure_docker_call "us-central1-npm.pkg.dev") out2 e2
      /\ printed (NpmPush.publish_call repository source (PyStr.strip out) timeout)
           out3 e3
      /\ Dict.get "output" d = Some (VStr out3)
      /\ Dict.get "repository" d = Some (VStr repository)).
  assert (Hr : runs R (NpmPush.gcp_npm_push args)).
  { unfold NpmPush.gcp_npm_push. fold timeout.
    apply runs_try_except.
    - unfold_helpers. logs_go ltac:(exact I).
    - destruct (source_dir args) as [[|c0 source]|];
        try (apply runs_ret; intros [=]).
      destruct (repository_path args) as [[|c1 repository]|];
        try (apply runs_ret; intros [=]).
      eapply runs_bind; [apply runs_quiet, silent_fs_test|].
      intros present evs ->.
      destruct (negb present); [apply runs_ret; intros [=]|].
      eapply runs_bind; [apply runs_quiet; unfold mkdtemp; silent_go|].
      intros temp_dir evs ->. cbn [app].
      apply runs_try_finally; [|apply silent_fs_write].
      eapply runs_bind; [apply auth_runs|].
      intros [[|c2 token]|] evs Hauth; try (apply runs_ret; intros [=]).
      destruct (Hauth _ eq_refl) as (out & out2 & e1 & e2 & -> & He1 & He2 & Htoken).
      rewrite Htoken. clear Hauth Htoken c2 token.
      eapply runs_bind; [apply runs_quiet; unfold configure_npmrc; silent_go|].
      intros [npmrc|error] evs ->; [|apply runs_ret; intros [=]].
      eapply runs_bind;
        [apply runs_silent;
         [unfold_helpers; silent_go|apply auto_version_step_returns]|].
      intros [failed|] evs [-> Hfailed].
      { apply runs_ret. intros Hs. now destruct (Hfailed failed eq_refl). }
      eapply runs_bind; [apply runs_quiet; unfold_helpers; silent_go|].
      intros _ evs ->.
      eapply runs_bind; [apply runs_run|]. intros publish evs ->.
      destruct (Z.eqb_spec (returncode publish) 0) as [Hpublish|_]; cbn [negb];
        [|apply runs_ret; intros [=]].
      eapply runs_bind; [apply runs_quiet; unfold_helpers; silent_go|].
      intros final_package evs ->.
      apply runs_ret. intros _. cbn [app].
      exists (String c0 source), (String c1 repository), out, out2,
        (stdout publish), e1, e2.
      eexists.
      do 3 (split; [reflexivity|]).
      split; [exact He1|]. split; [exact He2|].
      split; [now apply run_printed|].
      split; reflexivity.
    - intros e. unfold boundary. destruct e; apply returns_ret; intros evs [=]. }
  destruct (Hr w d w' Hrun) as (evs & Htrace & Hd).
  destruct (Hd Hsuccess)
    as (source & repository & out & out2 & out3 & e1 & e2 & e3
        & Hs & Hrp & -> & H1 & H2 & H3 & Hout & Hrepo).
  exists source, repository, out, out2, out3, e1, e2, e3.
  repeat (split; [assumption|]). assumption.
Qed.

End PushCommands.

Lemma successful_push_has_run_three_commands_witness :
  exists e1 e2 e3,
    w_trace (snd (NpmPush.gcp_npm_push
                    (H := Sample.scripted Sample.all_well) (C := Sample.codecs)
                    {| source_dir := Some "work/pkg"; project_dir := None;
                       repository_path := Some "us-central1-npm.pkg.dev/proj/repo";
                       artifact_name := None; package_name := None;
                       output_dir := None; version := None; timeout := Some 60%Z;
                       auto_version := None; dry_run := None |}
                    (Sample.start _)))
    = [e1; e2; e3]
    /\ ev_call e3
       = NpmPush.publish_call "us-central1-npm.pkg.dev/proj/repo" "work/pkg" "T" 60.
Proof.
  set (args := Build_request _ _ _ _ _ _ _ _ _ _).
  set (run := NpmPush.gcp_npm_push _ _).
  assert (Hrun : run = (Ret match fst run with Ret d => d | _ => [] end, snd run))
    by (vm_compute; reflexivity).
  assert (Hsuccess : Dict.get "success" match fst run with Ret d => d | _ => [] end
                     = Some (VBool true))
    by (vm_compute; reflexivity).
  destruct (successful_push_has_run_three_commands
              (H := Sample.scripted Sample.all_well) (C := Sample.codecs)
              args (Sample.start _) _ _ Hrun Hsuccess)
    as (source & repository & out & out2 & out3 & e1 & e2 & e3
        & _ & _ & Htrace & _).
  exists e1, e2, e3. split; [exact Htrace|].
  vm_compute in Htrace. injection Htrace as _ _ <-. vm_compute. reflexivity.
Defined.

Section ArchivePushCommands.
Context {H : Host} {C : Codecs}.

(** What a successful upload has run and returns. *)
Definition uploaded (artifact_path repository name : string)
  (r : step ArtifactPush.push_fields) (evs : list event) : Prop :=
  forall fields, r = Success fields ->
    exists stamp out e,
      let parts := PyStr.split_on PyStr.slash repository in
      evs = [e]
      /\ printed (ArtifactPush.upload_call (nth 2 parts "") (nth 1 parts "") name
                    (strftime_dot stamp) artifact_path) out e
      /\ ArtifactPush.output fields = out.

Lemma uploader_runs artifact_path repository name token :
  runs (uploaded artifact_path repository name)
    (ArtifactPush.push_to_artifact_registry artifact_path repository name token).
Proof.
  unfold ArtifactPush.push_to_artifact_registry. apply runs_try_except.
  - logs_go ltac:(exact I).
  - destruct (_ <? 3)%nat; [apply runs_ret; intros fields [=]|].
    eapply runs_bind; [apply runs_quiet, silent_host_read|].
    intros now evs ->.
    eapply runs_bind; [apply runs_run|]. intros process evs ->.
    destruct (Z.eqb_spec (returncode process) 0) as [Hrc|_]; cbn [negb];
      apply runs_ret; intros fields [= <-].
    exists now, (stdout process). eexists.
    split; [reflexivity|]. split; [now apply run_printed|reflexivity].
  - intros e. apply returns_ret. intros evs fields [=].
Qed.

(** X19.  When gcp_artifact_push reports success it has run three
    commands, in this order and each with exit code 0: gcloud auth
    print-access-token, gcloud auth configure-docker for
    us-central1-docker.pkg.dev, and gcloud artifacts generic upload for the
    repository and the project named by the third and the second field of
    the repository path, with the archive file name as package and the
    archive path as source; the "output" of the result is what the upload
    printed. *)
Theorem successful_archive_push_has_run_three_commands
  (args : request) (w : world) (d : pydict) (w' : world) :
  let output_dir := get_default (output_dir args) "artifacts" in
  ArtifactPush.gcp_artifact_push args w = (Ret d, w') ->
  Dict.get "success" d = Some (VBool true) ->
  exists name repository stamp stamp' out out2 out3 e1 e2 e3,
    let parts := PyStr.split_on PyStr.slash repository in
    let file := name ++ "_" ++ strftime_underscore stamp ++ ".tar.gz" in
    artifact_name args = Some name
    /\ repository_path args = Some repository
    /\ w_trace w' = (w_trace w ++ [e1; e2; e3])%list
    /\ printed token_call out e1
    /\ printed (configure_docker_call "us-central1-docker.pkg.dev") out2 e2
    /\ printed (ArtifactPush.upload_call (nth 2 parts "") (nth 1 parts "") file
                  (strftime_dot stamp') (OsPath.join output_dir file)) out3 e3
    /\ Dict.get "output" d = Some (VStr out3).
Proof.
  intros output_dir Hrun Hsuccess.
  set (R := fun (d : pydict) (evs : list event) =>
    Dict.get "success" d = Some (VBool true) ->
    exists name repository stamp stamp' out out2 out3 e1 e2 e3,
      artifact_name args = Some name
      /\ repository_path args = Some repository
      /\ evs = [e1; e2; e3]
      /\ printed token_call out e1
      /\ printed (configure_docker_call "us-central1-docker.pkg.dev") out2 e2
      /\ printed (ArtifactPush.upload_call
                    (nth 2 (PyStr.split_on PyStr.slash repository) "")
                    (nth 1 (PyStr.split_on PyStr.slash repository) "")
                    (name ++ "_" ++ strftime_underscore stamp ++ ".tar.gz")
                    (strftime_dot stamp')
                    (OsPath.join output_dir
                       (name ++ "_" ++ strftime_underscore stamp ++ ".tar.gz")))
           out3 e3
      /\ Dict.get "output" d = Some (VStr out3)).
  assert (Hr : runs R (ArtifactPush.gcp_artifact_push args)).
  { unfold ArtifactPush.gcp_artifact_push. fold output_dir.
    apply runs_try_except.
    - unfold_helpers. unfold ArtifactPush.push_to_artifact_registry.
      logs_go ltac:(exact I).
    - destruct (source_dir args) as [[|c0 source]|];
        try (apply runs_ret; intros [=]).
      destruct (repository_path args) as [[|c1 repository]|];
        try (apply runs_ret; intros [=]).
      destruct (artifact_name args) as [[|c2 name]|];
        try (apply runs_ret; intros [=]).
      eapply runs_bind; [apply runs_quiet; unfold mkdtemp; silent_go|].
      intros temp_dir evs ->. cbn [app].
      apply runs_try_finally; [|apply silent_fs_write].
      eapply runs_bind; [apply auth_runs|].
      intros [[|c3 token]|] evs Hauth; try (apply runs_ret; intros [=]).
      destruct (Hauth _ eq_refl) as (out & out2 & e1 & e2 & -> & He1 & He2 & _).
      clear Hauth.
      eapply runs_bind;
        [apply runs_silent;
         [unfold_helpers; silent_go|apply archive_builder_returns]|].
      intros [compress|error] evs [-> Hbuilt]; [|apply runs_ret; intros [=]].
      destruct (Hbuilt compress eq_refl) as (stamp & _ & Hfile & Hpath).
      rewrite Hfile in Hpath.
      eapply runs_bind; [apply uploader_runs|].
      intros [push|error] evs Hpush; [|apply runs_ret; intros [=]].
      destruct (Hpush push eq_refl) as (stamp' & out3 & e3 & -> & He3 & Hout).
      rewrite Hfile, Hpath in He3.
      apply runs_ret. intros _. cbn [app].
      exists (String c2 name), (String c1 repository), stamp, stamp',
        out, out2, out3, e1, e2, e3.
      do 3 (split; [reflexivity|]).
      split; [exact He1|]. split; [exact He2|]. split; [exact He3|].
      rewrite <- Hout. reflexivity.
    - intros e. unfold boundary. destruct e; apply returns_ret; intros evs [=]. }
  destruct (Hr w d w' Hrun) as (evs & Htrace & Hd).
  destruct (Hd Hsuccess)
    as (name & repository & stamp & stamp' & out & out2 & out3 & e1 & e2 & e3
        & Hn & Hrp & -> & H1 & H2 & H3 & Hout).
  exists name, repository, stamp, stamp', out, out2, out3, e1, e2, e3.
  cbv zeta. repeat (split; [assumption|]). assumption.
Qed.

End ArchivePushCommands.

Lemma successful_archive_push_has_run_three_commands_witness :
  exists e1 e2 e3,
    w_trace (snd (ArtifactPush.gcp_artifact_push
                    (H := Sample.scripted Sample.all_well) (C := Sample.codecs)
                    (Sample.push_request "us-central1-docker.pkg.dev/proj/repo")
                    (Sample.start _)))
    = [e1; e2; e3]
    /\ ev_call e3
       = ArtifactPush.upload_call "repo" "proj" "svc_20240305_140709.tar.gz"
           "20240305.140709" "artifacts/svc_20240305_140709.tar.gz".
Proof.
  set (run := ArtifactPush.gcp_artifact_push _ _).
  assert (Hrun : run = (Ret match fst run with Ret d => d | _ => [] end, snd run))
    by (vm_compute; reflexivity).
  assert (Hsuccess : Dict.get "success" match fst run with Ret d => d | _ => [] end
                     = Some (VBool true))
    by (vm_compute; reflexivity).
  destruct (successful_archive_push_has_run_three_commands
              (H := Sample.scripted Sample.all_well) (C := Sample.codecs)
              (Sample.push_request "us-central1-docker.pkg.dev/proj/repo")
              (Sample.start _) _ _ Hrun Hsuccess)
    as (name & repository & stamp & stamp' & out & out2 & out3 & e1 & e2 & e3
        & _ & _ & Htrace & _).
  exists e1, e2, e3. split; [exact Htrace|].
  vm_compute in Htrace. injection Htrace as _ _ <-. vm_compute. reflexivity.
Defined.

Section PublishCommands.
Context {H : Host}.

(** X20.  When gcp_npm_publish reports success it has run two commands,
    each with exit code 0: gcloud auth print-access-token, and ./publish.sh
    in the project directory with the stripped output of the first command
    in NPM_TOKEN; the "output" of the result is what the script printed,
    and "dry_run" repeats the flag of the request (false by default). *)
Theorem successful_publish_has_run_two_commands
  (args : request) (w : world) (d : pydict) (w' : world) :
  NpmPublish.gcp_npm_publish args w = (Ret d, w') ->
  Dict.get "success" d = Some (VBool true) ->
  exists project out out2 e1 e2,
    project_dir args = Some project
    /\ w_trace w' = (w_trace w ++ [e1; e2])%list
    /\ printed token_call out e1
    /\ printed (NpmPublish.script_call project (PyStr.strip out)) out2 e2
    /\ Dict.get "output" d = Some (VStr out2)
    /\ Dict.get "dry_run" d = Some (VBool (get_default (dry_run args) false)).
Proof.
  intros Hrun Hsuccess.
  set (R := fun (d : pydict) (evs : list event) =>
    Dict.get "success" d = Some (VBool true) ->
    exists project out out2 e1 e2,
      project_dir args = Some project
      /\ evs = [e1; e2]
      /\ printed token_call out e1
      /\ printed (NpmPublish.script_call project (PyStr.strip out)) out2 e2
      /\ Dict.get "output" d = Some (VStr out2)
      /\ Dict.get "dry_run" d = Some (VBool (get_default (dry_run args) false))).
  assert (Hr : runs R (NpmPublish.gcp_npm_publish args)).
  { unfold NpmPublish.gcp_npm_publish.
    apply runs_try_except.
    - unfold NpmPublish.run_publish_script. logs_go ltac:(exact I).
    - destruct (project_dir args) as [[|c0 project]|];
        try (apply runs_ret; intros [=]).
      eapply runs_bind; [apply runs_quiet, silent_fs_test|].
      intros present evs ->.
      destruct (negb present); [apply runs_ret; intros [=]|].
      eapply runs_bind; [apply runs_quiet, silent_fs_test|].
      intros present' evs ->.
      destruct (negb present'); [apply runs_ret; intros [=]|].
      eapply runs_bind.
      { apply (runs_silent
                 (fun refused => forall failed, refused = Some failed ->
                    Dict.get "success" failed <> Some (VBool true))).
        - silent_go.
        - apply returns_try_except.
          + apply returns_bind. intros _. apply returns_ret. discriminate.
          + intros e. apply returns_ret. intros failed [= <-]. discriminate. }
      intros [failed|] evs [-> Hfailed].
      { apply runs_ret. intros Hs. now destruct (Hfailed failed eq_refl). }
      cbn [app]. apply runs_try_except.
      + unfold NpmPublish.run_publish_script. logs_go ltac:(exact I).
      + eapply runs_bind; [apply runs_run|]. intros token evs ->.
        destruct (Z.eqb_spec (returncode token) 0) as [Htoken|_]; cbn [negb];
          [|apply runs_ret; intros [=]].
        unfold NpmPublish.run_publish_script.
        eapply runs_bind;
          [apply runs_quiet;
           destruct (get_default (dry_run args) false); silent_go|].
        intros content evs ->.
        eapply runs_bind; [apply runs_run|]. intros publish evs ->.
        eapply runs_bind;
          [apply runs_quiet;
           destruct (get_default (dry_run args) false); silent_go|].
        intros _ evs ->.
        destruct (Z.eqb_spec (returncode publish) 0) as [Hpublish|_];
          [|apply runs_ret; intros [=]].
        apply runs_ret. intros _. cbn [app].
        exists (String c0 project), (stdout token), (stdout publish).
        do 2 eexists.
        do 2 (split; [reflexivity|]).
        split; [now apply run_printed|]. split; [now apply run_printed|].
        split; reflexivity.
      + intros e. apply returns_ret. intros evs [=].
    - intros e. apply returns_ret. intros evs [=]. }
  destruct (Hr w d w' Hrun) as (evs & Htrace & Hd).
  destruct (Hd Hsuccess)
    as (project & out & out2 & e1 & e2 & Hp & -> & H1 & H2 & Hout & Hdry).
  exists project, out, out2, e1, e2.
  repeat (split; [assumption|]). assumption.
Qed.

End PublishCommands.

Lemma successful_publish_has_run_two_commands_witness :
  exists e1 e2,
    w_trace (snd (NpmPublish.gcp_npm_publish
                    (H := Sample.scripted Sample.all_well)
                    (Sample.publish_request true) (Sample.start _)))
    = [e1; e2]
    /\ ev_call e2 = NpmPublish.script_call "work/pkg" "T".
Proof.
  set (run := NpmPublish.gcp_npm_publish _ _).
  assert (Hrun : run = (Ret match fst run with Ret d => d | _ => [] end, snd run))
    by (vm_compute; reflexivity).
  assert (Hsuccess : Dict.get "success" match fst run with Ret d => d | _ => [] end
                     = Some (VBool true))
    by (vm_compute; reflexivity).
  destruct (successful_publish_has_run_two_commands
              (H := Sample.scripted Sample.all_well)
              (Sample.publish_request true) (Sample.start _) _ _ Hrun Hsuccess)
    as (project & out & out2 & e1 & e2 & _ & Htrace & _).
  exists e1, e2. split; [exact Htrace|].
  vm_compute in Htrace. injection Htrace as _ <-. vm_compute. reflexivity.
Defined.

(** ** What the tools read back from the file tree *)

Section Files.
Context {H : Host}.

(** [keeps_files m]: however [m] ends, the file tree is the one it
    started with. *)
Definition keeps_files {A} (m : M A) : Prop :=
  forall w, w_fs (snd (m w)) = w_fs w.

Lemma keeps_ret {A} (a : A) : keeps_files (ret a).
Proof. intros w. reflexivity. Qed.

Lemma keeps_fs_test op : keeps_files (fs_test op).
Proof. intros w. reflexivity. Qed.

Lemma keeps_fs_read {A} (op : FS.node -> result A) : keeps_files (fs_read op).
Proof. intros w. unfold fs_read. now destruct (op (w_fs w)). Qed.

Lemma keeps_host_read {A} (op : ext -> A * ext) : keeps_files (host_read op).
Proof. intros w. unfold host_read. now destruct (op (w_ext w)). Qed.

Lemma keeps_bind {A B} (m : M A) (k : A -> M B) :
  keeps_files m -> (forall a, keeps_files (k a)) -> keeps_files (bind m k).
Proof.
  intros Hm Hk w. unfold bind. specialize (Hm w).
  destruct (m w) as [[a|e|] w1]; cbn [snd] in *; try assumption.
  now rewrite Hk.
Qed.

Lemma keeps_try_except {A} (m : M A) handler :
  keeps_files m -> (forall e, keeps_files (handler e)) ->
  keeps_files (try_except m handler).
Proof.
  intros Hm Hh w. unfold try_except. specialize (Hm w).
  destruct (m w) as [[a|e|] w1]; cbn [snd] in *; try assumption.
  now rewrite Hh.
Qed.

(** [triple P m Q]: started on a file tree that satisfies [P], [m] returns
    only values and file trees that satisfy [Q]. *)
Definition triple {A} (P : FS.node -> Prop) (m : M A) (Q : A -> FS.node -> Prop)
  : Prop :=
  forall w a w', P (w_fs w) -> m w = (Ret a, w') -> Q a (w_fs w').

Lemma triple_ret {A} (P : FS.node -> Prop) (Q : A -> FS.node -> Prop) a :
  (forall fs, P fs -> Q a fs) -> triple P (ret a) Q.
Proof. intros Hq w a' w' Hp [= <- <-]. auto. Qed.

Lemma triple_bind {A B} P (Q1 : A -> FS.node -> Prop) (Q : B -> FS.node -> Prop)
  (m : M A) (k : A -> M B) :
  triple P m Q1 -> (forall a, triple (Q1 a) (k a) Q) -> triple P (bind m k) Q.
Proof.
  intros Hm Hk w b w' Hp. unfold bind.
  destruct (m w) as [[a|e|] w1] eqn:Hrun; try discriminate.
  apply (Hk a w1 b w'). exact (Hm w a w1 Hp Hrun).
Qed.

Lemma triple_keeps {A} P (m : M A) :
  keeps_files m -> triple P m (fun _ fs => P fs).
Proof.
  intros Hm w a w' Hp Hrun. specialize (Hm w). rewrite Hrun in Hm.
  cbn in Hm. now rewrite Hm.
Qed.

Lemma triple_fs_test P op :
  triple P (fs_test op) (fun b fs => P fs /\ b = op fs).
Proof. intros w b w' Hp [= <- <-]. auto. Qed.

Lemma triple_fs_read {A} P (op : FS.node -> result A) :
  triple P (fs_read op) (fun a fs => P fs /\ op fs = Ok a).
Proof.
  intros w a w' Hp. unfold fs_read.
  destruct (op (w_fs w)) as [a'|e] eqn:Hop; [|discriminate].
  intros [= <- <-]. auto.
Qed.

Lemma triple_fs_write P op :
  triple P (fs_write op) (fun _ fs' => exists fs, P fs /\ op fs = Ok fs').
Proof.
  intros w a w' Hp. unfold fs_write.
  destruct (op (w_fs w)) as [fs'|e] eqn:Hop; [|discriminate].
  intros Heq. inversion Heq; subst. cbn. eauto.
Qed.

Lemma triple_try_except {A} P (Q : A -> FS.node -> Prop) (m : M A) handler :
  triple P m Q ->
  (forall e, returns (fun a => forall fs, Q a fs) (handler e)) ->
  triple P (try_except m handler) Q.
Proof.
  intros Hm Hh w a w' Hp. unfold try_except. specialize (Hm w).
  destruct (m w) as [[a'|e|] w1]; try discriminate.
  - intros [= <- <-]. now apply (Hm a' w1).
  - intros Hrun. apply (Hh e w1 a). now rewrite Hrun.
Qed.

Lemma triple_try_finally {A} P (R : A -> Prop) (m : M A) cleanup :
  triple P m (fun a _ => R a) -> triple P (try_finally m cleanup) (fun a _ => R a).
Proof.
  intros Hm w a w' Hp. unfold try_finally. specialize (Hm w).
  destruct (m w) as [[a'|e|] w1]; try discriminate;
    destruct (cleanup w1) as [[[]|e'|] w2]; try discriminate.
  intros [= <- <-]. now apply (Hm a' w1).
Qed.

Lemma triple_weaken {A} (P P' : FS.node -> Prop) (Q Q' : A -> FS.node -> Prop)
  (m : M A) :
  triple P m Q -> (forall fs, P' fs -> P fs) -> (forall a fs, Q a fs -> Q' a fs) ->
  triple P' m Q'.
Proof. intros Hm Hp Hq w a w' Hp' Hrun. eapply Hq, Hm; eauto. Qed.

(** The directory tempfile.mkdtemp() has made is empty. *)
Lemma mkdtemp_makes_an_empty_directory P :
  triple P mkdtemp (fun temp_dir fs => Os.listdir temp_dir fs = Ok []).
Proof.
  unfold mkdtemp.
  eapply triple_bind; [apply (triple_keeps P), keeps_host_read|]. intros name.
  eapply triple_bind; [apply triple_fs_write|]. intros ?.
  apply triple_ret. intros fs' (fs & _ & Hmk).
  unfold mkdir in Hmk. destruct (Os.stat name fs); [discriminate|].
  unfold Os.listdir, Os.stat.
  destruct (Os.resolve name) as [segs|]; [|discriminate].
  destruct (FS.put segs (FS.Dir []) fs) as [fs1|] eqn:Hput; [|discriminate].
  injection Hmk as <-. now rewrite (FSFacts.lookup_put _ _ _ _ Hput).
Qed.

(** Written into an empty directory, .npmrc is all the directory holds. *)
Lemma first_file_in_a_directory dir c fs fs' :
  Os.listdir dir fs = Ok [] ->
  Os.write_text (OsPath.join dir ".npmrc") c fs = Ok fs' ->
  Os.listdir dir fs' = Ok [".npmrc"].
Proof.
  unfold Os.listdir, Os.stat, Os.write_text, Os.resolve.
  destruct (String.eqb_spec dir "") as [->|Hne]; [discriminate|].
  destruct (FS.lookup (OsPath.segments dir) fs) as [[c0|es]|] eqn:Hdir;
    try discriminate.
  intros [= Hkeys]. destruct es as [|entry es]; [|discriminate].
  rewrite (proj2 (String.eqb_neq _ _)) by (apply join_nonempty; discriminate).
  rewrite (segments_join _ _ file_name_npmrc), FSFacts.lookup_app, Hdir.
  cbn [FS.lookup Dict.get].
  rewrite (FSFacts.put_child _ _ _ _ _ Hdir).
  destruct (FS.put _ _ fs) as [fs1|] eqn:Hput; [|discriminate].
  intros [= <-]. now rewrite (FSFacts.lookup_put _ _ _ _ Hput).
Qed.

Lemma configure_npmrc_in_an_empty_directory target_dir repository token :
  triple (fun fs => Os.listdir target_dir fs = Ok [])
    (configure_npmrc target_dir repository token)
    (fun r fs => forall npmrc, r = Success npmrc ->
                   Os.listdir target_dir fs = Ok [".npmrc"]).
Proof.
  unfold configure_npmrc. apply triple_try_except.
  - eapply triple_bind; [apply triple_keeps, keeps_fs_test|]. intros present.
    eapply triple_bind.
    { apply triple_keeps. destruct present; [|apply keeps_ret].
      apply keeps_bind; [apply keeps_fs_read|intros; apply keeps_ret]. }
    intros original.
    eapply triple_bind; [apply triple_fs_write|]. intros ?.
    apply triple_ret. intros fs' (fs & Hempty & Hwrite) npmrc _.
    exact (first_file_in_a_directory _ _ _ _ Hempty Hwrite).
  - intros e. apply returns_ret. discriminate.
Qed.

Hypothesis programs_write_nothing :
  forall c e fs, snd (spawn c e fs) = fs.

Lemma keeps_run (c : call) : keeps_files (subprocess_run c).
Proof.
  intros w. unfold subprocess_run.
  specialize (programs_write_nothing c (w_ext w) (w_fs w)).
  destruct (spawn c (w_ext w) (w_fs w)) as [[b e'] fs'].
  cbn in programs_write_nothing. subst fs'. now destruct (decide c b).
Qed.

Lemma keeps_auth registry_host : keeps_files (setup_gcp_auth_for registry_host).
Proof.
  unfold setup_gcp_auth_for.
  apply keeps_try_except; [|intros; apply keeps_ret].
  apply keeps_bind; [apply keeps_run|]. intros token.
  destruct (negb _); [apply keeps_ret|].
  apply keeps_bind; [apply keeps_run|]. intros docker.
  destruct (negb _); apply keeps_ret.
Qed.

(** X21.  gcp_npm_pull finds the package only through the file that npm
    pack leaves in the temporary directory: on a host whose programs write
    no files the tool never reports success, whatever the commands print
    and whatever their exit codes are. *)
Theorem pull_needs_the_tarball_of_npm_pack
  {C : Codecs} (args : request) (w : world) (d : pydict) :
  fst (NpmPull.gcp_npm_pull args w) = Ret d ->
  Dict.get "success" d <> Some (VBool true).
Proof.
  intros Hrun.
  assert (Ht : triple (fun _ => True) (NpmPull.gcp_npm_pull args)
                 (fun d _ => Dict.get "success" d <> Some (VBool true))).
  { unfold NpmPull.gcp_npm_pull. apply triple_try_except.
    - destruct (package_name args) as [[|c0 package]|];
        try (apply triple_ret; intros ? _; cbv beta; discriminate).
      destruct (repository_path args) as [[|c1 repository]|];
        try (apply triple_ret; intros ? _; cbv beta; discriminate).
      eapply triple_bind; [apply mkdtemp_makes_an_empty_directory|].
      intros temp_dir.
      apply (triple_try_finally _
               (fun d => Dict.get "success" d <> Some (VBool true))).
      eapply triple_bind; [apply triple_keeps, keeps_auth|].
      intros [[|c2 token]|]; try (apply triple_ret; intros ? _; cbv beta; discriminate).
      eapply triple_bind; [apply configure_npmrc_in_an_empty_directory|].
      intros [npmrc|error]; [|apply triple_ret; intros ? _; cbv beta; discriminate].
      apply triple_weaken with
        (P := fun fs => Os.listdir temp_dir fs = Ok [".npmrc"])
        (Q := fun (d : pydict) (_ : FS.node) =>
                Dict.get "success" d <> Some (VBool true));
        [|intros fs Hfs; exact (Hfs npmrc eq_refl)|auto].
      eapply triple_bind; [apply triple_keeps, keeps_run|]. intros ?.
      eapply triple_bind; [apply triple_keeps, keeps_run|]. intros view.
      destruct (negb _); [apply triple_ret; intros ? _; cbv beta; discriminate|].
      eapply triple_bind; [apply triple_keeps, keeps_run|]. intros pack.
      destruct (negb _); [apply triple_ret; intros ? _; cbv beta; discriminate|].
      eapply triple_bind; [apply triple_fs_read|]. intros names.
      intros w0 d0 w0' [Hlist Hnames]. rewrite Hlist in Hnames.
      injection Hnames as <-. cbn [filter].
      change (PyStr.endswith ".tgz" ".npmrc") with false. cbv iota.
      intros [= <- <-]. discriminate.
    - intros e. unfold boundary. destruct e; apply returns_ret; discriminate. }
  destruct (NpmPull.gcp_npm_pull args w) as [r w'] eqn:Hpull. cbn in Hrun. subst r.
  exact (Ht w d w' I Hpull).
Qed.

End Files.

Lemma pull_needs_the_tarball_of_npm_pack_witness :
  let quiet := fun (c : call) (fs : FS.node) => (Finishes 1 0 "ok" "", fs) in
  let answer := [("error", VStr "No package tarball found after npm pack")] in
  fst (NpmPull.gcp_npm_pull (H := Sample.scripted quiet) (C := Sample.codecs)
         (Sample.pull_request "us-central1-npm.pkg.dev/proj/repo") (Sample.start _))
  = Ret answer
  /\ Dict.get "success" answer <> Some (VBool true).
Proof.
  intros quiet answer.
  assert (Hrun : fst (NpmPull.gcp_npm_pull
                        (H := Sample.scripted quiet) (C := Sample.codecs)
                        (Sample.pull_request "us-central1-npm.pkg.dev/proj/repo")
                        (Sample.start _)) = Ret answer)
    by (vm_compute; reflexivity).
  split; [exact Hrun|].
  exact (pull_needs_the_tarball_of_npm_pack (H := Sample.scripted quiet)
           (fun c e fs => eq_refl) (C := Sample.codecs)
           (Sample.pull_request "us-central1-npm.pkg.dev/proj/repo")
           (Sample.start _) answer Hrun).
Defined.

(** ** The token file that stays behind *)

Section FileFrames.
Import FS DictFacts FSFacts.

Lemma remove_keeps_file p : forall q c fs fs',
  remove p fs = Some fs' ->
  lookup q fs = Some (File c) ->
  (forall r, q <> (p ++ r)%list) ->
  lookup q fs' = Some (File c).
Proof.
  induction p as [|s p IH]; intros q c fs fs' Hrm Hq Hout; [discriminate|].
  destruct fs as [c0|es]; [discriminate|].
  destruct q as [|t q]; [discriminate|].
  cbn [remove] in Hrm. cbn [lookup] in Hq.
  destruct (Dict.get s es) as [child|] eqn:Hs; [|discriminate].
  destruct (String.eqb_spec t s) as [->|Hts].
  - rewrite Hs in Hq. destruct p as [|s' p].
    + now destruct (Hout q).
    + destruct (remove (s' :: p) child) as [child'|] eqn:Hchild; [|discriminate].
      injection Hrm as <-. cbn [lookup]. rewrite get_set_same.
      apply (IH q c child child' Hchild Hq).
      intros r ->. now destruct (Hout r).
  - destruct p as [|s' p].
    + injection Hrm as <-. cbn [lookup]. now rewrite get_del_other.
    + destruct (remove (s' :: p) child) as [child'|]; [|discriminate].
      injection Hrm as <-. cbn [lookup]. now rewrite get_set_other.
Qed.

Lemma written_text_is_read p c fs fs' :
  Os.write_text p c fs = Ok fs' -> Os.read_text p fs' = Ok c.
Proof.
  unfold Os.write_text, Os.read_text, Os.stat.
  destruct (Os.resolve p) as [segs|]; [|discriminate].
  destruct (lookup segs fs) as [[c0|es]|]; try discriminate;
    destruct (put segs (File c) fs) as [fs1|] eqn:Hput; try discriminate;
    intros [= <-]; now rewrite (lookup_put _ _ _ _ Hput).
Qed.

Lemma write_keeps_sibling dir a b c text fs fs' :
  file_name a -> file_name b -> a <> b ->
  Os.read_text (OsPath.join dir a) fs = Ok text ->
  Os.write_text (OsPath.join dir b) c fs = Ok fs' ->
  Os.read_text (OsPath.join dir a) fs' = Ok text.
Proof.
  intros Ha Hb Hab Hread Hwrite.
  apply read_text_lookup in Hread as [Hne Hfile].
  apply read_text_lookup. split; [assumption|].
  rewrite (segments_join _ _ Ha), lookup_app in *.
  destruct (lookup (OsPath.segments dir) fs) as [[c0|es]|] eqn:Hdir;
    try discriminate.
  cbn [lookup] in Hfile.
  unfold Os.write_text, Os.resolve in Hwrite.
  rewrite (proj2 (String.eqb_neq _ _) (join_nonempty _ _ (proj1 Hb))) in Hwrite.
  rewrite (segments_join _ _ Hb) in Hwrite.
  rewrite (put_child _ _ _ _ _ Hdir) in Hwrite.
  revert Hwrite.
  destruct (lookup (OsPath.segments dir ++ [b]) fs) as [[c1|es1]|];
    try discriminate;
    destruct (put _ _ fs) as [fs1|] eqn:Hput; try discriminate;
    intros [= <-]; rewrite (lookup_put _ _ _ _ Hput);
    cbn [lookup]; now rewrite get_set_other.
Qed.

Lemma rmtree_keeps_file temp_dir dir name text fs :
  file_name name ->
  (forall r, OsPath.segments dir <> (OsPath.segments temp_dir ++ r)%list) ->
  Os.read_text (OsPath.join dir name) fs = Ok text ->
  Os.read_text (OsPath.join dir name) (Os.rmtree_ignore_errors temp_dir fs)
  = Ok text.
Proof.
  intros Hname Hout Hread. unfold Os.rmtree_ignore_errors.
  destruct (Os.stat temp_dir fs) as [[c0|es]|] eqn:Hstat; try assumption.
  destruct (remove (OsPath.segments temp_dir) fs) as [fs'|] eqn:Hrm;
    [|assumption].
  apply read_text_lookup in Hread as [Hne Hfile].
  apply read_text_lookup. split; [assumption|].
  rewrite (segments_join _ _ Hname) in *.
  apply (remove_keeps_file _ _ _ _ _ Hrm Hfile).
  intros r Heq. induction r as [|x r _] using rev_ind.
  - rewrite app_nil_r in Heq.
    unfold Os.stat, Os.resolve in Hstat.
    destruct (String.eqb temp_dir ""); [discriminate|].
    rewrite <- Heq in Hstat. congruence.
  - rewrite app_assoc in Heq. apply app_inj_tail in Heq as [Heq _].
    now destruct (Hout r).
Qed.

End FileFrames.

Section TokenFile.
Context {H : Host} {C : Codecs}.

(** [preserves I m]: however [m] ends, it leaves a file tree that
    satisfies [I] if it has found one. *)
Definition preserves {A} (I : FS.node -> Prop) (m : M A) : Prop :=
  forall w, I (w_fs w) -> I (w_fs (snd (m w))).

Lemma preserves_keeps {A} I (m : M A) : keeps_files m -> preserves I m.
Proof. intros Hm w Hi. now rewrite Hm. Qed.

Lemma preserves_bind {A B} I (m : M A) (k : A -> M B) :
  preserves I m -> (forall a, preserves I (k a)) -> preserves I (bind m k).
Proof.
  intros Hm Hk w Hi. unfold bind. specialize (Hm w Hi).
  destruct (m w) as [[a|e|] w1]; cbn [snd] in *; try assumption.
  now apply Hk.
Qed.

Lemma preserves_try_except {A} I (m : M A) handler :
  preserves I m -> (forall e, preserves I (handler e)) ->
  preserves I (try_except m handler).
Proof.
  intros Hm Hh w Hi. unfold try_except. specialize (Hm w Hi).
  destruct (m w) as [[a|e|] w1]; cbn [snd] in *; try assumption.
  now apply Hh.
Qed.

Lemma preserves_fs_write (I : FS.node -> Prop) op :
  (forall fs fs', I fs -> op fs = Ok fs' -> I fs') -> preserves I (fs_write op).
Proof.
  intros Hop w Hi. unfold fs_write.
  destruct (op (w_fs w)) as [fs'|e] eqn:Hw; [|assumption].
  exact (Hop _ _ Hi Hw).
Qed.

Lemma triple_preserves {A} I (m : M A) :
  preserves I m -> triple I m (fun _ fs => I fs).
Proof.
  intros Hm w a w' Hi Hrun. specialize (Hm w Hi). now rewrite Hrun in Hm.
Qed.

Lemma triple_any {A} P (m : M A) : triple P m (fun _ _ => True).
Proof. easy. Qed.

Lemma triple_pure {A} (fact : Prop) (m : M A) Q :
  (fact -> triple (fun _ => True) m Q) -> triple (fun _ => fact) m Q.
Proof. intros Hm w a w' Hf. now apply Hm. Qed.

Lemma triple_finally {A} P (Q1 Q : A -> FS.node -> Prop) (m : M A) cleanup :
  triple P m Q1 ->
  (forall a, triple (Q1 a) cleanup (fun _ fs => Q a fs)) ->
  triple P (try_finally m cleanup) Q.
Proof.
  intros Hm Hc w a w' Hp. unfold try_finally. specialize (Hm w).
  destruct (m w) as [[a'|e|] w1]; try discriminate;
    destruct (cleanup w1) as [[[]|e'|] w2] eqn:Hclean; try discriminate.
  intros [= <- <-]. apply (Hc a' w1 tt w2); [|assumption].
  now apply (Hm a' w1).
Qed.

(** The fresh directory is neither the source directory nor above it:
    the source directory held package.json before the directory was
    made. *)
Lemma mkdtemp_is_outside source_dir :
  triple (fun fs => Os.path_exists (OsPath.join source_dir "package.json") fs = true)
    mkdtemp
    (fun temp_dir _ =>
       forall r, OsPath.segments source_dir <> (OsPath.segments temp_dir ++ r)%list).
Proof.
  unfold mkdtemp.
  eapply triple_bind; [apply triple_keeps, keeps_host_read|]. intros name.
  eapply triple_bind; [apply triple_fs_write|]. intros ?.
  apply triple_ret. intros fs' (fs & Hpresent & Hmk) r Heq.
  unfold mkdir in Hmk.
  destruct (Os.stat name fs) eqn:Hstat; [discriminate|].
  unfold Os.stat in Hstat.
  unfold Os.resolve in *. destruct (String.eqb name ""); [discriminate|].
  unfold Os.path_exists, Os.stat, Os.resolve in Hpresent.
  destruct (String.eqb _ ""); [discriminate|].
  assert (Hname : file_name "package.json") by (repeat split; discriminate).
  rewrite (segments_join _ _ Hname), Heq, <- app_assoc, FSFacts.lookup_app, Hstat
    in Hpresent.
  discriminate.
Qed.

Lemma configure_npmrc_writes target_dir repository token :
  triple (fun _ => True) (configure_npmrc target_dir repository token)
    (fun r fs => forall npmrc, r = Success npmrc ->
                   Os.read_text (OsPath.join target_dir ".npmrc") fs
                   = Ok (npmrc_text repository token)).
Proof.
  unfold configure_npmrc. apply triple_try_except.
  - eapply triple_bind; [apply triple_any|]. intros present.
    eapply triple_bind; [apply triple_any|]. intros original.
    eapply triple_bind; [apply triple_fs_write|]. intros ?.
    apply triple_ret. intros fs' (fs & _ & Hwrite) npmrc _.
    exact (written_text_is_read _ _ _ _ Hwrite).
  - intros e. apply returns_ret. discriminate.
Qed.

Variable source : string.

Definition holds_npmrc (text : string) (fs : FS.node) : Prop :=
  Os.read_text (OsPath.join source ".npmrc") fs = Ok text.

Hypothesis programs_keep_npmrc :
  forall c e fs text,
    holds_npmrc text fs -> holds_npmrc text (snd (spawn c e fs)).

Lemma preserves_run text (c : call) : preserves (holds_npmrc text) (subprocess_run c).
Proof.
  intros w Hi. unfold subprocess_run.
  specialize (programs_keep_npmrc c (w_ext w) (w_fs w) text Hi).
  destruct (spawn c (w_ext w) (w_fs w)) as [[b e'] fs'].
  cbn in programs_keep_npmrc. now destruct (decide c b).
Qed.

Lemma preserves_dump text members :
  preserves (holds_npmrc text)
    (dump_manifest (OsPath.join source "package.json") members).
Proof.
  unfold dump_manifest. apply preserves_fs_write. intros fs fs' Hi Hwrite.
  refine (write_keeps_sibling _ _ _ _ _ _ _ _ _ _ Hi Hwrite);
    [apply file_name_npmrc|repeat split; discriminate|discriminate].
Qed.

Lemma preserves_load text :
  preserves (holds_npmrc text) (load_manifest (OsPath.join source "package.json")).
Proof.
  apply preserves_keeps. unfold load_manifest.
  apply keeps_bind; [apply keeps_fs_read|]. intros content.
  destruct (json_loads content) as [[| | | | |members]|];
    first [apply keeps_ret | intros w; reflexivity].
Qed.


End TokenFile.

